(* ===== verification/_CoqProject ===== *)
-Q . S2P
Prelude.v
GoSlice.v
Utf16.v
GoStrings.v
NetIP.v
AddressResolver.v
Codec.v
Transport.v
Process.v
WindowHijacker.v
InputUnlock.v
UserInterface.v
Program.v
