(* ===== verification/Prelude.v ===== *)
(** * Mythgone: a verification development of the mythgone counter-agent

    The repository (Go, Windows only) is a small desktop tool that works
    against a classroom "teacher console" agent (StudentMain.exe).  Its
    parts, and how they call each other:

    - [src/udp.go]: the network side.  [UDPClient] keeps the target
      specification, port, teacher address and the broadcast flag, plus the
      two sockets opened by [Connect].  [parseIPRange] expands a target
      specification (CIDR block, [*] wildcard, [a-b] range, literal);
      [incrementIP] is its byte-wise carry counter; [ipToBytes] and
      [stringToUTF16LE] feed the six packet builders [SendMessage],
      [Shutdown], [Reboot], [CloseApp], [SetLoginMode], [RunCommand], each of
      which builds a fixed-size packet and hands it to [SendPacket]
      (unicast) or [SendBroadcastPacket] (fan-out over [parseIPRange]).
    - [src/process.go]: the process controller.  [FindMythwareProcess]
      scans a process snapshot, [GetProcessState] probes every thread's
      suspend count, [KillProcessByThreads] terminates thread by thread,
      [Suspend]/[ResumeMythwareProcess] use the whole-process NT calls and
      [StartMythwareProcess] launches the executable found in the registry.
    - [src/main.go]: the window hijacker (broadcast-window subclassing,
      location-change event hook, the 20 ms monitor, the black-screen
      re-parenting monitor) and the input-unlock loops (mouse and keyboard
      hook threads, their start and stop), wired to check boxes of the UI.
    - [src/main.go] also holds the walk UI: two check boxes that set the
      tool's own window's display affinity and topmost band, a goroutine
      that re-asserts the topmost band every 20 ms, and the main window's
      [Closing] handler, which stops every feature above and exits.
    - [src/control.go]: a second dialog ([CreateControlWindow]) that takes
      the main window's settings when it is created, and
      [UpdateControlWindowCaptureState]; nothing in the repository calls
      either, and the package variable [controlWindow] they use is not
      declared.

    ** Layout of the library (files in dependency order)

    - [Prelude] (this file): the Go result monad [go_ret] ([Ret] a value,
      [Err] a returned [error], [Panic] a runtime panic), byte predicates,
      generic lemmas on lists, strings and integers, the hint databases
      [mythgone] / [mythgone_rw] and the tactics [go_simpl], [len_solve],
      [peel_app].
    - [GoSlice]: the Go statements the builders execute on a
      [make([]byte, n)] buffer: slice expressions, [copy],
      [binary.LittleEndian.PutUint32] and indexed stores, each panicking
      exactly where the Go runtime does; a builder's body is a list of
      [write]s run by [run_writes].
    - [Utf16]: [[]rune(s)] (UTF-8 decoding as the Go runtime does it,
      invalid bytes to U+FFFD), [utf16.Encode] and [stringToUTF16LE]
      (udp.go 108-116).
    - [GoStrings]: [strings.Contains], [strings.Split] on one-byte
      separators and decimal formatting.
    - [NetIP]: the part of Go's [net] package the code calls ([ParseIP]
      as in Go 1.22, IPv4 and IPv6 text, [To4], [IP.String], [ParseCIDR]
      for IPv4, [Mask], [Contains], [Equal]) and udp.go's [ipToBytes] (95-105) and
      [incrementIP] (186-193).
    - [AddressResolver]: [parseIPRange] (119-183) with its four branches
      and [ParseTargetIP].
    - [Codec]: the six builders of udp.go ([SendMessage] 242-265,
      [Shutdown]/[Reboot]/[CloseApp] 272-374, [SetLoginMode] 382-416,
      [RunCommand] 425-450) up to the send, and the wire layouts
      [message_wire], [control_wire] they are proved to produce.
    - [Transport]: [UDPClient] with its two sockets, [Connect], [Close],
      [SendPacket], [SendBroadcastPacket] and the send tail of every
      builder (udp.go 17-82, 196-239), written against the type class
      [UdpStack] (address resolution and which socket calls succeed); the
      [world] records open sockets and sent datagrams.  [literal_stack] is
      an instance for literal "a.b.c.d:port" addresses that discharges the
      class's law; the witnesses run on it.
    - [Process]: every function of process.go over an explicit kernel
      state [sys] (process table, thread table with suspend counts, open
      handle count, registry, startable executables).  The Windows calls
      are state transformers with their documented results, including
      failure values ([INVALID_HANDLE_VALUE], [(DWORD)-1] from
      [SuspendThread] at [MAXIMUM_SUSPEND_COUNT]); the snapshot loops are
      traversals of the table as it was when the snapshot was taken.
    - [WindowHijacker]: main.go's window functions (113-371) over an
      explicit window manager [winsys] (windows with title, parent, window
      procedure, extended style, owner process, creating thread).
      [FindWindowW] sees top-level windows only,
      [SetWindowLongW(GWL_WNDPROC)] is refused for another process's
      window, [DestroyWindow] is refused for another thread's window and
      takes the descendants with it; the black-screen goroutine is not
      locked to an OS thread, so each of its ticks names the thread it
      runs on, and walk's handlers run on [UI_THREAD].  The pin's package variables are the record [pin]; the interceptor
      [broadcastWindowHook] runs inside [CallWindowProc], an interpreter of
      the procedure chain with fuel ([None] = the chain does not return);
      the check box, the goroutine [monitorBroadcastWindow] (804-833) and
      the event hook are the transitions of [pin_step].  The embed is the
      record [bscreen] with [blackscreen_tick] (one tick of
      [monitorBlackScreenWindow], 836-865) and the check box handlers.
    - [InputUnlock] (Module [Unlock]): [Start]/[StopMouseUnlock],
      [Start]/[StopKeyboardUnlock] and the two hook threads (379-553).  The
      UI thread and the unlock thread interleave: [ustep] is a step
      relation on a [world] holding the Go channels (closed flags, nil as
      [None]), the feature's package variables, the thread with its
      program counter (before the [select] or holding its hooks during the
      [Sleep]), how far the UI thread is inside [Stop], and the kernel's
      hooks (with their owning thread), handles and filter-driver
      requests.  A thread that ends releases its hooks.
    - [UserInterface]: the tool's own windows as [ownwin] records
      (affinity, topmost band, brought to front) in [uistate] with the two
      check boxes; the handlers [capture_changed], [topmost_changed],
      [main_init], the topmost goroutine's [topmost_read] and
      [topmost_act], [OpenURL] (main.go 555-778) and
      control.go's [CreateControlWindow], its [Closing] handler and
      [UpdateControlWindowCaptureState]; [ui_step] dispatches the UI
      events.
    - [Program]: the whole program.  [app] holds every component's state
      (UI state, broadcast pin, black-screen embed over the desktop, both
      unlock worlds, the topmost goroutine, the exit); [main_app] is what
      [main] leaves before [application.Run] (568-778); [Closing] is the
      main window's handler (780-798), composing [WindowHijacker]'s and
      [InputUnlock]'s operations; [app_step] is the event loop: the UI
      thread's handlers one at a time (only outside a [Stop]), the blocks
      of a [Stop] interleaved with both unlock threads, the monitors'
      ticks, the topmost goroutine's test and set as two steps, and other
      programs changing the desktop.  Each unlock feature keeps its own [kernel]: the two
      threads touch disjoint hooks, and a thread's end releases only its
      own.  [Closing] runs both [Stop]s as the Go functions, with no
      thread step in between ([stop_run_refines] relates them to the
      block-by-block [Stop]).

    ** What is proved

    - Packet layouts: [SendMessage] and the three control builders produce
      exactly their wire layouts, and in every packet they return the
      length fields are the packet length minus 28 and 41; builders report
      a [rand.Read] failure, then [ipToBytes]'s error, as errors;
      [SetLoginMode] always panics (71-byte buffer, stores up to index
      74), [RunCommand] always panics ([packet[906]] of a 906-byte
      buffer), [SendMessage] panics on texts over 898 UTF-16LE bytes.
    - Text and addresses: [stringToUTF16LE] never panics and its output
      decodes back to the runes of the string; [ipToBytes] reads back
      every address [IP.String] prints; [incrementIP] is +1 modulo
      2^(8n).
    - Target expansion: a range "a-b" with a <> b never terminates (the
      loop re-copies the start address every iteration).
    - Transport: the fan-out sends to exactly the deliverable targets in
      order and fails only when none was; a unicast [SendMessage] sends one
      datagram with the proved layout; a failed broadcast [Connect] leaks
      its listening socket.
    - Process controller: [GetProcessState] computes [classify] and leaves
      the system unchanged when every probed count is below the limit, but
      lowers a count that is at [MAXIMUM_SUSPEND_COUNT]; suspend then
      resume is the identity; [KillProcessByThreads] ends exactly the
      terminable threads and the process disappears with its last thread;
      [GetMythwareInstallPath] falls back to the native key only when the
      WOW6432Node key is absent.
    - Window hijacker: the interceptor forwards deactivation and swallows
      activation, the reverse of the spec; [SetWindowNoActivate] changes
      bit 27 only; the black-screen embed is lost on the second tick
      (the agent's window is destroyed when that tick runs on the thread
      that created the hidden parent, and left in an untracked hidden
      window otherwise); unchecking the box un-parents the window but
      cannot destroy the hidden parent, another thread's window; a failing
      [SetParent] leaks one hidden window per tick.
    - Input unlock, for every interleaving (an invariant [Inv] preserved
      by [ustep]): no channel is closed twice, the thread sees its quit
      signal only between [close] and [quit = nil], after [Stop] no thread
      and no hook remain; one run leaves a stale hook handle; a keyboard
      iteration installs only its two low-level hooks and releases them;
      every start/stop cycle leaks a thread handle.
    - The UI: a control dialog keeps its capture exclusion when the box
      is unchecked (the update function is never called).
    - The whole program, by rule induction on [app_step] from [main_app]
      (invariant [app_inv]): in every run the main window is excluded
      from capture exactly as its box says; from every state before the
      exit the program can exit (liveness: the UI thread finishes any
      [Stop] it is in, then [Closing] returns without a panic, leaving no
      unlock thread or hook, the event hook removed, every goroutine
      stopped); the topmost goroutine's test-then-set races with the
      "topmost" box and can leave the window topmost with the box
      unchecked.

    ** Fuel and bounds

    The loops of [parseIPRange] take a fuel argument and return [None] when
    it runs out.  A CIDR block of prefix p > 0 needs 2^(32-p)+1 iterations
    (for p = 0 [incrementIP] wraps around inside the block and the loop
    does not stop), a wildcard none (its two loops are bounded, 256 x 256);
    the range loop never stops for distinct endpoints, which
    [range_diverges] states for every fuel.  [v6_loop] gets nine rounds:
    each round writes two bytes or ends, so the ninth sees [i >= 16].  [SendBroadcastPacket] passes its fuel to [parseIPRange].
    Integers are [Z] with the width of the Go type written out: bytes are
    in [0, 256), [PutUint32] stores [v mod 2^32] little-endian, counts are
    [uint32]/[DWORD] values.  [CallWindowProc] needs one unit of fuel per
    procedure in the chain: two when the saved original is another
    procedure, and none suffices once the interceptor is its own original.

    ** Not modelled

    - IPv6 prefixes in [ParseCIDR] (the model of [net.ParseCIDR] takes
      IPv4 prefixes only; [ParseIP] takes IPv6 text as Go does).
    - The declarative layout of the walk UI (widgets, sizes, icons,
      [log.Fatal] on creation errors): library calls whose results the
      program does not read back.  [syscall.Exit(0)] at the end of
      [Closing] is the flag [exited].
    - Window positions ([MoveWindow] in [CreateBlackScreenParentWindow])
      and the timing of tickers and [Sleep]s: the model orders events, it
      does not time them.
    - Concurrency: other processes changing the process or thread table
      between the snapshot and the calls; the real network (datagrams are
      recorded, not delivered); a tick of a monitor goroutine that Go's
      [select] may still run after its channel is closed (the black-screen
      tick does nothing once its box is unchecked, the broadcast one is
      stopped at the close).
    - Threads: only [DestroyWindow]'s rule (a thread destroys only its own
      windows) is modelled; the other user32 calls the code makes work
      across threads. *)

From Stdlib Require Export Bool ZArith String Ascii Lia ZifyNat ZifyPow.
From stdpp Require Export base list list_numbers strings.
Export ListNotations.

#[global] Open Scope Z_scope.
#[global] Open Scope list_scope.

(** ** Go results: a value, a returned [error], or a runtime panic.

    Every method of [UDPClient] returns [(int, error)] with code 1 exactly
    when the error is non-nil, so [Ret] stands for [(0, nil)] (or for the
    value of a helper), [Err msg] for [(1, errors.New(msg))], and [Panic]
    for a run-time panic of the Go runtime (index or slice bounds), which
    unwinds past every caller. *)
Inductive go_ret (A : Type) : Type :=
| Ret (a : A)
| Err (msg : string)
| Panic (msg : string).
Arguments Ret {A} a.
Arguments Err {A} msg%_string.
Arguments Panic {A} msg%_string.

#[global] Instance go_ret_ret : MRet go_ret := @Ret.
#[global] Instance go_ret_bind : MBind go_ret := fun A B k m =>
  match m with
  | Ret a => k a
  | Err e => Err e
  | Panic e => Panic e
  end.
#[global] Instance go_ret_fmap : FMap go_ret := fun A B f m =>
  match m with
  | Ret a => Ret (f a)
  | Err e => Err e
  | Panic e => Panic e
  end.

Definition is_panic {A} (r : go_ret A) : bool :=
  match r with Panic _ => true | _ => false end.
Definition is_err {A} (r : go_ret A) : bool :=
  match r with Err _ => true | _ => false end.

Lemma go_bind_ret {A B} (a : A) (k : A -> go_ret B) : (Ret a ≫= k) = k a.
Proof. reflexivity. Qed.
Lemma go_bind_panic {A B} e (k : A -> go_ret B) : (Panic e ≫= k) = Panic e.
Proof. reflexivity. Qed.
Lemma go_bind_err {A B} e (k : A -> go_ret B) : (Err e ≫= k) = Err e.
Proof. reflexivity. Qed.
Lemma go_mret (A : Type) (a : A) : mret a = Ret a.
Proof. reflexivity. Qed.

(** A bind that returns a value ran its first computation to a value. *)
Lemma go_bind_Ret_inv {A B} (m : go_ret A) (k : A -> go_ret B) b :
  (m ≫= k) = Ret b -> exists a, m = Ret a /\ k a = Ret b.
Proof. destruct m as [a| |]; cbn; [eauto|discriminate..]. Qed.

(** ** Bytes

    A Go [byte] is a [Z] in [0, 256); a [uint16] a [Z] in [0, 65536). *)
Definition is_byte (z : Z) : bool := (0 <=? z) && (z <? 256).
Definition bytes_ok (l : list Z) : Prop := Forall (fun z => 0 <= z < 256) l.

Lemma bytes_ok_app l1 l2 : bytes_ok (l1 ++ l2) <-> bytes_ok l1 /\ bytes_ok l2.
Proof. apply Forall_app. Qed.
Lemma bytes_ok_replicate n : bytes_ok (replicate n 0).
Proof. apply Forall_replicate. lia. Qed.
Lemma bytes_ok_take n l : bytes_ok l -> bytes_ok (take n l).
Proof. apply Forall_take. Qed.
Lemma bytes_ok_drop n l : bytes_ok l -> bytes_ok (drop n l).
Proof. apply Forall_drop. Qed.

(** ** Lists *)

(** Induction for functions that consume a list several elements at a
    time: the hypothesis holds for every suffix of the tail. *)
Lemma list_drop_ind {A} (P : list A -> Prop) :
  P [] ->
  (forall a t, (forall k, (k <= length t)%nat -> P (drop k t)) -> P (a :: t)) ->
  forall l, P l.
Proof.
  intros Hnil Hcons l. remember (length l) as n eqn:Hn.
  revert l Hn. induction n as [n IH] using lt_wf_ind. intros [|a t] Hn; [exact Hnil|].
  apply Hcons. intros k Hk. eapply IH; [|reflexivity]. simpl in Hn. rewrite length_drop. lia.
Qed.

(** ** Integers *)

(** An [|] with a value that fits below the shift is an addition. *)
Lemma lor_shiftl_low a b k : 0 <= k -> 0 <= b < 2 ^ k -> Z.lor (Z.shiftl a k) b = a * 2 ^ k + b.
Proof.
  intros Hk Hb.
  assert (D : Z.land (Z.shiftl a k) b = 0).
  { apply Z.bits_inj'. intros n Hn. rewrite Z.land_spec, Z.shiftl_spec, Z.bits_0 by lia.
    destruct (Z.lt_ge_cases n k).
    - rewrite Z.testbit_neg_r by lia. reflexivity.
    - destruct (Z.eq_dec b 0) as [->|Hb0]; [rewrite Z.bits_0; apply andb_false_r|].
      rewrite (Z.bits_above_log2 b n); [apply andb_false_r|lia|].
      pose proof (proj1 (Z.log2_lt_pow2 b k ltac:(lia)) (proj2 Hb)); lia. }
  rewrite <- Z.shiftl_mul_pow2 by lia.
  rewrite <- Z.lxor_lor by exact D. symmetry. apply Z.add_nocarry_lxor, D.
Qed.

Lemma existsb_map {A B} (f : B -> bool) (g : A -> B) l :
  existsb f (map g l) = existsb (fun x => f (g x)) l.
Proof. induction l as [|x l IH]; cbn; [reflexivity|]. by rewrite IH. Qed.

Lemma existsb_ext {A} (f g : A -> bool) l : (forall x, f x = g x) -> existsb f l = existsb g l.
Proof. intros H. induction l as [|x l IH]; cbn; [reflexivity|]. by rewrite H, IH. Qed.

Lemma filter_all_true {A} (f : A -> bool) l : (forall x, In x l -> f x = true) -> List.filter f l = l.
Proof.
  induction l as [|x l IH]; intros H; cbn; [reflexivity|].
  rewrite H by (left; reflexivity). f_equal. apply IH. intros y Hy. apply H. right. exact Hy.
Qed.

Lemma filter_twice {A} (f : A -> bool) l : List.filter f (List.filter f l) = List.filter f l.
Proof.
  apply filter_all_true. intros x Hx. apply filter_In in Hx as [_ Hx]. exact Hx.
Qed.

Lemma existsb_filter {A} (f g : A -> bool) l :
  existsb f (List.filter g l) = true -> existsb f l = true.
Proof.
  rewrite !existsb_exists. intros (x & Hx & Hf). apply filter_In in Hx as [Hx _]. eauto.
Qed.

Lemma find_app_none {A} (p : A -> bool) l l' :
  List.find p l = None -> List.find p (l ++ l') = List.find p l'.
Proof. induction l as [|x l IH]; cbn; [reflexivity|]. destruct (p x); [discriminate|exact IH]. Qed.

Lemma find_app_some {A} (p : A -> bool) l l' x :
  List.find p l = Some x -> List.find p (l ++ l') = Some x.
Proof. induction l as [|y l IH]; cbn; [discriminate|]. destruct (p y); [exact id|exact IH]. Qed.

Lemma list_last_app_cons {A} (l l' : list A) (x d : A) :
  List.last (l ++ x :: l') d = List.last (x :: l') d.
Proof. induction l as [|y l IH]; [reflexivity|]. cbn [app]. rewrite <- IH. by destruct l. Qed.

(** [String.append] computes on its first argument; stdpp declares it
    [simpl never], so its two equations are stated for rewriting. *)
Lemma string_append_nil t : String.append EmptyString t = t.
Proof. reflexivity. Qed.
Lemma string_append_cons x s t : String.append (String x s) t = String x (String.append s t).
Proof. reflexivity. Qed.

(** ** Hint database and tactics *)
Create HintDb mythgone discriminated.
Create Rewrite HintDb mythgone_rw.
#[export] Hint Resolve bytes_ok_replicate bytes_ok_take bytes_ok_drop : mythgone.
#[export] Hint Rewrite @go_bind_ret @go_bind_panic @go_bind_err @go_mret : mythgone_rw.
#[export] Hint Rewrite @length_app @length_take @length_drop @length_replicate
  @length_map : mythgone_rw.

(** Normalise monadic glue and lengths, then close arithmetic. *)
(** Peel the binds of a hypothesis [H : (x ← m; k) = Ret b]. *)
Ltac go_inv H :=
  repeat match type of H with
  | mbind _ _ = Ret _ => apply go_bind_Ret_inv in H as (?a & ?Ha & H); cbv beta in H
  end.

Ltac go_simpl := repeat (autorewrite with mythgone_rw in *; simpl in *).
Ltac len_solve := autorewrite with mythgone_rw in *; cbn [Datatypes.length] in *; lia.

(** Strip the common prefix of two right-nested concatenations. *)
Ltac peel_app :=
  repeat match goal with
  | |- Ret _ = Ret _ => f_equal
  | |- ?a ++ _ = ?a ++ _ => f_equal
  end.
