(* ===== verification/GoSlice.v ===== *)
(** * GoSlice: byte slices of the Go runtime as udp.go uses them

    Every packet builder of udp.go allocates [packet := make([]byte, n)]
    (length = capacity = n) and then runs a straight line of statements:
    [copy(packet[lo:hi], src)], [binary.LittleEndian.PutUint32(packet[lo:hi],
    v)] and [packet[i] = v].  This file gives each statement the Go
    semantics, including the run-time panics:
    - a slice expression [p[lo:hi]] panics unless [lo <= hi <= cap(p)];
    - [copy] copies [min(len dst, len src)] bytes;
    - [PutUint32] panics unless its slice has at least 4 bytes ([_ = b[3]]);
    - [p[i] = v] panics unless [i < len(p)].
    A statement is a value of [write]; [run_writes] runs a list of them.
    The layout lemma [run_writes_layout] says what a run of contiguous,
    in-bounds writes produces, and [run_writes_panic] that the first
    out-of-bounds statement aborts the whole builder. *)

From S2P Require Import Prelude.

(** [make([]byte, n)] *)
Definition make (n : nat) : list Z := replicate n 0.

(** [p] with the bytes [l] stored from index [lo] on. *)
Definition splice (lo : nat) (l p : list Z) : list Z :=
  take lo p ++ l ++ drop (lo + length l) p.

(** The bounds check of the slice expression [p[lo:hi]] (capacity = length
    for a slice from [make]). *)
Definition slice_ok (lo hi : nat) (p : list Z) : bool :=
  (lo <=? hi)%nat && (hi <=? length p)%nat.

(** [copy(p[lo:hi], src)] *)
Definition copy_to (lo hi : nat) (src p : list Z) : go_ret (list Z) :=
  if slice_ok lo hi p then Ret (splice lo (take (hi - lo) src) p)
  else Panic "slice bounds out of range".

(** The four bytes [binary.LittleEndian.PutUint32] stores for [v]. *)
Definition le32 (v : Z) : list Z :=
  map (fun i => Z.land (Z.shiftr v (8 * i)) 255) [0; 1; 2; 3].

(** [binary.LittleEndian.Uint32(p[lo:lo+4])], when those bytes exist (the
    library's [|] of shifted bytes is their sum, since each is below 256). *)
Definition get_uint32 (lo : nat) (p : list Z) : option Z :=
  match drop lo p with
  | b0 :: b1 :: b2 :: b3 :: _ =>
      Some (b0 + 2 ^ 8 * b1 + 2 ^ 16 * b2 + 2 ^ 24 * b3)
  | _ => None
  end.

(** [binary.LittleEndian.PutUint32(p[lo:hi], v)] *)
Definition put_uint32 (lo hi : nat) (v : Z) (p : list Z) : go_ret (list Z) :=
  if slice_ok lo hi p then
    if (4 <=? hi - lo)%nat then Ret (splice lo (le32 v) p)
    else Panic "index out of range [3]"
  else Panic "slice bounds out of range".

(** [p[i] = v] *)
Definition set_index (i : nat) (v : Z) (p : list Z) : go_ret (list Z) :=
  if (i <? length p)%nat then Ret (<[i:=v]> p) else Panic "index out of range".

(** The two bytes [binary.LittleEndian.PutUint16] stores for [v]. *)
Definition le16 (v : Z) : list Z := [Z.land v 255; Z.land (Z.shiftr v 8) 255].

(** [binary.LittleEndian.PutUint16(p[lo:], v)] *)
Definition put_uint16_from (lo : nat) (v : Z) (p : list Z) : go_ret (list Z) :=
  if (lo <=? length p)%nat then
    if (2 <=? length p - lo)%nat then Ret (splice lo (le16 v) p)
    else Panic "index out of range [1]"
  else Panic "slice bounds out of range".

(** One statement of a packet builder. *)
Inductive write : Type :=
| WCopy (lo hi : nat) (src : list Z)
| WPut32 (lo hi : nat) (v : Z)
| WSet (i : nat) (v : Z).

Definition exec_write (w : write) (p : list Z) : go_ret (list Z) :=
  match w with
  | WCopy lo hi src => copy_to lo hi src p
  | WPut32 lo hi v => put_uint32 lo hi v p
  | WSet i v => set_index i v p
  end.

Fixpoint run_writes (ws : list write) (p : list Z) : go_ret (list Z) :=
  match ws with
  | [] => Ret p
  | w :: ws' => exec_write w p ≫= run_writes ws'
  end.

(** Where a statement writes and what it stores when it does not panic. *)
Definition w_lo (w : write) : nat :=
  match w with WCopy lo _ _ | WPut32 lo _ _ => lo | WSet i _ => i end.
Definition w_hi (w : write) : nat :=
  match w with WCopy _ hi _ | WPut32 _ hi _ => hi | WSet i _ => S i end.
Definition w_bytes (w : write) : list Z :=
  match w with
  | WCopy lo hi src => take (hi - lo) src
  | WPut32 _ _ v => le32 v
  | WSet _ v => [v]
  end.

(** The statement fills its whole slice (a [copy] whose source is long
    enough, a [PutUint32] on exactly four bytes, any indexed store). *)
Definition w_exact (w : write) : bool :=
  (w_lo w <=? w_hi w)%nat && (length (w_bytes w) =? w_hi w - w_lo w)%nat.

(** The statements write one field after the other from offset [o]. *)
Fixpoint contiguous (o : nat) (ws : list write) : bool :=
  match ws with
  | [] => true
  | w :: ws' => (w_lo w =? o)%nat && w_exact w && contiguous (w_hi w) ws'
  end.

Definition written (ws : list write) : list Z := concat (map w_bytes ws).

(** ** Lemmas *)

Lemma length_le32 v : length (le32 v) = 4%nat.
Proof. reflexivity. Qed.

Lemma land_255_mod a : Z.land a 255 = a mod 256.
Proof. change 255 with (Z.ones 8). rewrite Z.land_ones; reflexivity || lia. Qed.

Lemma le32_eq v :
  le32 v = [v mod 256; (v / 2 ^ 8) mod 256; (v / 2 ^ 16) mod 256; (v / 2 ^ 24) mod 256].
Proof.
  unfold le32. simpl map. rewrite !land_255_mod, !Z.shiftr_div_pow2 by lia.
  rewrite Z.div_1_r. reflexivity.
Qed.

Lemma le32_bytes v : bytes_ok (le32 v).
Proof.
  rewrite le32_eq. unfold bytes_ok.
  repeat constructor; apply Z.mod_pos_bound; lia.
Qed.

Lemma le32_sum v :
  v mod 256 + 2 ^ 8 * ((v / 2 ^ 8) mod 256) + 2 ^ 16 * ((v / 2 ^ 16) mod 256)
  + 2 ^ 24 * ((v / 2 ^ 24) mod 256) = v mod 2 ^ 32.
Proof.
  replace (v / 2 ^ 16) with (v / 256 / 256) by (rewrite Z.div_div; reflexivity || lia).
  replace (v / 2 ^ 24) with (v / 256 / 256 / 256) by (rewrite !Z.div_div; reflexivity || lia).
  change (2 ^ 8) with 256. change (2 ^ 16) with 65536. change (2 ^ 24) with 16777216.
  change (2 ^ 32) with 4294967296.
  pose proof (Z.div_mod v 256 ltac:(lia)). pose proof (Z.div_mod (v / 256) 256 ltac:(lia)).
  pose proof (Z.div_mod (v / 256 / 256) 256 ltac:(lia)).
  pose proof (Z.div_mod (v / 256 / 256 / 256) 256 ltac:(lia)).
  pose proof (Z.div_mod v 4294967296 ltac:(lia)).
  pose proof (Z.mod_pos_bound v 256 ltac:(lia)). pose proof (Z.mod_pos_bound (v / 256) 256 ltac:(lia)).
  pose proof (Z.mod_pos_bound (v / 256 / 256) 256 ltac:(lia)).
  pose proof (Z.mod_pos_bound (v / 256 / 256 / 256) 256 ltac:(lia)).
  pose proof (Z.mod_pos_bound v 4294967296 ltac:(lia)).
  set (q1 := v / 256) in *. set (q2 := q1 / 256) in *. set (q3 := q2 / 256) in *.
  set (q4 := q3 / 256) in *.
  set (r0 := v mod 256) in *. set (r1 := q1 mod 256) in *. set (r2 := q2 mod 256) in *.
  set (r3 := q3 mod 256) in *. set (R := v mod 4294967296) in *.
  set (Q := v / 4294967296) in *.
  clearbody q1 q2 q3 q4 r0 r1 r2 r3 R Q.
  lia.
Qed.

(** [Uint32] of what [PutUint32] stored is the value modulo 2^32. *)
Lemma get_uint32_splice_le32 v lo p :
  (lo + 4 <= length p)%nat ->
  get_uint32 lo (splice lo (le32 v) p) = Some (v mod 2 ^ 32).
Proof.
  intros Hlen. unfold get_uint32, splice. rewrite length_le32.
  rewrite drop_app_length' by (rewrite length_take; lia).
  rewrite le32_eq. simpl. f_equal. rewrite <- le32_sum. simpl. lia.
Qed.

Lemma length_splice lo l p :
  (lo + length l <= length p)%nat -> length (splice lo l p) = length p.
Proof. intros H. unfold splice. len_solve. Qed.

(** Storing at the end of a prefix [x] replaces the first bytes after it. *)
Lemma splice_at x l y :
  splice (length x) l (x ++ y) = x ++ l ++ drop (length l) y.
Proof.
  unfold splice. rewrite take_app_length, drop_app_ge by lia.
  do 3 f_equal. lia.
Qed.

Lemma exec_write_exact w p :
  w_exact w = true -> (w_hi w <= length p)%nat ->
  exec_write w p = Ret (splice (w_lo w) (w_bytes w) p).
Proof.
  unfold w_exact. destruct w as [lo hi src|lo hi v|i v]; cbn [w_lo w_hi w_bytes exec_write];
    rewrite andb_true_iff, Nat.leb_le, Nat.eqb_eq; intros [Hle Hl] Hhi.
  - unfold copy_to, slice_ok. rewrite (proj2 (Nat.leb_le lo hi)), (proj2 (Nat.leb_le hi _)) by lia.
    reflexivity.
  - unfold put_uint32, slice_ok. rewrite length_le32 in Hl.
    rewrite (proj2 (Nat.leb_le lo hi)), (proj2 (Nat.leb_le hi _)), (proj2 (Nat.leb_le 4 _)) by lia.
    reflexivity.
  - unfold set_index. rewrite (proj2 (Nat.ltb_lt i _)) by lia.
    rewrite insert_take_drop by lia. unfold splice.
    replace (i + length [v])%nat with (S i) by (simpl; lia). reflexivity.
Qed.

(** A statement whose slice reaches past the end of the buffer panics. *)
Lemma exec_write_oob w p :
  (w_lo w <= w_hi w)%nat -> (length p < w_hi w)%nat ->
  exists e, exec_write w p = Panic e.
Proof.
  destruct w as [lo hi src|lo hi v|i v]; cbn [w_lo w_hi exec_write]; intros Hle Hlt.
  - unfold copy_to, slice_ok. rewrite (proj2 (Nat.leb_gt hi _)) by lia.
    rewrite andb_false_r. eauto.
  - unfold put_uint32, slice_ok. rewrite (proj2 (Nat.leb_gt hi _)) by lia.
    rewrite andb_false_r. eauto.
  - unfold set_index. rewrite (proj2 (Nat.ltb_ge i _)) by lia. eauto.
Qed.

Lemma run_writes_app ws1 ws2 p :
  run_writes (ws1 ++ ws2) p = run_writes ws1 p ≫= run_writes ws2.
Proof.
  revert p. induction ws1 as [|w ws1 IH]; intros p; simpl; [reflexivity|].
  destruct (exec_write w p); simpl; auto.
Qed.

(** The first statement that panics aborts the builder with its panic. *)
Lemma run_writes_panic ws1 w ws2 p q e :
  run_writes ws1 p = Ret q -> exec_write w q = Panic e ->
  run_writes (ws1 ++ w :: ws2) p = Panic e.
Proof. intros H1 H2. rewrite run_writes_app, H1. simpl. rewrite H2. reflexivity. Qed.

(** Contiguous in-bounds statements lay their bytes out one after the
    other; the rest of the zeroed buffer is left as [make] made it. *)
Lemma run_writes_layout ws x m :
  contiguous (length x) ws = true ->
  (length (written ws) <= m)%nat ->
  run_writes ws (x ++ replicate m 0) =
    Ret (x ++ written ws ++ replicate (m - length (written ws)) 0).
Proof.
  revert x m. induction ws as [|w ws IH]; intros x m Hc Hm; simpl in *.
  - rewrite Nat.sub_0_r. reflexivity.
  - apply andb_true_iff in Hc as [Hc Hrest]. apply andb_true_iff in Hc as [Hlo Hex].
    apply Nat.eqb_eq in Hlo.
    pose proof Hex as Hex'. unfold w_exact in Hex'.
    apply andb_true_iff in Hex' as [Hle Hl]. apply Nat.eqb_eq in Hl. apply Nat.leb_le in Hle.
    unfold written in *. simpl in Hm. rewrite length_app in Hm.
    rewrite exec_write_exact by (auto; len_solve). simpl.
    rewrite Hlo, splice_at, drop_replicate, app_assoc.
    rewrite IH.
    + rewrite <- !app_assoc. simpl. rewrite length_app, Nat.sub_add_distr. reflexivity.
    + rewrite length_app. replace (length x + length (w_bytes w))%nat with (w_hi w) by lia.
      exact Hrest.
    + lia.
Qed.

(** A builder that starts from [make n] and whose statements are
    contiguous from offset 0 produces its fields followed by zeros. *)
Lemma run_writes_make ws n :
  contiguous 0 ws = true -> (length (written ws) <= n)%nat ->
  run_writes ws (make n) = Ret (written ws ++ replicate (n - length (written ws)) 0).
Proof. intros Hc Hn. apply (run_writes_layout ws [] n Hc Hn). Qed.

(** A statement that does not panic keeps the length of the buffer. *)
Lemma exec_write_length w p q : exec_write w p = Ret q -> length q = length p.
Proof.
  destruct w as [lo hi src|lo hi v|i v]; cbn [exec_write].
  - unfold copy_to, slice_ok. case_match; [|discriminate]. intros [= <-].
    apply andb_true_iff in H as [H1 H2]. apply Nat.leb_le in H1, H2.
    apply length_splice. rewrite length_take. lia.
  - unfold put_uint32, slice_ok. repeat case_match; try discriminate. intros [= <-].
    apply andb_true_iff in H as [H1 H2]. apply Nat.leb_le in H1, H2. apply Nat.leb_le in H0.
    apply length_splice. rewrite length_le32. lia.
  - unfold set_index. case_match; [|discriminate]. intros [= <-]. apply length_insert.
Qed.

Lemma run_writes_length ws p q : run_writes ws p = Ret q -> length q = length p.
Proof.
  revert p. induction ws as [|w ws IH]; intros p; cbn [run_writes]; [congruence|].
  destruct (exec_write w p) as [p'| |] eqn:E; cbn; try discriminate.
  intros H. rewrite (IH _ H). eapply exec_write_length, E.
Qed.

(** After a prefix that runs, a statement reaching past the end panics. *)
Lemma run_writes_then_oob ws1 w ws2 p q :
  run_writes ws1 p = Ret q -> (w_lo w <= w_hi w)%nat -> (length p < w_hi w)%nat ->
  exists e, run_writes (ws1 ++ w :: ws2) p = Panic e.
Proof.
  intros H1 Hle Hlt. pose proof (run_writes_length _ _ _ H1) as Hl.
  destruct (exec_write_oob w q Hle) as [e He]; [lia|].
  exists e. eapply run_writes_panic; eauto.
Qed.

(** [Uint32] of a buffer that continues with the bytes of [PutUint32 v]. *)
Lemma get_uint32_le32_app v y : get_uint32 0 (le32 v ++ y) = Some (v mod 2 ^ 32).
Proof. unfold get_uint32. rewrite drop_0, le32_eq. simpl. f_equal. rewrite <- le32_sum. lia. Qed.

(** Skip the fields in front of the offset [get_uint32] reads at. *)
Ltac drop_fields :=
  unfold get_uint32; rewrite <- ?app_assoc;
  repeat (rewrite drop_app_ge by len_solve);
  match goal with |- context [drop ?n _] => replace n with 0%nat by len_solve end;
  rewrite drop_0.

(** A contiguous in-bounds prefix followed by a statement reaching past
    the end of [make n]: the builder panics there. *)
Lemma prefix_then_oob ws1 w ws2 n :
  contiguous 0 ws1 = true -> (length (written ws1) <= n)%nat ->
  (w_lo w <= w_hi w)%nat -> (n < w_hi w)%nat ->
  exists e, run_writes (ws1 ++ w :: ws2) (make n) = Panic e.
Proof.
  intros Hc Hn Hle Hlt. eapply run_writes_then_oob; [apply run_writes_make; eauto | exact Hle |].
  unfold make. rewrite length_replicate. exact Hlt.
Qed.

(** One more in-bounds statement after a prefix that runs. *)
Lemma run_writes_snoc_ok ws w p q :
  run_writes ws p = Ret q -> w_exact w = true -> (w_hi w <= length p)%nat ->
  exists q', run_writes (ws ++ [w]) p = Ret q'.
Proof.
  intros H Hw Hhi. pose proof (run_writes_length _ _ _ H) as Hl.
  rewrite run_writes_app, H. cbn [mbind go_ret_bind run_writes].
  rewrite exec_write_exact by (exact Hw || lia). eexists. reflexivity.
Qed.

