(* ===== verification/Utf16.v ===== *)
(** * Utf16: [stringToUTF16LE] of udp.go

    [stringToUTF16LE] (udp.go, lines 108-116) converts a Go string (a byte
    sequence) to runes with [[]rune(s)], encodes them with [utf16.Encode],
    allocates [len*2] bytes and stores every code unit with
    [binary.LittleEndian.PutUint16(bytes[i*2:], v)].  The text payloads of
    [SendMessage] and [RunCommand] are built with it.

    - [decode_runes] is the Go runtime's [[]rune(s)] (runtime
      [decoderune]): well-formed UTF-8 sequences give their code point,
      every other byte gives U+FFFD and is skipped alone.
    - [encode_rune16] / [utf16_encode] is [utf16.Encode].
    - [put_units] is the loop of [stringToUTF16LE], with the panics of
      [PutUint16]; [stringToUTF16LE] the whole function.
    - [utf16le_decode] is the reference decoder used to state the round
      trip. *)

From S2P Require Import Prelude GoSlice.

(** The bytes of a Go string. *)
Definition go_bytes (s : string) : list Z :=
  map (fun c => Z.of_N (N_of_ascii c)) (list_ascii_of_string s).

Definition runeError : Z := 0xFFFD.

Definition in_cont (b : Z) : bool := (0x80 <=? b) && (b <=? 0xBF).

(** [[]rune(s)]: the ASCII fast path of [range] over a string, then the
    runtime's [decoderune] for two-, three- and four-byte sequences. *)
Fixpoint decode_runes (s : list Z) : list Z :=
  match s with
  | [] => []
  | b0 :: t =>
    if b0 <? 0x80 then b0 :: decode_runes t else
    if (0xC0 <=? b0) && (b0 <? 0xE0) then
      match t with
      | b1 :: t1 =>
          let r := Z.lor (Z.shiftl (Z.land b0 0x1F) 6) (Z.land b1 0x3F) in
          if in_cont b1 && (0x7F <? r) then r :: decode_runes t1
          else runeError :: decode_runes t
      | [] => runeError :: decode_runes t
      end
    else if (0xE0 <=? b0) && (b0 <? 0xF0) then
      match t with
      | b1 :: b2 :: t2 =>
          let r := Z.lor (Z.shiftl (Z.land b0 0x0F) 12)
                     (Z.lor (Z.shiftl (Z.land b1 0x3F) 6) (Z.land b2 0x3F)) in
          if in_cont b1 && in_cont b2 && (0x7FF <? r)
             && negb ((0xD800 <=? r) && (r <=? 0xDFFF))
          then r :: decode_runes t2
          else runeError :: decode_runes t
      | _ => runeError :: decode_runes t
      end
    else if (0xF0 <=? b0) && (b0 <? 0xF8) then
      match t with
      | b1 :: b2 :: b3 :: t3 =>
          let r := Z.lor (Z.shiftl (Z.land b0 0x07) 18)
                     (Z.lor (Z.shiftl (Z.land b1 0x3F) 12)
                        (Z.lor (Z.shiftl (Z.land b2 0x3F) 6) (Z.land b3 0x3F))) in
          if in_cont b1 && in_cont b2 && in_cont b3 && (0xFFFF <? r) && (r <=? 0x10FFFF)
          then r :: decode_runes t3
          else runeError :: decode_runes t
      | _ => runeError :: decode_runes t
      end
    else runeError :: decode_runes t
  end.

(** [utf16.Encode] of one rune: itself, a surrogate pair, or U+FFFD. *)
Definition encode_rune16 (v : Z) : list Z :=
  if ((0 <=? v) && (v <? 0xD800)) || ((0xE000 <=? v) && (v <? 0x10000)) then [v]
  else if (0x10000 <=? v) && (v <=? 0x10FFFF) then
    let r := v - 0x10000 in
    [0xD800 + Z.land (Z.shiftr r 10) 0x3FF; 0xDC00 + Z.land r 0x3FF]
  else [0xFFFD].

Definition utf16_encode (rs : list Z) : list Z := concat (map encode_rune16 rs).

(** The loop [for i, v := range utf16 { PutUint16(bytes[i*2:], v) }]. *)
Fixpoint put_units (i : nat) (us : list Z) (p : list Z) : go_ret (list Z) :=
  match us with
  | [] => Ret p
  | v :: us' => put_uint16_from (2 * i) v p ≫= put_units (S i) us'
  end.

Definition stringToUTF16LE (s : string) : go_ret (list Z) :=
  let runes := decode_runes (go_bytes s) in
  let u := utf16_encode runes in
  put_units 0 u (make (length u * 2)).

(** Reference decoders: little-endian pairs to code units, and
    [utf16.Decode]. *)
Fixpoint from_le16 (bs : list Z) : list Z :=
  match bs with
  | b0 :: b1 :: t => (b0 + 256 * b1) :: from_le16 t
  | _ => []
  end.

Definition is_high_surr (u : Z) : bool := (0xD800 <=? u) && (u <? 0xDC00).
Definition is_low_surr (u : Z) : bool := (0xDC00 <=? u) && (u <? 0xE000).

Fixpoint utf16_decode (us : list Z) : list Z :=
  match us with
  | [] => []
  | u :: t =>
    if is_high_surr u then
      match t with
      | u2 :: t2 =>
          if is_low_surr u2 then ((u - 0xD800) * 1024 + (u2 - 0xDC00) + 0x10000) :: utf16_decode t2
          else 0xFFFD :: utf16_decode t
      | [] => [0xFFFD]
      end
    else if is_low_surr u then 0xFFFD :: utf16_decode t
    else u :: utf16_decode t
  end.

Definition utf16le_decode (bs : list Z) : list Z := utf16_decode (from_le16 bs).

(** A Unicode scalar value: what [decode_runes] produces. *)
Definition scalar (r : Z) : Prop := 0 <= r <= 0x10FFFF /\ ~ (0xD800 <= r <= 0xDFFF).

(** ** The conversion loop never panics and lays the units out in order *)

Lemma length_le16 v : length (le16 v) = 2%nat.
Proof. reflexivity. Qed.

Lemma put_units_layout us x i :
  length x = (2 * i)%nat ->
  put_units i us (x ++ replicate (2 * length us) 0) = Ret (x ++ concat (map le16 us)).
Proof.
  revert x i. induction us as [|v us IH]; intros x i Hx; cbn [put_units length].
  - rewrite !Nat.mul_0_r, !app_nil_r. reflexivity.
  - unfold put_uint16_from. rewrite length_app, length_replicate.
    rewrite (proj2 (Nat.leb_le _ _)), (proj2 (Nat.leb_le 2 _)) by lia. cbn [mbind go_ret_bind].
    rewrite <- Hx, splice_at, length_le16, drop_replicate, app_assoc.
    replace (2 * S (length us) - 2)%nat with (2 * length us)%nat by lia.
    rewrite IH by (rewrite length_app, length_le16; lia).
    rewrite <- app_assoc. reflexivity.
Qed.

(** [stringToUTF16LE] is the concatenation of the little-endian code units
    of [utf16.Encode([]rune(s))]. *)
Lemma stringToUTF16LE_eq s :
  stringToUTF16LE s =
    Ret (concat (map le16 (utf16_encode (decode_runes (go_bytes s))))).
Proof.
  unfold stringToUTF16LE, make.
  rewrite Nat.mul_comm. apply (put_units_layout _ []). reflexivity.
Qed.

(** The converted bytes, as a function (the conversion cannot fail). *)
Definition utf16le (s : string) : list Z :=
  concat (map le16 (utf16_encode (decode_runes (go_bytes s)))).

Lemma length_utf16le s :
  length (utf16le s) = (2 * length (utf16_encode (decode_runes (go_bytes s))))%nat.
Proof.
  unfold utf16le. generalize (utf16_encode (decode_runes (go_bytes s))).
  induction l as [|u l IH]; simpl; [reflexivity|]. rewrite IH. lia.
Qed.

(** ** What [[]rune(s)] produces *)

Lemma land_ones_mod a k : 0 <= k -> Z.land a (Z.ones k) = a mod 2 ^ k.
Proof. intros Hk. apply Z.land_ones, Hk. Qed.

(** Evaluate the constant powers of two that the masks introduce. *)
Ltac pow_consts :=
  repeat match goal with
  | |- context [2 ^ ?k] => let v := eval compute in (2 ^ k) in change (2 ^ k) with v
  | H : context [2 ^ ?k] |- _ => let v := eval compute in (2 ^ k) in change (2 ^ k) with v in H
  end.

Lemma rune2_val b0 b1 :
  Z.lor (Z.shiftl (Z.land b0 0x1F) 6) (Z.land b1 0x3F) = b0 mod 32 * 64 + b1 mod 64.
Proof.
  change 0x1F with (Z.ones 5). change 0x3F with (Z.ones 6).
  rewrite !land_ones_mod by lia. apply lor_shiftl_low; [lia|].
  apply Z.mod_pos_bound. lia.
Qed.

Lemma rune3_val b0 b1 b2 :
  Z.lor (Z.shiftl (Z.land b0 0x0F) 12) (Z.lor (Z.shiftl (Z.land b1 0x3F) 6) (Z.land b2 0x3F))
  = b0 mod 16 * 4096 + b1 mod 64 * 64 + b2 mod 64.
Proof.
  change 0x0F with (Z.ones 4). change 0x3F with (Z.ones 6).
  rewrite !land_ones_mod by lia.
  pose proof (Z.mod_pos_bound b1 (2 ^ 6)). pose proof (Z.mod_pos_bound b2 (2 ^ 6)).
  rewrite (lor_shiftl_low (b1 mod 2 ^ 6)) by (pow_consts; lia).
  rewrite lor_shiftl_low by (pow_consts; lia). pow_consts. lia.
Qed.

Lemma rune4_val b0 b1 b2 b3 :
  Z.lor (Z.shiftl (Z.land b0 0x07) 18)
    (Z.lor (Z.shiftl (Z.land b1 0x3F) 12) (Z.lor (Z.shiftl (Z.land b2 0x3F) 6) (Z.land b3 0x3F)))
  = b0 mod 8 * 262144 + b1 mod 64 * 4096 + b2 mod 64 * 64 + b3 mod 64.
Proof.
  change 0x07 with (Z.ones 3). change 0x3F with (Z.ones 6).
  rewrite !land_ones_mod by lia.
  pose proof (Z.mod_pos_bound b1 (2 ^ 6)). pose proof (Z.mod_pos_bound b2 (2 ^ 6)).
  pose proof (Z.mod_pos_bound b3 (2 ^ 6)).
  rewrite (lor_shiftl_low (b2 mod 2 ^ 6)) by (pow_consts; lia).
  rewrite (lor_shiftl_low (b1 mod 2 ^ 6)) by (pow_consts; lia).
  rewrite lor_shiftl_low by (pow_consts; lia). pow_consts. lia.
Qed.

Lemma length_encode_rune16 r : (length (encode_rune16 r) <= 2)%nat.
Proof. unfold encode_rune16. repeat case_match; simpl; lia. Qed.

Lemma length_encode_rune16_bmp r : r < 0x10000 -> length (encode_rune16 r) = 1%nat.
Proof.
  intros H. unfold encode_rune16.
  destruct (Z.leb_spec 0 r), (Z.ltb_spec r 0xD800), (Z.leb_spec 0xE000 r), (Z.ltb_spec r 0x10000),
    (Z.leb_spec 0x10000 r); simpl; reflexivity || lia.
Qed.

Ltac if_case E :=
  match goal with |- context [if ?c then _ else _] => destruct c eqn:E end.

Ltac rune_error_case :=
  exists runeError, 0%nat; rewrite drop_0;
  split; [lia | split; [reflexivity | split; [unfold scalar, runeError; lia | vm_compute; lia]]].

(** One step of the decoder: a scalar value for the next [k+1] bytes, and
    never more UTF-16 units than bytes consumed. *)
Lemma decode_runes_step b0 t :
  bytes_ok (b0 :: t) ->
  exists r k, (k <= length t)%nat /\ decode_runes (b0 :: t) = r :: decode_runes (drop k t)
    /\ scalar r /\ (length (encode_rune16 r) <= S k)%nat.
Proof.
  intros Hb. inversion Hb as [|? ? Hb0 Ht]; subst.
  cbn [decode_runes].
  if_case E1.
  { exists b0, 0%nat. rewrite drop_0. apply Z.ltb_lt in E1.
    rewrite length_encode_rune16_bmp by lia. unfold scalar. repeat split; lia. }
  if_case E2.
  { destruct t as [|b1 t1]; [rune_error_case|]. if_case E3; [|rune_error_case].
    exists (Z.lor (Z.shiftl (Z.land b0 0x1F) 6) (Z.land b1 0x3F)), 1%nat.
    rewrite rune2_val in *. unfold in_cont in E3. apply andb_true_iff in E3 as [_ E3].
    apply Z.ltb_lt in E3. rewrite length_encode_rune16_bmp by lia.
    simpl. unfold scalar. repeat split; lia. }
  if_case E4.
  { destruct t as [|b1 [|b2 t2]]; try rune_error_case. if_case E5; [|rune_error_case].
    exists (Z.lor (Z.shiftl (Z.land b0 0x0F) 12)
              (Z.lor (Z.shiftl (Z.land b1 0x3F) 6) (Z.land b2 0x3F))), 2%nat.
    rewrite rune3_val in *. rewrite !andb_true_iff in E5. destruct E5 as [[[_ _] E5] E6].
    apply negb_true_iff, andb_false_iff in E6. rewrite Z.leb_gt, Z.leb_gt in E6.
    apply Z.ltb_lt in E5. rewrite length_encode_rune16_bmp by lia.
    simpl. unfold scalar. repeat split; lia. }
  if_case E7; [|rune_error_case].
  destruct t as [|b1 [|b2 [|b3 t3]]]; try rune_error_case. if_case E8; [|rune_error_case].
  exists (Z.lor (Z.shiftl (Z.land b0 0x07) 18)
            (Z.lor (Z.shiftl (Z.land b1 0x3F) 12)
               (Z.lor (Z.shiftl (Z.land b2 0x3F) 6) (Z.land b3 0x3F)))), 3%nat.
  rewrite rune4_val in *. rewrite !andb_true_iff in E8. destruct E8 as [[_ E8] E9].
  apply Z.ltb_lt in E8. apply Z.leb_le in E9.
  pose proof (length_encode_rune16 (b0 mod 8 * 262144 + b1 mod 64 * 4096 + b2 mod 64 * 64 + b3 mod 64)).
  simpl. unfold scalar. repeat split; lia.
Qed.

Lemma go_bytes_ok s : bytes_ok (go_bytes s).
Proof.
  unfold go_bytes, bytes_ok. apply Forall_map, Forall_forall. intros c _.
  pose proof (N_ascii_bounded c). lia.
Qed.

Lemma decode_runes_scalar s : bytes_ok s -> Forall scalar (decode_runes s).
Proof.
  induction s as [|b0 t IH] using list_drop_ind; intros Hb; [constructor|].
  destruct (decode_runes_step b0 t Hb) as (r & k & Hk & -> & Hr & _).
  constructor; [exact Hr|]. apply IH; [exact Hk|].
  apply bytes_ok_drop. inversion Hb; assumption.
Qed.

(** [utf16.Encode([]rune(s))] has at most one code unit per byte of [s]. *)
Lemma length_utf16_encode_decode s :
  bytes_ok s -> (length (utf16_encode (decode_runes s)) <= length s)%nat.
Proof.
  induction s as [|b0 t IH] using list_drop_ind; intros Hb; [simpl; lia|].
  destruct (decode_runes_step b0 t Hb) as (r & k & Hk & -> & _ & Hlen).
  unfold utf16_encode in *. simpl. rewrite length_app.
  specialize (IH k Hk (bytes_ok_drop _ _ (Forall_inv_tail Hb))).
  rewrite length_drop in IH. lia.
Qed.

(** ** Round trip: decoding the payload gives back the runes *)

Lemma encode_rune16_units r : Forall (fun u => 0 <= u < 65536) (encode_rune16 r).
Proof.
  unfold encode_rune16. change 0x3FF with (Z.ones 10). rewrite !land_ones_mod by lia.
  repeat case_match; repeat constructor; try lia; rewrite andb_true_iff in *; lia.
Qed.

Lemma utf16_decode_encode_rune r us :
  scalar r -> utf16_decode (encode_rune16 r ++ us) = r :: utf16_decode us.
Proof.
  intros [Hr Hs]. unfold encode_rune16.
  destruct (Z.leb_spec 0 r), (Z.ltb_spec r 0xD800), (Z.leb_spec 0xE000 r), (Z.ltb_spec r 0x10000);
    simpl; try (unfold is_high_surr, is_low_surr;
                destruct (Z.leb_spec 0xD800 r), (Z.ltb_spec r 0xDC00), (Z.leb_spec 0xDC00 r),
                  (Z.ltb_spec r 0xE000); simpl; reflexivity || lia).
  destruct (Z.leb_spec 0x10000 r); [|lia]. destruct (Z.leb_spec r 0x10FFFF); [|lia]. simpl.
  change 0x3FF with (Z.ones 10). rewrite !land_ones_mod, Z.shiftr_div_pow2 by lia.
  unfold is_high_surr, is_low_surr.
  rewrite (proj2 (Z.leb_le _ _)), (proj2 (Z.ltb_lt _ 0xDC00)), (proj2 (Z.leb_le 0xDC00 _)),
    (proj2 (Z.ltb_lt _ 0xE000)) by lia. simpl. f_equal. lia.
Qed.

Lemma utf16_decode_encode rs : Forall scalar rs -> utf16_decode (utf16_encode rs) = rs.
Proof.
  induction 1 as [|r rs Hr _ IH]; [reflexivity|].
  unfold utf16_encode in *. simpl. rewrite utf16_decode_encode_rune by exact Hr. congruence.
Qed.

Lemma from_le16_concat us :
  Forall (fun u => 0 <= u < 65536) us -> from_le16 (concat (map le16 us)) = us.
Proof.
  induction 1 as [|u us Hu _ IH]; [reflexivity|].
  simpl. rewrite IH. f_equal. unfold le16.
  rewrite !land_255_mod, Z.shiftr_div_pow2 by lia. lia.
Qed.

Lemma utf16_encode_units rs : Forall (fun u => 0 <= u < 65536) (utf16_encode rs).
Proof.
  unfold utf16_encode. induction rs as [|r rs IH]; simpl; [constructor|].
  apply Forall_app. split; [apply encode_rune16_units|exact IH].
Qed.

Lemma encode_rune16_low r : 0 <= r < 0xD800 -> encode_rune16 r = [r].
Proof.
  intros H. unfold encode_rune16.
  rewrite (proj2 (Z.leb_le 0 r)), (proj2 (Z.ltb_lt r 0xD800)) by lia. reflexivity.
Qed.

Lemma utf16le_decode_utf16le s : utf16le_decode (utf16le s) = decode_runes (go_bytes s).
Proof.
  unfold utf16le_decode, utf16le.
  rewrite from_le16_concat by apply utf16_encode_units.
  apply utf16_decode_encode, decode_runes_scalar, go_bytes_ok.
Qed.

Lemma length_go_bytes s : length (go_bytes s) = String.length s.
Proof.
  unfold go_bytes. rewrite length_map.
  induction s as [|c s IH]; simpl; congruence.
Qed.

(** An ASCII text is stored as its bytes, each followed by a zero byte. *)
Lemma utf16le_ascii s :
  Forall (fun b => b < 128) (go_bytes s) ->
  utf16le s = concat (map (fun b => [b; 0]) (go_bytes s)).
Proof.
  unfold utf16le. pose proof (go_bytes_ok s) as Hb. revert Hb.
  generalize (go_bytes s). intros l Hb Ha.
  induction l as [|b l IH]; [reflexivity|].
  inversion Hb as [|? ? Hb0 Hbl]; inversion Ha as [|? ? Ha0 Hal]; subst.
  cbn [decode_runes]. rewrite (proj2 (Z.ltb_lt b 0x80)) by lia.
  unfold utf16_encode in *. cbn [map concat].
  rewrite encode_rune16_low by lia. simpl.
  rewrite IH by assumption. unfold le16.
  rewrite !land_255_mod, Z.shiftr_div_pow2 by lia.
  rewrite (Z.mod_small b) by lia. rewrite (Z.div_small b) by lia. reflexivity.
Qed.

(** C19: [stringToUTF16LE] never panics, and decoding its result as
    little-endian UTF-16 gives back exactly the runes of [[]rune(s)]. *)
Theorem stringToUTF16LE_roundtrip s :
  exists bs, stringToUTF16LE s = Ret bs /\ utf16le_decode bs = decode_runes (go_bytes s).
Proof.
  exists (utf16le s). split; [apply stringToUTF16LE_eq | apply utf16le_decode_utf16le].
Qed.

(** The UTF-16LE payload of a string is at most twice as long as the
    string's bytes (one code unit per byte at most). *)
Theorem stringToUTF16LE_length s :
  exists bs, stringToUTF16LE s = Ret bs /\ (length bs <= 2 * String.length s)%nat.
Proof.
  exists (utf16le s). split; [apply stringToUTF16LE_eq|].
  rewrite length_utf16le, <- length_go_bytes.
  pose proof (length_utf16_encode_decode _ (go_bytes_ok s)). lia.
Qed.
