(* ===== verification/GoStrings.v ===== *)
(** * GoStrings: the string functions udp.go calls

    Go strings are byte sequences; they are modelled by [String.string]
    (a list of 8-bit [ascii] characters).  This file holds the few
    functions of Go's standard library that [parseIPRange] calls with a
    one-byte separator: [strings.Contains], [strings.Split], and the
    decimal formatting of [fmt.Sprintf("%d")] and [strconv.Itoa]. *)

From S2P Require Import Prelude.
From Stdlib Require Import DecimalString.

(** [strings.Contains(s, string(c))] *)
Fixpoint contains_char (c : ascii) (s : string) : bool :=
  match s with
  | EmptyString => false
  | String x s' => Ascii.eqb x c || contains_char c s'
  end.

(** [strings.Split(s, string(c))]: the pieces between the occurrences of
    [c]; one more piece than there are occurrences. *)
Fixpoint split_char (c : ascii) (s : string) : list string :=
  match s with
  | EmptyString => [EmptyString]
  | String x s' =>
      if Ascii.eqb x c then EmptyString :: split_char c s'
      else match split_char c s' with
           | w :: ws => String x w :: ws
           | [] => [String x EmptyString]
           end
  end.

(** [strconv.Itoa] / [%d] of a non-negative integer. *)
Definition dec (z : Z) : string := NilEmpty.string_of_uint (N.to_uint (Z.to_N z)).

Lemma split_char_no_sep c s : contains_char c s = false -> split_char c s = [s].
Proof.
  induction s as [|x s IH]; simpl; [reflexivity|].
  rewrite orb_false_iff. intros [-> H]. rewrite IH by exact H. reflexivity.
Qed.

Lemma split_char_nonempty c s : split_char c s <> [].
Proof.
  induction s as [|x s IH]; cbn; [discriminate|].
  destruct (Ascii.eqb x c); [discriminate|]. destruct (split_char c s); discriminate.
Qed.

(** Splitting at a separator splits the two sides. *)
Lemma split_char_append c s1 s2 :
  split_char c (String.append s1 (String c s2)) = split_char c s1 ++ split_char c s2.
Proof.
  induction s1 as [|x s1 IH]; rewrite ?string_append_nil, ?string_append_cons; cbn [split_char].
  - rewrite Ascii.eqb_refl. reflexivity.
  - rewrite IH. destruct (Ascii.eqb x c); [reflexivity|].
    pose proof (split_char_nonempty c s1). destruct (split_char c s1); [contradiction|reflexivity].
Qed.

Lemma contains_char_append c s1 s2 :
  contains_char c (String.append s1 s2) = contains_char c s1 || contains_char c s2.
Proof.
  induction s1 as [|x s1 IH]; rewrite ?string_append_nil, ?string_append_cons; cbn [contains_char];
    [reflexivity|]. rewrite IH. apply orb_assoc.
Qed.
