(* ===== verification/NetIP.v ===== *)
(** * NetIP: IPv4 addresses as udp.go handles them

    A Go [net.IP] is a byte slice of length 4 or 16; [net.ParseIP] always
    returns the 16-byte form (the IPv4-in-IPv6 prefix followed by the four
    bytes) and [To4] strips the prefix again.  This file models, for IPv4:
    - [parse_v4]: [netip.parseIPv4Fields] (decimal fields, no leading zero,
      at most 255, exactly four fields), and [parse_addr]/[ParseIP] with
      the dispatch of [netip.ParseAddr] on the first of ['.'], [':'], ['%'];
    - [To4], [ip_string] ([IP.String]), [ip_equal] ([IP.Equal]);
    - [dtoi], [CIDRMask], [mask_ip] ([IP.Mask]), [ParseCIDR], [contains]
      ([IPNet.Contains]);
    - the repository's [ipToBytes] (udp.go 95-105) and [incrementIP]
      (udp.go 186-193).
    - [hex_field], [v6_loop] and [parse_v6]: [netip.parseIPv6] (hex
      fields of at most four digits, one [::], an embedded IPv4 address
      in place of the last two fields), so that [ParseIP] takes IPv6 text
      as Go does: "::ffff:a.b.c.d" passes [To4], other IPv6 addresses
      give the code's "not an IPv4 address".
    [ParseCIDR] is modelled for IPv4 prefixes only. *)

From S2P Require Import Prelude GoStrings.

(** ** Parsing *)

Definition is_digit (c : ascii) : bool :=
  (48 <=? Z.of_N (N_of_ascii c)) && (Z.of_N (N_of_ascii c) <=? 57).
Definition digit_val (c : ascii) : Z := Z.of_N (N_of_ascii c) - 48.

(** The loop of [netip.parseIPv4Fields]: [first] is [i == 0], [prevdot] is
    [s[i-1] == '.'], [fields] the octets seen so far. *)
Fixpoint parse_v4 (s : list ascii) (first prevdot : bool) (val : Z) (digLen : nat)
    (fields : list Z) : option (list Z) :=
  match s with
  | [] => if (length fields <? 3)%nat then None else Some (fields ++ [val])
  | c :: rest =>
    if is_digit c then
      if (digLen =? 1)%nat && (val =? 0) then None
      else let val' := val * 10 + digit_val c in
           if 255 <? val' then None
           else parse_v4 rest false false val' (S digLen) fields
    else if Ascii.eqb c "."%char then
      if first || (match rest with [] => true | _ => false end) || prevdot then None
      else if (length fields =? 3)%nat then None
      else parse_v4 rest false true 0 0 (fields ++ [val])
    else None
  end.

(** The first of ['.'], [':'], ['%'] in the string. *)
Fixpoint first_sep (s : list ascii) : option ascii :=
  match s with
  | [] => None
  | c :: r => if Ascii.eqb c "."%char || Ascii.eqb c ":"%char || Ascii.eqb c "%"%char then Some c
              else first_sep r
  end.

(** [netip.ParseAddr] restricted to IPv4: the four octets. *)
Definition parse_addr (s : string) : option (list Z) :=
  let cs := list_ascii_of_string s in
  match first_sep cs with
  | Some c => if Ascii.eqb c "."%char then parse_v4 cs true false 0 0 [] else None
  | None => None
  end.

Definition v4InV6Prefix : list Z := [0; 0; 0; 0; 0; 0; 0; 0; 0; 0; 255; 255].

(** A hexadecimal digit's value. *)
Definition hex_val (c : ascii) : option Z :=
  let n := Z.of_N (N_of_ascii c) in
  if is_digit c then Some (n - 48)
  else if (97 <=? n) && (n <=? 102) then Some (n - 87)
  else if (65 <=? n) && (n <=? 70) then Some (n - 55)
  else None.

(** The inner loop of [netip.parseIPv6]: the hex digits of one field,
    at most four, with the number of digits read, the value and the
    rest of the string. *)
Fixpoint hex_field (s : list ascii) (off : nat) (acc : Z) : option (nat * Z * list ascii) :=
  match s with
  | [] => Some (off, acc, [])
  | c :: r =>
      match hex_val c with
      | None => Some (off, acc, s)
      | Some v =>
          let acc := acc * 16 + v in
          if (3 <? off)%nat then None
          else if 65535 <? acc then None
          else hex_field r (S off) acc
      end
  end.

(** The outer loop of [netip.parseIPv6] ([for i < 16]), [ip] the bytes
    written so far ([i] is its length), [ellipsis] the position of the
    [::]; it returns the bytes, the ellipsis and the unread rest.  Every
    round writes at least two bytes, so nine rounds reach [i >= 16]. *)
Fixpoint v6_loop (fuel : nat) (s : list ascii) (ip : list Z) (ellipsis : option nat)
    : option (list Z * option nat * list ascii) :=
  match fuel with
  | O => None
  | S fuel =>
    if (16 <=? length ip)%nat then Some (ip, ellipsis, s) else
    match hex_field s 0 0 with
    | None => None
    | Some (off, acc, rest) =>
      if (off =? 0)%nat then None else
      match rest with
      | c :: _ =>
        if Ascii.eqb c "."%char then
          (* an embedded IPv4 address in place of the last two fields *)
          if match ellipsis with None => negb (length ip =? 12)%nat | Some _ => false end then None
          else if (16 <? length ip + 4)%nat then None
          else match parse_v4 s true false 0 0 [] with
               | Some f => Some (ip ++ f, ellipsis, [])
               | None => None
               end
        else
          (* after a field: a colon and more, perhaps a second colon ([::]) *)
          let ip := ip ++ [Z.shiftr acc 8; Z.land acc 255] in
          if negb (Ascii.eqb c ":"%char) then None else
          match rest with
          | _ :: c' :: r' =>
            if Ascii.eqb c' ":"%char then
              match ellipsis with
              | Some _ => None
              | None => match r' with
                        | [] => Some (ip, Some (length ip), [])
                        | _ => v6_loop fuel r' ip (Some (length ip))
                        end
              end
            else v6_loop fuel (c' :: r') ip ellipsis
          | _ => None
          end
      | [] => Some (ip ++ [Z.shiftr acc 8; Z.land acc 255], ellipsis, [])
      end
    end
  end.

(** [netip.parseIPv6] without a zone: a leading [::], the fields, then
    the expansion of the ellipsis. *)
Definition parse_v6 (cs : list ascii) : option (list Z) :=
  let '(s, ellipsis) := match cs with
                        | c1 :: c2 :: r => if Ascii.eqb c1 ":"%char && Ascii.eqb c2 ":"%char
                                           then (r, Some 0%nat) else (cs, None)
                        | _ => (cs, None)
                        end in
  match s, ellipsis with
  | [], Some _ => Some (replicate 16 0)
  | _, _ =>
    match v6_loop 9 s [] ellipsis with
    | None => None
    | Some (ip, ellipsis, rest) =>
      match rest with
      | _ :: _ => None
      | [] =>
        if (length ip <? 16)%nat then
          match ellipsis with
          | None => None
          | Some e => Some (take e ip ++ replicate (16 - length ip) 0 ++ drop e ip)
          end
        else match ellipsis with Some _ => None | None => Some ip end
      end
    end
  end.

(** [net.ParseIP] (Go 1.22: [netip.ParseAddr], refused when it has a
    zone): the 16-byte form.  A ['%'] makes it fail, whether [ParseAddr]
    rejects the empty or misplaced zone or [ParseIP] the zone itself. *)
Definition ParseIP (s : string) : option (list Z) :=
  let cs := list_ascii_of_string s in
  match first_sep cs with
  | Some c =>
      if Ascii.eqb c ":"%char then
        if existsb (fun c => Ascii.eqb c "%"%char) cs then None else parse_v6 cs
      else option_map (app v4InV6Prefix) (parse_addr s)
  | None => None
  end.

Definition list_eqb (a b : list Z) : bool := bool_decide (a = b).

(** [IP.To4] *)
Definition To4 (ip : list Z) : option (list Z) :=
  if (length ip =? 4)%nat then Some ip
  else if (length ip =? 16)%nat && list_eqb (take 12 ip) v4InV6Prefix then Some (drop 12 ip)
  else None.

(** [IP.String] of a 4-byte address (the only kind the code prints). *)
Definition ip_string (ip : list Z) : string :=
  match ip with
  | [a; b; c; d] => (dec a ++ "." ++ dec b ++ "." ++ dec c ++ "." ++ dec d)%string
  | _ => "?"%string
  end.

(** [IP.Equal] *)
Definition ip_equal (ip x : list Z) : bool :=
  if (length ip =? length x)%nat then list_eqb ip x
  else if (length ip =? 4)%nat && (length x =? 16)%nat then
    list_eqb (take 12 x) v4InV6Prefix && list_eqb ip (drop 12 x)
  else if (length ip =? 16)%nat && (length x =? 4)%nat then
    list_eqb (take 12 ip) v4InV6Prefix && list_eqb (drop 12 ip) x
  else false.

(** ** The repository's helpers *)

(** [ipToBytes] (udp.go 95-105). *)
Definition ipToBytes (ipStr : string) : go_ret (list Z) :=
  match ParseIP ipStr with
  | None => Err "invalid IP address"
  | Some ip =>
      match To4 ip with
      | None => Err "not an IPv4 address"
      | Some ip4 => Ret (take 4 ip4)
      end
  end.

(** The loop of [incrementIP] (udp.go 186-193) on the bytes from the last
    to the first: [ip[j]++] wraps at 256 and the carry stops at the first
    byte that did not wrap to 0. *)
Fixpoint incr_rev (l : list Z) : list Z :=
  match l with
  | [] => []
  | b :: t => let b' := (b + 1) mod 256 in
              if 0 <? b' then b' :: t else b' :: incr_rev t
  end.

Definition incrementIP (ip : list Z) : list Z := rev (incr_rev (rev ip)).

(** ** CIDR blocks *)

(** [dtoi]: the decimal prefix of [s], its length, and whether it is a
    number below [big] = 0xFFFFFF. *)
Fixpoint dtoi_loop (s : list ascii) (n : Z) (i : nat) : Z * nat * bool :=
  match s with
  | c :: rest =>
      if is_digit c then
        let n' := n * 10 + digit_val c in
        if 0xFFFFFF <=? n' then (0xFFFFFF, i, false) else dtoi_loop rest n' (S i)
      else (n, i, negb (i =? 0)%nat)
  | [] => (n, i, negb (i =? 0)%nat)
  end.

Definition dtoi (s : string) : Z * nat * bool := dtoi_loop (list_ascii_of_string s) 0 0.

(** [CIDRMask(ones, 32)]: [ones] leading one bits in four bytes. *)
Definition mask_byte (n : Z) : Z := 255 - Z.shiftr 255 n.
Definition CIDRMask (ones : Z) : list Z :=
  map (fun i => mask_byte (Z.max 0 (Z.min 8 (ones - 8 * i)))) [0; 1; 2; 3].

(** [IP.Mask(mask)] for a 4-byte mask. *)
Definition mask_ip (ip mask : list Z) : option (list Z) :=
  let ip := if (length ip =? 16)%nat && list_eqb (take 12 ip) v4InV6Prefix
            then drop 12 ip else ip in
  if (length ip =? length mask)%nat then Some (zip_with Z.land ip mask) else None.

(** [strings.Cut(s, "/")] *)
Fixpoint cut_char (c : ascii) (s : string) : option (string * string) :=
  match s with
  | EmptyString => None
  | String x s' =>
      if Ascii.eqb x c then Some (EmptyString, s')
      else match cut_char c s' with
           | Some (a, b) => Some (String x a, b)
           | None => None
           end
  end.

(** [IPNet] of an IPv4 block: network number and mask, four bytes each. *)
Record IPNet := { net_ip : list Z; net_mask : list Z }.

(** [net.ParseCIDR] (IPv4 blocks): the [*IPNet] it returns. *)
Definition ParseCIDR (s : string) : option IPNet :=
  match cut_char "/"%char s with
  | None => None
  | Some (addr, mask) =>
    match parse_addr addr with
    | None => None
    | Some a =>
      match dtoi mask with
      | (n, i, ok) =>
        if ok && (i =? String.length mask)%nat && (0 <=? n) && (n <=? 32) then
          let m := CIDRMask n in
          match mask_ip (v4InV6Prefix ++ a) m with
          | Some nip => Some {| net_ip := nip; net_mask := m |}
          | None => None
          end
        else None
      end
    end
  end.

(** [IPNet.Contains] for a 4-byte address. *)
Definition contains (n : IPNet) (ip : list Z) : bool :=
  let ip := match To4 ip with Some x => x | None => ip end in
  (length ip =? length (net_ip n))%nat &&
  list_eqb (zip_with Z.land (net_ip n) (net_mask n)) (zip_with Z.land ip (net_mask n)).

(** ** Addresses as numbers *)

(** The number a byte sequence denotes, least significant byte first. *)
Fixpoint le_val (l : list Z) : Z :=
  match l with [] => 0 | b :: t => b + 256 * le_val t end.

(** Big-endian (network order) value: the number an address denotes. *)
Definition be_val (l : list Z) : Z := le_val (rev l).

Lemma le_val_bound l : bytes_ok l -> 0 <= le_val l < 256 ^ Z.of_nat (length l).
Proof.
  induction 1 as [|b t Hb _ IH]; simpl; [lia|].
  rewrite Nat2Z.inj_succ, Z.pow_succ_r by lia. nia.
Qed.

Lemma bytes_ok_rev l : bytes_ok l -> bytes_ok (rev l).
Proof. unfold bytes_ok. intros H. apply Forall_rev, H. Qed.

Lemma length_incr_rev l : length (incr_rev l) = length l.
Proof. induction l as [|b t IH]; simpl; [reflexivity|]. case_match; simpl; lia. Qed.

Lemma incr_rev_bytes l : bytes_ok l -> bytes_ok (incr_rev l).
Proof.
  induction 1 as [|b t Hb Ht IH]; simpl; [constructor|].
  case_match; constructor; auto; apply Z.mod_pos_bound; lia.
Qed.

(** The byte-wise carry loop adds one modulo 256^n. *)
Lemma le_val_incr_rev l :
  bytes_ok l -> le_val (incr_rev l) = (le_val l + 1) mod 256 ^ Z.of_nat (length l).
Proof.
  induction 1 as [|b t Hb Ht IH]; [reflexivity|].
  pose proof (le_val_bound t Ht) as Hbt. cbn [incr_rev le_val length].
  rewrite Nat2Z.inj_succ, Z.pow_succ_r by lia.
  destruct (Z.ltb_spec 0 ((b + 1) mod 256)).
  - assert (b < 255) by lia. cbn [le_val]. rewrite (Z.mod_small (b + 1)) by lia.
    rewrite Z.mod_small by nia. lia.
  - assert (b = 255) as -> by lia. cbn [le_val]. rewrite IH.
    change ((255 + 1) mod 256) with 0.
    replace (255 + 256 * le_val t + 1) with (256 * (le_val t + 1)) by lia.
    rewrite Z.mul_mod_distr_l by lia. lia.
Qed.

Lemma length_incrementIP ip : length (incrementIP ip) = length ip.
Proof. unfold incrementIP. rewrite length_rev, length_incr_rev, length_rev. reflexivity. Qed.

Lemma incrementIP_bytes ip : bytes_ok ip -> bytes_ok (incrementIP ip).
Proof. intros H. apply bytes_ok_rev, incr_rev_bytes, bytes_ok_rev, H. Qed.

(** C8: [incrementIP] is the successor modulo 2^(8n) of the address read
    as a big-endian number; on a 4-byte address, +1 modulo 2^32 (so
    255.255.255.255 wraps to 0.0.0.0). *)
Theorem incrementIP_succ ip :
  bytes_ok ip -> be_val (incrementIP ip) = (be_val ip + 1) mod 256 ^ Z.of_nat (length ip).
Proof.
  intros H. unfold be_val, incrementIP. rewrite rev_involutive.
  rewrite le_val_incr_rev by (apply bytes_ok_rev, H). rewrite length_rev. reflexivity.
Qed.

(** ** Printing and parsing an address are inverse *)

Lemma list_ascii_of_string_app (s1 s2 : string) :
  list_ascii_of_string (String.append s1 s2) = list_ascii_of_string s1 ++ list_ascii_of_string s2.
Proof.
  induction s1 as [|c s1 IH]; [reflexivity|].
  transitivity (c :: list_ascii_of_string (String.append s1 s2)); [reflexivity|].
  rewrite IH. reflexivity.
Qed.

Definition dec_chars (n : Z) : list ascii := list_ascii_of_string (dec n).

(** What the parser does with the digits [IP.String] prints for one
    octet: it consumes them and holds the octet's value. *)
Definition octet_ok (n : Z) : Prop :=
  dec_chars n <> [] /\ forallb is_digit (dec_chars n) = true /\
  forall rest first prevdot fields,
    parse_v4 (dec_chars n ++ rest) first prevdot 0 0 fields =
    parse_v4 rest false false n (length (dec_chars n)) fields.

Lemma octet_cases (P : Z -> Prop) :
  (forall k : nat, (k < 256)%nat -> P (Z.of_nat k)) -> forall n, 0 <= n < 256 -> P n.
Proof. intros H n Hn. rewrite <- (Z2Nat.id n) by lia. apply H. lia. Qed.

Lemma all_octets_ok n : 0 <= n < 256 -> octet_ok n.
Proof.
  apply octet_cases. intros k Hk.
  do 256 (destruct k as [|k];
    [split; [discriminate | split; [reflexivity | intros; reflexivity]] |]).
  lia.
Qed.

Lemma first_sep_digits l rest :
  forallb is_digit l = true -> first_sep (l ++ rest) = first_sep rest.
Proof.
  induction l as [|c l IH]; simpl; [reflexivity|].
  rewrite andb_true_iff. intros [Hc Hl].
  destruct (Ascii.eqb_spec c "."%char), (Ascii.eqb_spec c ":"%char), (Ascii.eqb_spec c "%"%char);
    subst; try discriminate; simpl; auto.
Qed.

Lemma parse_v4_dot n k rest fields :
  rest <> [] -> (length fields < 3)%nat ->
  parse_v4 ("."%char :: rest) false false n k fields = parse_v4 rest false true 0 0 (fields ++ [n]).
Proof.
  intros Hr Hf. simpl. destruct rest; [contradiction|].
  rewrite (proj2 (Nat.eqb_neq _ 3)) by lia. reflexivity.
Qed.

Lemma ip_string_chars a b c d :
  list_ascii_of_string (ip_string [a; b; c; d]) =
  dec_chars a ++ "."%char :: dec_chars b ++ "."%char :: dec_chars c ++ "."%char :: dec_chars d.
Proof. unfold ip_string, dec_chars. rewrite !list_ascii_of_string_app. reflexivity. Qed.

(** [ParseIP] reads back what [IP.String] prints. *)
Lemma parse_addr_ip_string ip :
  length ip = 4%nat -> bytes_ok ip -> parse_addr (ip_string ip) = Some ip.
Proof.
  intros Hl Hb. destruct ip as [|a [|b [|c [|d [|]]]]]; try discriminate.
  inversion Hb as [|? ? Ha Hb1]; inversion Hb1 as [|? ? Hb' Hb2];
    inversion Hb2 as [|? ? Hc Hb3]; inversion Hb3 as [|? ? Hd _]; subst.
  destruct (all_octets_ok a Ha) as (Na & Da & Pa), (all_octets_ok b Hb') as (Nb & Db & Pb),
    (all_octets_ok c Hc) as (Nc & Dc & Pc), (all_octets_ok d Hd) as (Nd & Dd & Pd).
  unfold parse_addr. rewrite ip_string_chars, first_sep_digits by exact Da. simpl.
  rewrite Pa, parse_v4_dot by (simpl; auto || destruct (dec_chars b); simpl; congruence || lia).
  rewrite Pb, parse_v4_dot by (simpl; auto || destruct (dec_chars c); simpl; congruence || lia).
  rewrite Pc, parse_v4_dot by (simpl; auto || destruct (dec_chars d); simpl; congruence || lia).
  rewrite <- (app_nil_r (dec_chars d)), Pd. reflexivity.
Qed.

Lemma parse_v4_length s first prevdot val digLen fields r :
  parse_v4 s first prevdot val digLen fields = Some r -> (length fields <= 3)%nat ->
  length r = 4%nat.
Proof.
  revert first prevdot val digLen fields. induction s as [|c s IH]; intros first prevdot val digLen fields; simpl.
  - destruct (Nat.ltb_spec (length fields) 3); [discriminate|].
    intros [= <-] ?. rewrite length_app. simpl. lia.
  - repeat case_match; try discriminate; intros Hp Hf; eapply IH; eauto;
    try (match goal with E : (length _ =? 3)%nat = false |- _ => apply Nat.eqb_neq in E end;
         rewrite length_app; simpl; lia).
Qed.

Lemma parse_addr_length s a : parse_addr s = Some a -> length a = 4%nat.
Proof.
  unfold parse_addr. repeat case_match; try discriminate. intros Hp. eapply parse_v4_length; eauto.
Qed.

(** A dotted quad reaches [ParseIP]'s IPv4 branch. *)
Lemma ParseIP_v4 s a : parse_addr s = Some a -> ParseIP s = Some (v4InV6Prefix ++ a).
Proof.
  unfold ParseIP. intros H. pose proof H as H'. unfold parse_addr in H'.
  destruct (first_sep _) as [c|]; [|discriminate].
  destruct (Ascii.eqb c "."%char) eqn:Ed; [|discriminate]. apply Ascii.eqb_eq in Ed as ->.
  cbn. rewrite H. reflexivity.
Qed.

Lemma To4_v4 a : length a = 4%nat -> To4 (v4InV6Prefix ++ a) = Some a.
Proof.
  intros Hl. unfold To4. rewrite length_app, Hl.
  rewrite (take_app_length' v4InV6Prefix a 12), (drop_app_length' v4InV6Prefix a 12) by reflexivity.
  unfold list_eqb. rewrite bool_decide_eq_true_2 by reflexivity. reflexivity.
Qed.

(** [ipToBytes] returns the four octets of a dotted-quad IPv4 address. *)
Lemma ipToBytes_v4 s a : parse_addr s = Some a -> ipToBytes s = Ret a.
Proof.
  intros E. pose proof (parse_addr_length _ _ E) as Hl.
  unfold ipToBytes. rewrite (ParseIP_v4 s a E), To4_v4 by exact Hl. rewrite take_ge by lia. reflexivity.
Qed.

(** C9: [ipToBytes] inverts [IP.String]: the address [parseIPRange]
    prints for any four bytes is read back by [ipToBytes] as those bytes. *)
Theorem ipToBytes_ip_string ip :
  length ip = 4%nat -> bytes_ok ip -> ipToBytes (ip_string ip) = Ret ip.
Proof. intros Hl Hb. apply ipToBytes_v4, parse_addr_ip_string; assumption. Qed.

Lemma ipToBytes_length s b : ipToBytes s = Ret b -> length b = 4%nat.
Proof.
  unfold ipToBytes, To4. destruct (ParseIP s) as [ip|]; [|discriminate].
  destruct (Nat.eqb_spec (length ip) 4); [intros [= <-]; rewrite length_take; lia|].
  destruct ((length ip =? 16)%nat && _) eqn:E; [|discriminate]. intros [= <-].
  apply andb_true_iff in E as [E _]. apply Nat.eqb_eq in E.
  rewrite length_take, length_drop. lia.
Qed.

(** ** Witnesses *)

Lemma incrementIP_succ_witness :
  bytes_ok [192; 168; 1; 255] /\
  be_val (incrementIP [192; 168; 1; 255]) = (be_val [192; 168; 1; 255] + 1) mod 256 ^ 4.
Proof.
  assert (H : bytes_ok [192; 168; 1; 255]) by (repeat constructor; lia).
  split; [exact H | apply (incrementIP_succ [192; 168; 1; 255] H)].
Defined.

Lemma ipToBytes_ip_string_witness : ipToBytes (ip_string [192; 168; 1; 255]) = Ret [192; 168; 1; 255].
Proof. apply ipToBytes_ip_string; [reflexivity | repeat constructor; lia]. Defined.
