(* ===== verification/AddressResolver.v ===== *)
(** * AddressResolver: [parseIPRange] of udp.go (lines 118-183)

    [parseIPRange] classifies the target specification by the first test
    that succeeds: it contains ['/'] (CIDR block), ['*'] (wildcard over
    the last two octets), ['-'] (an inclusive range), or none (a literal).
    Its loops are modelled with fuel: [None] means the loop did not stop
    within the fuel, which for the range branch is the case for every fuel
    as soon as the two endpoints differ ([range_diverges]). *)

From S2P Require Import Prelude GoStrings NetIP.

(** [copy(dst, src)]: the first [min(len dst, len src)] bytes of [dst]
    replaced. *)
Definition go_copy (dst src : list Z) : list Z :=
  take (length dst) src ++ drop (length src) dst.

(** [for ip := start; ipNet.Contains(ip); c.incrementIP(ip) {
      ips = append(ips, ip.String()) }] *)
Fixpoint cidr_loop (fuel : nat) (n : IPNet) (ip : list Z) (ips : list string)
    : option (list string) :=
  match fuel with
  | O => None
  | S f => if contains n ip then cidr_loop f n (incrementIP ip) (ips ++ [ip_string ip])
           else Some ips
  end.

(** [for ip := make(net.IP, len(startIP)); ; c.incrementIP(ip) {
      copy(ip, startIP); ips = append(ips, ip.String());
      if ip.Equal(endIP) { break } }] *)
Fixpoint range_loop (fuel : nat) (startIP endIP ip : list Z) (ips : list string)
    : option (list string) :=
  match fuel with
  | O => None
  | S f =>
      let ip := go_copy ip startIP in
      let ips := ips ++ [ip_string ip] in
      if ip_equal ip endIP then Some ips
      else range_loop f startIP endIP (incrementIP ip) ips
  end.

(** The two nested loops of the wildcard branch with
    [fmt.Sprintf("%s.%s.%d.%d", base[0], base[1], i, j)]. *)
Definition wildcard_ips (b0 b1 : string) : list string :=
  flat_map (fun i => map (fun j => (b0 ++ "." ++ b1 ++ "." ++ dec i ++ "." ++ dec j)%string)
                         (seqZ 0 256))
           (seqZ 0 256).

(** [ips[1 : len(ips)-1]] when there are more than two addresses. *)
Definition strip_ends (ips : list string) : list string :=
  if (2 <? length ips)%nat then take (length ips - 2) (drop 1 ips) else ips.

Definition parseIPRange (fuel : nat) (ipRange : string) : option (go_ret (list string)) :=
  if contains_char "/"%char ipRange then
    match ParseCIDR ipRange with
    | None => Some (Err "invalid CIDR address")
    | Some ipNet =>
        let start := match mask_ip (net_ip ipNet) (net_mask ipNet) with
                     | Some x => x | None => [] end in
        match cidr_loop fuel ipNet start [] with
        | None => None
        | Some ips => Some (Ret (strip_ends ips))
        end
    end
  else if contains_char "*"%char ipRange then
    match split_char "."%char ipRange with
    | b0 :: b1 :: _ => Some (Ret (wildcard_ips b0 b1))
    | _ => Some (Panic "index out of range [1] with length 1")
    end
  else if contains_char "-"%char ipRange then
    match split_char "-"%char ipRange with
    | [p0; p1] =>
        match ParseIP p0, ParseIP p1 with
        | Some s16, Some e16 =>
            match To4 s16, To4 e16 with
            | Some startIP, Some endIP =>
                match range_loop fuel startIP endIP (replicate (length startIP) 0) [] with
                | None => None
                | Some ips => Some (Ret ips)
                end
            | _, _ => Some (Err "not an IPv4 address")
            end
        | _, _ => Some (Err "invalid IP address in range")
        end
    | _ => Some (Err "invalid IP range format")
    end
  else Some (Ret [ipRange]).

(** [ParseTargetIP] (udp.go 458-461): [parseIPRange] of a fresh client. *)
Definition ParseTargetIP (fuel : nat) (ipStr : string) : option (go_ret (list string)) :=
  parseIPRange fuel ipStr.

(** ** The range branch *)

Lemma go_copy_same_length dst src : length dst = length src -> go_copy dst src = src.
Proof.
  intros H. unfold go_copy. rewrite H, take_ge, drop_ge by lia. apply app_nil_r.
Qed.

Lemma ip_equal_4 a b :
  length a = 4%nat -> length b = 4%nat -> ip_equal a b = bool_decide (a = b).
Proof. intros Ha Hb. unfold ip_equal. rewrite Ha, Hb. reflexivity. Qed.

(** [copy(ip, startIP)] at the top of every iteration resets [ip] to the
    start address, so the loop only stops if the start equals the end. *)
Lemma range_loop_stuck fuel s e ip ips :
  length ip = length s -> ip_equal s e = false -> range_loop fuel s e ip ips = None.
Proof.
  revert ip ips. induction fuel as [|f IH]; intros ip ips Hl He; [reflexivity|].
  simpl. rewrite go_copy_same_length, He by exact Hl.
  apply IH; [apply length_incrementIP | exact He].
Qed.

Lemma range_loop_same fuel s ip ips :
  length ip = length s -> ip_equal s s = true ->
  range_loop (S fuel) s s ip ips = Some (ips ++ [ip_string s]).
Proof. intros Hl He. simpl. rewrite go_copy_same_length, He by exact Hl. reflexivity. Qed.

Lemma split_has_sep c s p0 p1 : split_char c s = [p0; p1] -> contains_char c s = true.
Proof.
  intros H. destruct (contains_char c s) eqn:E; [reflexivity|].
  rewrite split_char_no_sep in H by exact E. discriminate.
Qed.

(** Shared unfolding of the dispatch down to the range branch. *)
Lemma parseIPRange_range fuel spec p0 p1 a b :
  contains_char "/"%char spec = false -> contains_char "*"%char spec = false ->
  split_char "-"%char spec = [p0; p1] -> parse_addr p0 = Some a -> parse_addr p1 = Some b ->
  parseIPRange fuel spec =
    match range_loop fuel a b (replicate 4 0) [] with
    | None => None | Some ips => Some (Ret ips) end.
Proof.
  intros H1 H2 Hs Ha Hb. unfold parseIPRange. rewrite H1, H2, (split_has_sep _ _ _ _ Hs), Hs.
  rewrite (ParseIP_v4 _ _ Ha), (ParseIP_v4 _ _ Hb), !To4_v4 by eauto using parse_addr_length.
  rewrite (parse_addr_length _ _ Ha). reflexivity.
Qed.

(** C2: for a range "a-b" whose endpoints are different IPv4 addresses,
    [parseIPRange] never returns: its loop does not stop within any fuel.
    (The spec promises [a, a+1, ..., b].) *)
Theorem range_diverges fuel spec p0 p1 a b :
  contains_char "/"%char spec = false -> contains_char "*"%char spec = false ->
  split_char "-"%char spec = [p0; p1] ->
  parse_addr p0 = Some a -> parse_addr p1 = Some b -> a <> b ->
  parseIPRange fuel spec = None.
Proof.
  intros H1 H2 Hs Ha Hb Hne. rewrite (parseIPRange_range fuel spec p0 p1 a b) by assumption.
  rewrite range_loop_stuck; [reflexivity| |].
  - rewrite length_replicate. symmetry. eapply parse_addr_length; eauto.
  - rewrite ip_equal_4 by (eapply parse_addr_length; eauto). by apply bool_decide_eq_false_2.
Qed.

(** A range whose two endpoints are the same address gives that address. *)
Lemma range_single fuel spec p0 p1 a :
  contains_char "/"%char spec = false -> contains_char "*"%char spec = false ->
  split_char "-"%char spec = [p0; p1] -> parse_addr p0 = Some a -> parse_addr p1 = Some a ->
  parseIPRange (S fuel) spec = Some (Ret [ip_string a]).
Proof.
  intros H1 H2 Hs Ha Hb. rewrite (parseIPRange_range (S fuel) spec p0 p1 a a) by assumption.
  pose proof (parse_addr_length _ _ Ha).
  rewrite range_loop_same; [reflexivity| rewrite length_replicate; lia |].
  rewrite ip_equal_4 by assumption. by apply bool_decide_eq_true_2.
Qed.

(** ** Witnesses *)

Lemma range_diverges_witness : parseIPRange 64 "192.168.1.5-192.168.1.8" = None.
Proof.
  apply (range_diverges 64 "192.168.1.5-192.168.1.8" "192.168.1.5" "192.168.1.8"
           [192; 168; 1; 5] [192; 168; 1; 8]); vm_compute; reflexivity || discriminate.
Defined.
