(* ===== verification/Codec.v ===== *)
(** * Codec: the six packet builders of udp.go

    [SendMessage] (lines 242-271), [Shutdown] (272-306), [Reboot]
    (307-342), [CloseApp] (345-379), [SetLoginMode] (382-422) and
    [RunCommand] (425-455) each
    1. draw 16 random bytes ([generateRandomBytes], lines 85-92),
    2. convert the teacher address ([ipToBytes]),
    3. convert their text, if any ([stringToUTF16LE]),
    4. allocate [make([]byte, n)] and run a straight line of stores,
    5. hand the packet to [SendBroadcastPacket] or [SendPacket].
    Steps 1-4 are [*_packet] here; step 5 is in [Transport].  The stores of
    step 4 are the lists [*_writes], one [write] per Go statement, in the
    order of the source.

    The random source is [option (nat -> Z)]: [None] when [rand.Read]
    fails, otherwise the byte stream it reads from ([rand.Read] fills the
    whole buffer on success).

    The wire format, stated once as [header] and the per-opcode bodies,
    is the abstract description the builders are proved to produce. *)

From S2P Require Import Prelude GoSlice Utf16 GoStrings NetIP.

(** [generateRandomBytes(length)] *)
Definition generateRandomBytes (src : option (nat -> Z)) (length : nat) : go_ret (list Z) :=
  match src with
  | None => Err "crypto/rand: read failed"
  | Some f => Ret (map (fun i => f i mod 256) (seq 0 length))
  end.

Definition magic : list Z := [0x44; 0x4d; 0x4f; 0x43].

(** ** The stores of each builder *)

(** The ten stores every builder starts with (offsets 0 to 52): magic,
    version, declared length, nonce, port constant, teacher address, the
    two size fields, the command class and a zero word. *)
Definition header_writes (declared : Z) (randomBytes teacherIPBytes : list Z) (size cls : Z)
    : list write :=
  [ WCopy 0 4 magic;
    WPut32 4 8 0x00000100;
    WPut32 8 12 declared;
    WCopy 12 28 randomBytes;
    WPut32 28 32 0x00004e20;
    WCopy 32 36 teacherIPBytes;
    WPut32 36 40 size;
    WPut32 40 44 size;
    WPut32 44 48 cls;
    WPut32 48 52 0x00000000 ].

Definition message_writes (randomBytes teacherIPBytes messageBytes : list Z) : list write :=
  header_writes 0x0000039e randomBytes teacherIPBytes 0x00000391 0x00000800 ++
  [ WPut32 52 56 0x00000005;
    WCopy 56 (56 + length messageBytes) messageBytes ].

(** The stores [Shutdown], [Reboot] and [CloseApp] share; they differ in
    the opcode at offset 52 and the 32 trailer bytes at offset 68. *)
Definition control_writes (randomBytes teacherIPBytes : list Z) (opcode : Z) (trailer : list Z)
    : list write :=
  header_writes 0x0000022a randomBytes teacherIPBytes 0x0000021d 0x00000200 ++
  [ WPut32 52 56 opcode;
    WPut32 56 60 0x0000000f;
    WPut32 60 64 0x00000001;
    WPut32 64 68 0x00000000;
    WCopy 68 100 trailer ].

Definition shutdown_trailer : list Z :=
  [0x59; 0x65; 0x08; 0x5e; 0x06; 0x5c; 0x73; 0x51;
   0xed; 0x95; 0xa8; 0x60; 0x84; 0x76; 0xa1; 0x8b;
   0x97; 0x7b; 0x3a; 0x67; 0x02; 0x30; 0x00; 0x00;
   0x00; 0x00; 0x00; 0x00; 0x00; 0x00; 0x00; 0x00].

Definition reboot_trailer : list Z :=
  [0x59; 0x65; 0x08; 0x5e; 0x06; 0x5c; 0xcd; 0x91;
   0x2f; 0x54; 0xa8; 0x60; 0x84; 0x76; 0xa1; 0x8b;
   0x97; 0x7b; 0x3a; 0x67; 0x02; 0x30; 0x00; 0x00;
   0x00; 0x00; 0x00; 0x00; 0x00; 0x00; 0x00; 0x00].

Definition closeapp_trailer : list Z :=
  [0x59; 0x65; 0x08; 0x5e; 0x06; 0x5c; 0x73; 0x51;
   0xed; 0x95; 0xa8; 0x60; 0x84; 0x76; 0x94; 0x5e;
   0x28; 0x75; 0x0b; 0x7a; 0x8f; 0x5e; 0x00; 0x00;
   0x00; 0x00; 0x00; 0x00; 0x00; 0x00; 0x00; 0x00].

Definition login_writes (randomBytes teacherIPBytes : list Z) (autoLogin : bool)
    (channelID : Z) : list write :=
  header_writes 0x0000002f randomBytes teacherIPBytes 0x00000022 0x00004000 ++
  [ WPut32 52 56 0x00000007;
    WPut32 56 60 0x00000015;
    WPut32 60 64 0x00000000;
    WPut32 64 68 (if autoLogin then 0x00000001 else 0x00000000);
    WPut32 68 72 (channelID mod 2 ^ 32);
    WSet 72 0x00;
    WSet 73 0x00;
    WSet 74 0x99 ].

Definition command_writes (randomBytes teacherIPBytes commandBytes : list Z) : list write :=
  header_writes 0x0000036e randomBytes teacherIPBytes 0x00000361 0x00000200 ++
  [ WPut32 52 56 0x0000000f;
    WPut32 56 60 0x00000001;
    WCopy 60 (60 + length commandBytes) commandBytes;
    WSet 902 0x01;
    WSet 906 0x01 ].

(** ** The builders (everything before the send) *)

Definition message_packet (src : option (nat -> Z)) (teacherIP message : string)
    : go_ret (list Z) :=
  randomBytes ← generateRandomBytes src 16;
  teacherIPBytes ← ipToBytes teacherIP;
  messageBytes ← stringToUTF16LE message;
  run_writes (message_writes randomBytes teacherIPBytes messageBytes) (make 954).

Definition control_packet (src : option (nat -> Z)) (teacherIP : string) (opcode : Z)
    (trailer : list Z) : go_ret (list Z) :=
  randomBytes ← generateRandomBytes src 16;
  teacherIPBytes ← ipToBytes teacherIP;
  run_writes (control_writes randomBytes teacherIPBytes opcode trailer) (make 582).

Definition shutdown_packet src teacherIP := control_packet src teacherIP 0x10000014 shutdown_trailer.
Definition reboot_packet src teacherIP := control_packet src teacherIP 0x10000013 reboot_trailer.
Definition closeapp_packet src teacherIP := control_packet src teacherIP 0x10000002 closeapp_trailer.

Definition login_packet (src : option (nat -> Z)) (teacherIP : string) (autoLogin : bool)
    (channelID : Z) : go_ret (list Z) :=
  if (channelID <? 1) || (32 <? channelID) then Err "channel ID must be between 1 and 32"
  else
    randomBytes ← generateRandomBytes src 16;
    teacherIPBytes ← ipToBytes teacherIP;
    run_writes (login_writes randomBytes teacherIPBytes autoLogin channelID) (make 71).

Definition command_packet (src : option (nat -> Z)) (teacherIP command : string)
    : go_ret (list Z) :=
  randomBytes ← generateRandomBytes src 16;
  teacherIPBytes ← ipToBytes teacherIP;
  commandBytes ← stringToUTF16LE command;
  run_writes (command_writes randomBytes teacherIPBytes commandBytes) (make 906).

(** ** The wire format *)

(** The nonce [rand.Read] draws from the stream [f]. *)
Definition nonce (f : nat -> Z) : list Z := map (fun i => f i mod 256) (seq 0 16).

(** The 52 bytes every packet starts with. *)
Definition header (declared : Z) (nonceBytes tip : list Z) (size cls : Z) : list Z :=
  magic ++ le32 0x100 ++ le32 declared ++ nonceBytes ++ le32 0x4e20 ++ tip ++
  le32 size ++ le32 size ++ le32 cls ++ le32 0.

Definition message_wire (f : nat -> Z) (tip msgb : list Z) : list Z :=
  header 0x39e (nonce f) tip 0x391 0x800 ++ le32 5 ++ msgb ++ replicate (898 - length msgb) 0.

Definition control_wire (f : nat -> Z) (tip : list Z) (opcode : Z) (trailer : list Z) : list Z :=
  header 0x22a (nonce f) tip 0x21d 0x200 ++ le32 opcode ++ le32 0xf ++ le32 1 ++ le32 0 ++
  trailer ++ replicate 482 0.

(** ** Lemmas *)

Lemma length_nonce f : length (nonce f) = 16%nat.
Proof. unfold nonce. rewrite length_map, length_seq. reflexivity. Qed.

Lemma length_magic : length magic = 4%nat.
Proof. reflexivity. Qed.

Lemma generateRandomBytes_some f : generateRandomBytes (Some f) 16 = Ret (nonce f).
Proof. reflexivity. Qed.

#[export] Hint Rewrite length_nonce length_le32 length_magic : mythgone_rw.

(** Close a [contiguous] obligation once the field lengths are known. *)
Ltac contiguous_solve :=
  unfold header_writes; cbn [contiguous app]; unfold w_exact; cbn [w_lo w_hi w_bytes];
  repeat match goal with
  | |- (_ && _) = true => apply andb_true_iff; split
  | |- (_ =? _)%nat = true => apply Nat.eqb_eq
  | |- (_ <=? _)%nat = true => apply Nat.leb_le
  | |- true = true => reflexivity
  end; len_solve.

Lemma message_run f tip msgb :
  length tip = 4%nat -> (length msgb <= 898)%nat ->
  run_writes (message_writes (nonce f) tip msgb) (make 954) = Ret (message_wire f tip msgb).
Proof.
  intros Ht Hm. rewrite run_writes_make.
  - unfold written, message_wire, header. cbn [message_writes header_writes app map concat w_bytes].
    rewrite !take_ge by len_solve.
    rewrite !app_nil_r, <- !app_assoc. peel_app. f_equal. len_solve.
  - unfold message_writes. contiguous_solve.
  - unfold written. cbn [message_writes header_writes app map concat w_bytes].
    rewrite Nat.add_sub', take_ge by len_solve. len_solve.
Qed.

Lemma message_packet_unfold f teacherIP tip message :
  ipToBytes teacherIP = Ret tip ->
  message_packet (Some f) teacherIP message =
    run_writes (message_writes (nonce f) tip (utf16le message)) (make 954).
Proof.
  intros Ht. unfold message_packet. rewrite generateRandomBytes_some.
  cbn [mbind go_ret_bind]. rewrite Ht, stringToUTF16LE_eq. reflexivity.
Qed.

Lemma command_packet_unfold f teacherIP tip command :
  ipToBytes teacherIP = Ret tip ->
  command_packet (Some f) teacherIP command =
    run_writes (command_writes (nonce f) tip (utf16le command)) (make 906).
Proof.
  intros Ht. unfold command_packet. rewrite generateRandomBytes_some.
  cbn [mbind go_ret_bind]. rewrite Ht, stringToUTF16LE_eq. reflexivity.
Qed.

Lemma control_packet_unfold f teacherIP tip opcode trailer :
  ipToBytes teacherIP = Ret tip ->
  control_packet (Some f) teacherIP opcode trailer =
    run_writes (control_writes (nonce f) tip opcode trailer) (make 582).
Proof.
  intros Ht. unfold control_packet. rewrite generateRandomBytes_some.
  cbn [mbind go_ret_bind]. rewrite Ht. reflexivity.
Qed.

Lemma login_packet_unfold f teacherIP tip autoLogin ch :
  1 <= ch <= 32 -> ipToBytes teacherIP = Ret tip ->
  login_packet (Some f) teacherIP autoLogin ch =
    run_writes (login_writes (nonce f) tip autoLogin ch) (make 71).
Proof.
  intros Hc Ht. unfold login_packet.
  rewrite (proj2 (Z.ltb_ge ch 1)), (proj2 (Z.ltb_ge 32 ch)) by lia.
  rewrite generateRandomBytes_some. cbn [mbind go_ret_bind orb]. rewrite Ht. reflexivity.
Qed.

(** The header stores run without panicking in any buffer of at least 52
    bytes (they are contiguous from 0). *)
Lemma header_writes_contiguous d rnd tip s c :
  length rnd = 16%nat -> length tip = 4%nat ->
  contiguous 0 (header_writes d rnd tip s c) = true.
Proof. intros Hr Ht. contiguous_solve. Qed.

Lemma header_writes_run d f tip s c n :
  length tip = 4%nat -> (52 <= n)%nat ->
  run_writes (header_writes d (nonce f) tip s c) (make n) =
    Ret (header d (nonce f) tip s c ++ replicate (n - 52) 0).
Proof.
  intros Ht Hn. rewrite run_writes_make by
    (try apply header_writes_contiguous; unfold written, header_writes; cbn [map concat w_bytes];
     len_solve).
  unfold written, header, header_writes. cbn [map concat w_bytes].
  rewrite !take_ge by len_solve. rewrite !app_nil_r, <- !app_assoc. peel_app. f_equal. len_solve.
Qed.

Lemma control_run f tip opcode trailer :
  length tip = 4%nat -> length trailer = 32%nat ->
  run_writes (control_writes (nonce f) tip opcode trailer) (make 582) =
    Ret (control_wire f tip opcode trailer).
Proof.
  intros Ht Htr. rewrite run_writes_make.
  - unfold written, control_wire, header. cbn [control_writes header_writes app map concat w_bytes].
    rewrite !take_ge by len_solve.
    rewrite !app_nil_r, <- !app_assoc. peel_app. f_equal. len_solve.
  - unfold control_writes. contiguous_solve.
  - unfold written. cbn [control_writes header_writes app map concat w_bytes].
    rewrite !take_ge by len_solve. len_solve.
Qed.

(** The number of bytes a prefix of stores writes. *)
Ltac written_len :=
  unfold written; cbn [header_writes app map concat w_bytes];
  rewrite ?take_ge by len_solve; len_solve.

(** [SendMessage]'s stores overrun the buffer for a text over 898 bytes. *)
Lemma message_long_panic f tip msgb :
  length tip = 4%nat -> (898 < length msgb)%nat ->
  exists e, run_writes (message_writes (nonce f) tip msgb) (make 954) = Panic e.
Proof.
  intros Ht Hm. unfold message_writes.
  replace (header_writes _ _ _ _ _ ++ _) with
    ((header_writes 0x39e (nonce f) tip 0x391 0x800 ++ [WPut32 52 56 5]) ++
     WCopy 56 (56 + length msgb) msgb :: [])
    by (rewrite <- !app_assoc; reflexivity).
  apply prefix_then_oob; [contiguous_solve | written_len | cbn; lia | cbn; lia].
Qed.

(** A builder that returns a packet got the teacher address. *)
Lemma builder_tip f teacherIP message opcode trailer p :
  message_packet (Some f) teacherIP message = Ret p \/ control_packet (Some f) teacherIP opcode trailer = Ret p ->
  exists tip, ipToBytes teacherIP = Ret tip.
Proof.
  unfold message_packet, control_packet. rewrite generateRandomBytes_some. cbn [mbind go_ret_bind].
  destruct (ipToBytes teacherIP) as [tip| |]; [eauto|intros [H|H]; discriminate..].
Qed.

Lemma message_wire_fields f tip msgb :
  length tip = 4%nat -> (length msgb <= 898)%nat ->
  let p := message_wire f tip msgb in
  get_uint32 8 p = Some (Z.of_nat (length p) - 28) /\
  get_uint32 36 p = Some (Z.of_nat (length p) - 41) /\ get_uint32 40 p = Some (Z.of_nat (length p) - 41).
Proof.
  intros Ht Hm. assert (Lm : length (message_wire f tip msgb) = 954%nat)
    by (unfold message_wire, header; len_solve).
  cbv zeta. rewrite Lm. unfold message_wire, header. repeat split; drop_fields; reflexivity.
Qed.

Lemma control_wire_fields f tip opcode trailer :
  length tip = 4%nat -> length trailer = 32%nat ->
  let p := control_wire f tip opcode trailer in
  get_uint32 8 p = Some (Z.of_nat (length p) - 28) /\
  get_uint32 36 p = Some (Z.of_nat (length p) - 41) /\ get_uint32 40 p = Some (Z.of_nat (length p) - 41).
Proof.
  intros Ht Htr. assert (Lc : length (control_wire f tip opcode trailer) = 582%nat)
    by (unfold control_wire, header; len_solve).
  cbv zeta. rewrite Lc. unfold control_wire, header. repeat split; drop_fields; reflexivity.
Qed.

(** ** Theorems *)

(** C1: [SendMessage] builds the 954-byte packet [message_wire]: the
    common header (declared length 0x39e, nonce, port 0x4e20, teacher
    address, size 0x391 twice, class 0x800), the opcode 5, the UTF-16LE
    text at offset 56 and zeros up to the end, whenever the teacher
    address is a dotted quad and the text fits in the 898 bytes left. *)
Theorem SendMessage_packet_layout f teacherIP tip message :
  ipToBytes teacherIP = Ret tip -> (length (utf16le message) <= 898)%nat ->
  message_packet (Some f) teacherIP message = Ret (message_wire f tip (utf16le message)).
Proof.
  intros Ht Hm. rewrite (message_packet_unfold f teacherIP tip) by exact Ht.
  apply message_run; [eapply ipToBytes_length; eauto | exact Hm].
Qed.

(** C10: a text whose UTF-16LE form is longer than 898 bytes makes
    [SendMessage] panic (the slice [packet[56:56+len]] exceeds the
    954-byte buffer) instead of returning an error. *)
Theorem SendMessage_packet_too_long f teacherIP tip message :
  ipToBytes teacherIP = Ret tip -> (898 < length (utf16le message))%nat ->
  exists e, message_packet (Some f) teacherIP message = Panic e.
Proof.
  intros Ht Hm. rewrite (message_packet_unfold f teacherIP tip) by exact Ht.
  apply message_long_panic; [eapply ipToBytes_length; eauto|exact Hm].
Qed.

(** C3: [RunCommand] panics for every command once the random bytes and
    the teacher address are obtained: either the copy of a long command
    overruns the 906-byte buffer, or [packet[906] = 0x01] indexes one past
    its end. *)
Theorem RunCommand_always_panics f teacherIP tip command :
  ipToBytes teacherIP = Ret tip -> exists e, command_packet (Some f) teacherIP command = Panic e.
Proof.
  intros Ht. pose proof (ipToBytes_length _ _ Ht).
  rewrite (command_packet_unfold f teacherIP tip) by exact Ht. unfold command_writes.
  set (cb := utf16le command).
  destruct (Nat.le_gt_cases (length cb) 846) as [Hc|Hc].
  - set (ws1 := header_writes 0x36e (nonce f) tip 0x361 0x200 ++
                  [WPut32 52 56 0xf; WPut32 56 60 1; WCopy 60 (60 + length cb) cb]).
    destruct (run_writes_snoc_ok ws1 (WSet 902 1) (make 906)
                (written ws1 ++ replicate (906 - length (written ws1)) 0)) as [q Hq].
    { apply run_writes_make; [subst ws1; contiguous_solve|].
      subst ws1. written_len. }
    { reflexivity. }
    { unfold make. rewrite length_replicate. cbn [w_hi]. lia. }
    replace (header_writes _ _ _ _ _ ++ _) with ((ws1 ++ [WSet 902 1]) ++ WSet 906 1 :: [])
      by (subst ws1; rewrite <- !app_assoc; reflexivity).
    eapply run_writes_then_oob; [exact Hq | cbn; lia | unfold make; rewrite length_replicate; cbn; lia].
  - replace (header_writes _ _ _ _ _ ++ _) with
      ((header_writes 0x36e (nonce f) tip 0x361 0x200 ++ [WPut32 52 56 0xf; WPut32 56 60 1]) ++
       WCopy 60 (60 + length cb) cb :: [WSet 902 1; WSet 906 1])
      by (rewrite <- !app_assoc; reflexivity).
    apply prefix_then_oob; [contiguous_solve | written_len | cbn; lia | cbn; lia].
Qed.

(** C4: [SetLoginMode] with a channel in [1, 32] panics once the random
    bytes and the teacher address are obtained: the buffer has 71 bytes
    but the channel field is stored at [packet[68:72]] (and the trailer
    at 72-74).  Its header declares 0x2f = 75 - 28 bytes, the size of
    the packet the stores describe. *)
Theorem SetLoginMode_panics f teacherIP tip autoLogin ch :
  1 <= ch <= 32 -> ipToBytes teacherIP = Ret tip ->
  exists e, login_packet (Some f) teacherIP autoLogin ch = Panic e.
Proof.
  intros Hc Ht. pose proof (ipToBytes_length _ _ Ht).
  rewrite (login_packet_unfold f teacherIP tip) by assumption. unfold login_writes.
  replace (header_writes _ _ _ _ _ ++ _) with
    ((header_writes 0x2f (nonce f) tip 0x22 0x4000 ++
      [WPut32 52 56 7; WPut32 56 60 0x15; WPut32 60 64 0;
       WPut32 64 68 (if autoLogin then 1 else 0)]) ++
     WPut32 68 72 (ch mod 2 ^ 32) :: [WSet 72 0; WSet 73 0; WSet 74 0x99])
    by (rewrite <- !app_assoc; reflexivity).
  apply prefix_then_oob; [contiguous_solve | written_len | cbn; lia | cbn; lia].
Qed.

(** [SetLoginMode] rejects a channel outside [1, 32] with an error,
    before drawing random bytes or parsing the teacher address. *)
Theorem SetLoginMode_channel_error src teacherIP autoLogin ch :
  ch < 1 \/ 32 < ch ->
  login_packet src teacherIP autoLogin ch = Err "channel ID must be between 1 and 32".
Proof.
  intros Hc. unfold login_packet.
  destruct (Z.ltb_spec ch 1), (Z.ltb_spec 32 ch); simpl; reflexivity || lia.
Qed.

(** C14: [Shutdown], [Reboot] and [CloseApp] build the 582-byte
    [control_wire] with their own opcode and trailer (and nothing else
    differs between them). *)
Theorem control_packets_layout f teacherIP tip :
  ipToBytes teacherIP = Ret tip ->
  shutdown_packet (Some f) teacherIP = Ret (control_wire f tip 0x10000014 shutdown_trailer) /\
  reboot_packet (Some f) teacherIP = Ret (control_wire f tip 0x10000013 reboot_trailer) /\
  closeapp_packet (Some f) teacherIP = Ret (control_wire f tip 0x10000002 closeapp_trailer).
Proof.
  intros Ht. pose proof (ipToBytes_length _ _ Ht).
  unfold shutdown_packet, reboot_packet, closeapp_packet.
  rewrite !(control_packet_unfold f teacherIP tip) by exact Ht.
  repeat split; apply control_run; auto.
Qed.

(** C15: in every packet [SendMessage], [Shutdown], [Reboot] or
    [CloseApp] returns, the declared-length field at offset 8 is the
    packet length minus 28 and the two size fields at offsets 36 and 40
    are the packet length minus 41. *)
Theorem wire_length_fields f teacherIP message p :
  message_packet (Some f) teacherIP message = Ret p \/ shutdown_packet (Some f) teacherIP = Ret p \/
  reboot_packet (Some f) teacherIP = Ret p \/ closeapp_packet (Some f) teacherIP = Ret p ->
  get_uint32 8 p = Some (Z.of_nat (length p) - 28) /\
  get_uint32 36 p = Some (Z.of_nat (length p) - 41) /\ get_uint32 40 p = Some (Z.of_nat (length p) - 41).
Proof.
  unfold shutdown_packet, reboot_packet, closeapp_packet. intros H.
  assert (Htip : exists tip, ipToBytes teacherIP = Ret tip)
    by (destruct H as [H|[H|[H|H]]];
        [apply (builder_tip f teacherIP message 0 [] p); left; exact H
        |eapply (builder_tip f teacherIP message); right; exact H..]).
  destruct Htip as [tip Ht].
  pose proof (ipToBytes_length _ _ Ht) as Hl.
  rewrite ?(message_packet_unfold f teacherIP tip), ?(control_packet_unfold f teacherIP tip) in H by exact Ht.
  destruct H as [H|[H|[H|H]]].
  - destruct (Nat.le_gt_cases (length (utf16le message)) 898) as [Hm|Hm].
    + rewrite message_run in H by assumption. injection H as <-. apply message_wire_fields; assumption.
    + destruct (message_long_panic f tip (utf16le message) Hl Hm) as [e He]. congruence.
  - rewrite control_run in H by (assumption || reflexivity). injection H as <-. apply control_wire_fields; auto.
  - rewrite control_run in H by (assumption || reflexivity). injection H as <-. apply control_wire_fields; auto.
  - rewrite control_run in H by (assumption || reflexivity). injection H as <-. apply control_wire_fields; auto.
Qed.

(** C18: every builder reports a failing [rand.Read] as an error, and
    then the error of [ipToBytes] on the teacher address ("invalid IP
    address" for text [net.ParseIP] rejects, "not an IPv4 address" for
    an IPv6 address outside ::ffff:0:0/96), [SetLoginMode] with a valid
    channel. *)
Theorem packet_builders_errors f teacherIP text opcode trailer autoLogin ch :
  1 <= ch <= 32 ->
  (message_packet None teacherIP text = Err "crypto/rand: read failed" /\
   command_packet None teacherIP text = Err "crypto/rand: read failed" /\
   control_packet None teacherIP opcode trailer = Err "crypto/rand: read failed" /\
   login_packet None teacherIP autoLogin ch = Err "crypto/rand: read failed") /\
  (forall e, ipToBytes teacherIP = Err e ->
   message_packet (Some f) teacherIP text = Err e /\
   command_packet (Some f) teacherIP text = Err e /\
   control_packet (Some f) teacherIP opcode trailer = Err e /\
   login_packet (Some f) teacherIP autoLogin ch = Err e).
Proof.
  intros Hc. unfold message_packet, command_packet, control_packet, login_packet.
  rewrite (proj2 (Z.ltb_ge ch 1)), (proj2 (Z.ltb_ge 32 ch)) by lia. cbn [orb].
  split; [repeat split|].
  intros e Hp. rewrite generateRandomBytes_some, Hp. repeat split.
Qed.

(** The example of the specification: the message packet for the
    text "hi" has 954 bytes, the magic at offset 0, the declared length
    0x39e at offset 8, the nonce at offset 12 and "hi" in UTF-16LE at
    offset 56. *)
Example SendMessage_hi f :
  exists p, message_packet (Some f) "10.0.0.1" "hi" = Ret p /\ length p = 954%nat /\
    take 4 p = [0x44; 0x4d; 0x4f; 0x43] /\ get_uint32 8 p = Some 0x39e /\
    take 16 (drop 12 p) = nonce f /\ take 4 (drop 56 p) = [0x68; 0; 0x69; 0].
Proof.
  exists (message_wire f [10; 0; 0; 1] (utf16le "hi")).
  split; [rewrite (message_packet_unfold f _ [10; 0; 0; 1]) by reflexivity;
          apply message_run; vm_compute; reflexivity || lia|].
  vm_compute. repeat split.
Qed.

(** ** Witnesses *)

Definition zero_stream : nat -> Z := fun _ => 0.

Definition long_text : string :=
  (fix rep (n : nat) : string := match n with O => EmptyString | S n => String "a" (rep n) end) 450%nat.

Lemma SendMessage_packet_layout_witness :
  message_packet (Some zero_stream) "10.0.0.1" "hi" =
    Ret (message_wire zero_stream [10; 0; 0; 1] (utf16le "hi")).
Proof. apply SendMessage_packet_layout; vm_compute; reflexivity || lia. Defined.

Lemma SendMessage_packet_too_long_witness :
  exists e, message_packet (Some zero_stream) "10.0.0.1" long_text = Panic e.
Proof. apply (SendMessage_packet_too_long _ _ [10; 0; 0; 1]); vm_compute; reflexivity || lia. Defined.

Lemma RunCommand_always_panics_witness :
  exists e, command_packet (Some zero_stream) "10.0.0.1" "calc" = Panic e.
Proof. apply (RunCommand_always_panics _ _ [10; 0; 0; 1]). vm_compute. reflexivity. Defined.

Lemma SetLoginMode_panics_witness :
  exists e, login_packet (Some zero_stream) "10.0.0.1" true 5 = Panic e.
Proof. apply (SetLoginMode_panics _ _ [10; 0; 0; 1]); [lia | vm_compute; reflexivity]. Defined.

Lemma SetLoginMode_channel_error_witness :
  login_packet (Some zero_stream) "10.0.0.1" true 33 = Err "channel ID must be between 1 and 32".
Proof. apply SetLoginMode_channel_error. lia. Defined.

Lemma control_packets_layout_witness :
  shutdown_packet (Some zero_stream) "10.0.0.1" =
    Ret (control_wire zero_stream [10; 0; 0; 1] 0x10000014 shutdown_trailer) /\
  reboot_packet (Some zero_stream) "10.0.0.1" =
    Ret (control_wire zero_stream [10; 0; 0; 1] 0x10000013 reboot_trailer) /\
  closeapp_packet (Some zero_stream) "10.0.0.1" =
    Ret (control_wire zero_stream [10; 0; 0; 1] 0x10000002 closeapp_trailer).
Proof. apply (control_packets_layout _ _ [10; 0; 0; 1]). vm_compute. reflexivity. Defined.

Lemma wire_length_fields_witness :
  exists p, shutdown_packet (Some zero_stream) "10.0.0.1" = Ret p /\ get_uint32 8 p = Some (Z.of_nat (length p) - 28).
Proof.
  destruct (wire_length_fields zero_stream "10.0.0.1" "hi"
              (match shutdown_packet (Some zero_stream) "10.0.0.1" with Ret p => p | _ => [] end))
    as [H8 _]; [right; left; vm_compute; reflexivity|].
  eexists. split; [vm_compute; reflexivity|exact H8].
Defined.

Lemma packet_builders_errors_witness :
  message_packet (Some zero_stream) "::1" "hi" = Err "not an IPv4 address".
Proof.
  destruct (packet_builders_errors zero_stream "::1" "hi" 0x10000014 shutdown_trailer true 5)
    as [_ H]; [lia|].
  apply H. vm_compute. reflexivity.
Defined.

