(* ===== verification/Transport.v ===== *)
(** * Transport: [UDPClient] and its sends (udp.go 17-82, 195-271 and the
    send tails of the other builders)

    The socket layer is the interface [UdpStack]: address resolution
    ([net.ResolveUDPAddr]), and whether the operating system accepts each
    of the calls the code makes (dial, listen, the two [ipv4.PacketConn]
    options, one datagram to a destination).  The state the code changes
    is explicit: the client record ([UDPClient], with its two sockets) and
    the [world] (which sockets are open, which datagrams were sent).

    [SendBroadcastPacket] calls [parseIPRange] and therefore takes its fuel
    and returns [None] when the expansion does not finish. *)

From S2P Require Import Prelude GoSlice Utf16 GoStrings NetIP AddressResolver Codec.
From Stdlib Require Import DecimalString DecimalN.

(** A UDP address: four address bytes and a port. *)
Definition udp_addr : Type := list Z * Z.

(** What the code relies on from the socket layer. *)
Class UdpStack := {
  (** [net.ResolveUDPAddr("udp4", s)] *)
  resolve_udp : string -> option udp_addr;
  (** a literal "a.b.c.d:port" resolves to itself *)
  resolve_udp_literal : forall ip port,
    length ip = 4%nat -> bytes_ok ip -> 0 <= port < 65536 ->
    resolve_udp (String.append (ip_string ip) (String.append ":" (dec port))) = Some (ip, port);
  (** the calls that can fail *)
  dial_ok : udp_addr -> bool;
  listen_ok : bool;
  control_message_ok : bool;
  multicast_ttl_ok : bool;
  (** the stack accepts one datagram for this destination *)
  send_ok : udp_addr -> bool
}.

(** A socket: its id and, for a dialled socket, its peer. *)
Record socket := { sock_id : nat; sock_peer : option udp_addr }.

Record UDPClient := {
  TargetIP : string;
  TargetPort : Z;
  TeacherIP : string;
  Broadcast : bool;
  conn : option socket;
  ipv4Handler : option socket
}.

(** The part of the system the client changes: open sockets and the
    datagrams handed to the network (destination and payload). *)
Record world := {
  next_sock : nat;
  open_socks : list nat;
  sent : list (udp_addr * list Z)
}.

Section Transport.
Context `{UdpStack}.

Definition set_conn (c : UDPClient) (s : option socket) : UDPClient :=
  {| TargetIP := TargetIP c; TargetPort := TargetPort c; TeacherIP := TeacherIP c;
     Broadcast := Broadcast c; conn := s; ipv4Handler := ipv4Handler c |}.
Definition set_handler (c : UDPClient) (s : option socket) : UDPClient :=
  {| TargetIP := TargetIP c; TargetPort := TargetPort c; TeacherIP := TeacherIP c;
     Broadcast := Broadcast c; conn := conn c; ipv4Handler := s |}.

Definition open_sock (peer : option udp_addr) (w : world) : socket * world :=
  ({| sock_id := next_sock w; sock_peer := peer |},
   {| next_sock := S (next_sock w); open_socks := next_sock w :: open_socks w; sent := sent w |}).

Definition close_sock (s : socket) (w : world) : world :=
  {| next_sock := next_sock w; open_socks := List.remove Nat.eq_dec (sock_id s) (open_socks w);
     sent := sent w |}.

Definition record_send (a : udp_addr) (p : list Z) (w : world) : world :=
  {| next_sock := next_sock w; open_socks := open_socks w; sent := sent w ++ [(a, p)] |}.

(** [fmt.Sprintf("%s:%d", host, port)] *)
Definition host_port (host : string) (port : Z) : string :=
  String.append host (String.append ":"
    (if port <? 0 then String.append "-" (dec (- port)) else dec port)).

(** [NewUDPClient] *)
Definition NewUDPClient (targetIP : string) (targetPort : Z) (teacherIP : string)
    (broadcast : bool) : UDPClient :=
  {| TargetIP := targetIP; TargetPort := targetPort; TeacherIP := teacherIP;
     Broadcast := broadcast; conn := None; ipv4Handler := None |}.

(** [Connect] *)
Definition Connect (c : UDPClient) (w : world) : go_ret unit * UDPClient * world :=
  match resolve_udp (host_port (TargetIP c) (TargetPort c)) with
  | None => (Err "resolve failed", c, w)
  | Some udpAddr =>
    if negb (dial_ok udpAddr) then (Err "dial failed", c, w) else
    let (s, w) := open_sock (Some udpAddr) w in
    let c := set_conn c (Some s) in
    if Broadcast c then
      if negb listen_ok then (Err "listen failed", c, w) else
      let (u, w) := open_sock None w in
      if negb control_message_ok then (Err "set control message failed", c, w)
      else if negb multicast_ttl_ok then (Err "set multicast TTL failed", c, w)
      else (Ret tt, set_handler c (Some u), w)
    else (Ret tt, c, w)
  end.

(** [Close] *)
Definition Close (c : UDPClient) (w : world) : UDPClient * world :=
  let '(c, w) := match conn c with
                 | Some s => (set_conn c None, close_sock s w)
                 | None => (c, w)
                 end in
  match ipv4Handler c with
  | Some s => (set_handler c None, close_sock s w)
  | None => (c, w)
  end.

(** [SendPacket]: one datagram on the dialled socket. *)
Definition SendPacket (c : UDPClient) (packet : list Z) (w : world) : go_ret unit * world :=
  match conn c with
  | None => (Err "connection not established", w)
  | Some s =>
      match sock_peer s with
      | Some a => if send_ok a then (Ret tt, record_send a packet w) else (Err "write failed", w)
      | None => (Err "write failed", w)
      end
  end.

(** The loop of [SendBroadcastPacket]: resolve each target, send, count. *)
Fixpoint fan_out (port : Z) (packet : list Z) (targets : list string) (count : nat) (w : world)
    : nat * world :=
  match targets with
  | [] => (count, w)
  | target :: rest =>
      match resolve_udp (host_port target port) with
      | None => fan_out port packet rest count w
      | Some a =>
          if send_ok a then fan_out port packet rest (S count) (record_send a packet w)
          else fan_out port packet rest count w
      end
  end.

(** [SendBroadcastPacket] *)
Definition SendBroadcastPacket (fuel : nat) (c : UDPClient) (packet : list Z) (w : world)
    : option (go_ret unit * world) :=
  match ipv4Handler c with
  | None => Some (Err "broadcast not enabled", w)
  | Some _ =>
      match parseIPRange fuel (TargetIP c) with
      | None => None
      | Some (Err e) => Some (Err e, w)
      | Some (Panic e) => Some (Panic e, w)
      | Some (Ret targets) =>
          let (successCount, w) := fan_out (TargetPort c) packet targets 0 w in
          if (successCount =? 0)%nat then Some (Err "failed to send to any target", w)
          else Some (Ret tt, w)
      end
  end.

(** The tail every [Send*] method shares. *)
Definition send_built (fuel : nat) (c : UDPClient) (built : go_ret (list Z)) (w : world)
    : option (go_ret unit * world) :=
  match built with
  | Err e => Some (Err e, w)
  | Panic e => Some (Panic e, w)
  | Ret packet =>
      if Broadcast c then SendBroadcastPacket fuel c packet w
      else Some (SendPacket c packet w)
  end.

Definition SendMessage fuel c src message w :=
  send_built fuel c (message_packet src (TeacherIP c) message) w.
Definition Shutdown fuel c src w := send_built fuel c (shutdown_packet src (TeacherIP c)) w.
Definition Reboot fuel c src w := send_built fuel c (reboot_packet src (TeacherIP c)) w.
Definition CloseApp fuel c src w := send_built fuel c (closeapp_packet src (TeacherIP c)) w.
Definition SetLoginMode fuel c src autoLogin channelID w :=
  send_built fuel c (login_packet src (TeacherIP c) autoLogin channelID) w.
Definition RunCommand fuel c src command w :=
  send_built fuel c (command_packet src (TeacherIP c) command) w.

(** ** Fan-out *)

(** The destinations the loop of [SendBroadcastPacket] delivers to: the
    targets that resolve and whose datagram the stack accepts, in order. *)
Definition deliverable (port : Z) (targets : list string) : list udp_addr :=
  omap (fun t => match resolve_udp (host_port t port) with
                 | Some a => if send_ok a then Some a else None
                 | None => None
                 end) targets.

Definition with_sent (w : world) (l : list (udp_addr * list Z)) : world :=
  {| next_sock := next_sock w; open_socks := open_socks w; sent := sent w ++ l |}.

Lemma fan_out_spec port packet targets count w :
  fan_out port packet targets count w =
    ((count + length (deliverable port targets))%nat,
     with_sent w (map (fun a => (a, packet)) (deliverable port targets))).
Proof.
  revert count w. unfold deliverable, with_sent.
  induction targets as [|t targets IH]; intros count w; simpl.
  - rewrite Nat.add_0_r, app_nil_r. destruct w; reflexivity.
  - destruct (resolve_udp (host_port t port)) as [a|]; [destruct (send_ok a)|]; simpl;
      rewrite IH; [|reflexivity..].
    unfold record_send. simpl. rewrite <- app_assoc, Nat.add_succ_r. reflexivity.
Qed.

(** C7: with broadcast enabled and an expanded target list,
    [SendBroadcastPacket] hands the same packet to every target that
    resolves and is accepted, in order, and succeeds exactly when at least
    one was; otherwise it returns "failed to send to any target". *)
Theorem SendBroadcastPacket_spec fuel c packet w h targets :
  ipv4Handler c = Some h -> parseIPRange fuel (TargetIP c) = Some (Ret targets) ->
  SendBroadcastPacket fuel c packet w =
    Some (match deliverable (TargetPort c) targets with
          | [] => Err "failed to send to any target"
          | _ :: _ => Ret tt
          end,
          with_sent w (map (fun a => (a, packet)) (deliverable (TargetPort c) targets))).
Proof.
  intros Hh Ht. unfold SendBroadcastPacket. rewrite Hh, Ht, fan_out_spec. simpl.
  destruct (deliverable (TargetPort c) targets); reflexivity.
Qed.

(** ** Unicast *)

(** C17: a unicast client whose dialled socket accepts the datagram sends
    exactly one datagram for [SendMessage]: the [message_wire] packet, to
    the dialled address. *)
Theorem SendMessage_unicast fuel c f message w s a tip :
  Broadcast c = false -> conn c = Some s -> sock_peer s = Some a -> send_ok a = true ->
  ipToBytes (TeacherIP c) = Ret tip -> (length (utf16le message) <= 898)%nat ->
  SendMessage fuel c (Some f) message w =
    Some (Ret tt, with_sent w [(a, message_wire f tip (utf16le message))]).
Proof.
  intros Hb Hc Hs Ha Ht Hm. unfold SendMessage, send_built.
  rewrite (message_packet_unfold f _ tip), message_run by eauto using ipToBytes_length.
  rewrite Hb. unfold SendPacket. rewrite Hc, Hs, Ha. reflexivity.
Qed.

(** [SendPacket] before [Connect] is an error, and changes nothing. *)
Lemma SendPacket_not_connected c packet w :
  conn c = None -> SendPacket c packet w = (Err "connection not established", w).
Proof. intros Hc. unfold SendPacket. rewrite Hc. reflexivity. Qed.

(** ** Close *)

Lemma not_in_close_sock x s w :
  x ∉ open_socks w -> x ∉ open_socks (close_sock s w).
Proof.
  unfold close_sock. simpl. rewrite !list_elem_of_In. intros Hx Hin. apply Hx.
  eapply in_remove, Hin.
Qed.

Lemma close_sock_not_in s w : sock_id s ∉ open_socks (close_sock s w).
Proof.
  unfold close_sock. simpl. rewrite list_elem_of_In. intros Hin. eapply remove_In, Hin.
Qed.

Lemma close_sock_keeps x s w :
  x ∈ open_socks w -> x <> sock_id s -> x ∈ open_socks (close_sock s w).
Proof.
  unfold close_sock. simpl. rewrite !list_elem_of_In. intros Hx Hne. by apply in_in_remove.
Qed.

#[local] Hint Resolve not_in_close_sock close_sock_not_in : mythgone.

(** after [Close] the client holds no socket, every socket it held
    is closed, and a second [Close] changes nothing: no socket is closed
    twice. *)
Theorem Close_releases c w :
  conn (Close c w).1 = None /\ ipv4Handler (Close c w).1 = None /\
  (forall s, conn c = Some s \/ ipv4Handler c = Some s -> sock_id s ∉ open_socks (Close c w).2) /\
  Close (Close c w).1 (Close c w).2 = Close c w.
Proof.
  unfold Close. destruct (conn c) as [s|] eqn:Ec; destruct (ipv4Handler c) as [u|] eqn:Eu;
    do 2 (cbn -[close_sock]; rewrite ?Ec, ?Eu); repeat split; try (assumption || reflexivity);
    intros s' [[= <-]|[= <-]]; auto with mythgone.
Qed.

(** ** Connect *)

(** C16: in broadcast mode, when the listening socket opens but setting
    its control message fails, [Connect] returns the error with the
    listening socket still open and not stored in the client, so the
    [Close] the caller runs next leaves it open (udp.go 55-65). *)
Theorem Connect_leaks_listener c w a :
  Broadcast c = true -> conn c = None -> ipv4Handler c = None ->
  resolve_udp (host_port (TargetIP c) (TargetPort c)) = Some a -> dial_ok a = true ->
  listen_ok = true -> control_message_ok = false ->
  let '(r, c1, w1) := Connect c w in
  r = Err "set control message failed" /\ S (next_sock w) ∈ open_socks (Close c1 w1).2.
Proof.
  intros Hb Hc Hu Hr Hd Hl Hm. unfold Connect. rewrite Hr, Hd, Hl, Hm. cbn -[close_sock].
  rewrite Hb; cbn -[close_sock]; rewrite ?Hu. split; [reflexivity|]. apply close_sock_keeps; cbn; [constructor|lia].
Qed.

End Transport.

(** ** A socket layer for concrete runs

    Addresses are literals "a.b.c.d:port" (no name service); which calls
    succeed is given by the parameters. *)

Definition parse_port (s : string) : option Z :=
  match NilEmpty.uint_of_string s with
  | Some d => let p := Z.of_N (N.of_uint d) in if p <? 65536 then Some p else None
  | None => None
  end.

Definition resolve_literal (s : string) : option udp_addr :=
  match cut_char ":"%char s with
  | Some (h, p) =>
      match parse_addr h, parse_port p with
      | Some ip, Some port => Some (ip, port)
      | _, _ => None
      end
  | None => None
  end.

Lemma cut_char_append c s1 s2 :
  contains_char c s1 = false -> cut_char c (String.append s1 (String c s2)) = Some (s1, s2).
Proof.
  induction s1 as [|x s1 IH];
    rewrite ?string_append_nil, ?string_append_cons; cbn [cut_char contains_char];
    [rewrite Ascii.eqb_refl; reflexivity|].
  rewrite orb_false_iff. intros [-> H]. rewrite IH by exact H. reflexivity.
Qed.

Lemma contains_char_chars c s :
  contains_char c s = existsb (fun x => Ascii.eqb x c) (list_ascii_of_string s).
Proof. induction s as [|x s IH]; cbn; [reflexivity|]. rewrite IH. reflexivity. Qed.

Lemma digits_no_colon l : forallb is_digit l = true -> existsb (fun x => Ascii.eqb x ":"%char) l = false.
Proof.
  induction l as [|x l IH]; cbn; [reflexivity|]. rewrite andb_true_iff. intros [Hx Hl].
  rewrite IH by exact Hl. destruct (Ascii.eqb_spec x ":"%char); [subst; discriminate|reflexivity].
Qed.

Lemma ip_string_no_colon ip :
  length ip = 4%nat -> bytes_ok ip -> contains_char ":"%char (ip_string ip) = false.
Proof.
  intros Hl Hb. destruct ip as [|a [|b [|c [|d [|]]]]]; try discriminate.
  rewrite contains_char_chars, ip_string_chars.
  do 3 (rewrite existsb_app; cbn [existsb]).
  unfold bytes_ok in Hb.
  repeat match goal with H : Forall _ (_ :: _) |- _ => inversion H; subst; clear H end.
  rewrite !digits_no_colon by (eapply all_octets_ok; eassumption). reflexivity.
Qed.

Lemma parse_port_dec port : 0 <= port < 65536 -> parse_port (dec port) = Some port.
Proof.
  intros Hp. unfold parse_port, dec. rewrite NilEmpty.usu, DecimalN.Unsigned.of_to, Z2N.id by lia.
  rewrite (proj2 (Z.ltb_lt _ _)) by lia. reflexivity.
Qed.

Lemma resolve_literal_ok ip port :
  length ip = 4%nat -> bytes_ok ip -> 0 <= port < 65536 ->
  resolve_literal (String.append (ip_string ip) (String.append ":" (dec port))) = Some (ip, port).
Proof.
  intros Hl Hb Hp. unfold resolve_literal.
  change (String.append ":" (dec port)) with (String ":"%char (dec port)).
  rewrite cut_char_append by (apply ip_string_no_colon; assumption).
  rewrite parse_addr_ip_string, parse_port_dec by assumption. reflexivity.
Qed.

#[export] Instance literal_stack (dial listen ctl ttl : bool) (send : udp_addr -> bool) : UdpStack := {|
  resolve_udp := resolve_literal;
  resolve_udp_literal := resolve_literal_ok;
  dial_ok := fun _ => dial;
  listen_ok := listen;
  control_message_ok := ctl;
  multicast_ttl_ok := ttl;
  send_ok := send
|}.

(** ** Witnesses *)

Definition w0 : world := {| next_sock := 0; open_socks := []; sent := [] |}.

(** A stack that accepts datagrams for the listed destinations only. *)
Definition accept_only (l : list udp_addr) (a : udp_addr) : bool := bool_decide (a ∈ l).

Definition bcast_client : UDPClient :=
  set_handler (NewUDPClient "192.168.1.0/29" 4988 "192.168.1.100" true)
              (Some {| sock_id := 1; sock_peer := None |}).

Definition two_of_six : UdpStack :=
  literal_stack true true true true (accept_only [([192; 168; 1; 2], 4988); ([192; 168; 1; 5], 4988)]).

Lemma SendBroadcastPacket_spec_witness :
  @SendBroadcastPacket two_of_six 64 bcast_client [1; 2; 3] w0 =
    Some (Ret tt, with_sent w0 [(([192; 168; 1; 2], 4988), [1; 2; 3]);
                               (([192; 168; 1; 5], 4988), [1; 2; 3])]).
Proof.
  rewrite (@SendBroadcastPacket_spec two_of_six 64 bcast_client [1; 2; 3] w0
             {| sock_id := 1; sock_peer := None |}
             ["192.168.1.1"; "192.168.1.2"; "192.168.1.3"; "192.168.1.4"; "192.168.1.5";
              "192.168.1.6"]%string);
    vm_compute; reflexivity.
Defined.

Definition unicast_client : UDPClient :=
  set_conn (NewUDPClient "192.168.1.10" 4988 "192.168.1.100" false)
           (Some {| sock_id := 0; sock_peer := Some ([192; 168; 1; 10], 4988) |}).

Lemma SendMessage_unicast_witness :
  @SendMessage (literal_stack true true true true (fun _ => true)) 0 unicast_client
    (Some zero_stream) "hi" w0 =
  Some (Ret tt, with_sent w0 [(([192; 168; 1; 10], 4988),
                               message_wire zero_stream [192; 168; 1; 100] (utf16le "hi"))]).
Proof.
  apply (@SendMessage_unicast (literal_stack true true true true (fun _ => true)) 0 unicast_client
           zero_stream "hi" w0 {| sock_id := 0; sock_peer := Some ([192; 168; 1; 10], 4988) |});
    vm_compute; reflexivity || lia.
Defined.

Lemma Connect_leaks_listener_witness :
  let '(r, c1, w1) := @Connect (literal_stack true true false true (fun _ => true))
                        (NewUDPClient "192.168.1.10" 4988 "192.168.1.100" true) w0 in
  r = Err "set control message failed" /\ 1%nat ∈ open_socks (Close c1 w1).2.
Proof.
  apply (@Connect_leaks_listener (literal_stack true true false true (fun _ => true))
           (NewUDPClient "192.168.1.10" 4988 "192.168.1.100" true) w0 ([192; 168; 1; 10], 4988));
    vm_compute; reflexivity.
Defined.
