(* ===== verification/Process.v ===== *)
(** * Process: the process controller of process.go

    The Windows kernel objects the code touches are explicit state: the
    process table, the thread table with each thread's suspend count, the
    number of open handles, the registry and the executables that
    [CreateProcess] can start.  The kernel calls ([CreateToolhelp32Snapshot],
    [Thread32First]/[Next], [OpenThread], [SuspendThread], [ResumeThread],
    [TerminateThread], [NtSuspendProcess], [CreateProcess], the registry
    calls) are state transformers with the documented results, including
    their failure values; the functions of process.go are written over them
    as the code composes them.

    A snapshot enumerates the table as it is when the snapshot is taken; the
    [First]/[Next] loop of the code is a traversal of that list. *)

From S2P Require Import Prelude Utf16 GoStrings.
From stdpp Require Import gmap.
#[local] Open Scope Z_scope.

(** ** Data *)

Definition MAXIMUM_SUSPEND_COUNT : Z := 127.
Definition INVALID_HANDLE_VALUE : Z := 2 ^ 64 - 1.
(** [SuspendThread]'s [(DWORD)-1], as [Call] returns it. *)
Definition SUSPEND_FAILED : Z := 2 ^ 32 - 1.
Definition STATUS_UNSUCCESSFUL : Z := 0xC0000001.
Definition MAX_PATH : nat := 260.

(** The entries a snapshot yields ([PROCESSENTRY32], [THREADENTRY32]): the
    fields the code reads. *)
Record PROCESSENTRY32 := { ProcessID : Z; ExeFile : list Z }.
Record THREADENTRY32 := { ThreadID : Z; OwnerProcessID : Z }.

(** A thread: its id, owner, suspend count, and whether [OpenThread] and
    [TerminateThread] on it succeed. *)
Record kthread := {
  kt_id : Z; kt_owner : Z; kt_suspend : Z; kt_open_ok : bool; kt_terminate_ok : bool
}.

(** A process: its id, image name ([szExeFile], [MAX_PATH] UTF-16 units),
    and whether [OpenProcess] on it succeeds. *)
Record kprocess := { kp_id : Z; kp_exe : list Z; kp_open_ok : bool }.

Inductive reg_value := RegString (s : string) | RegDword (n : Z).

Record sys := {
  processes : list kprocess;
  threads : list kthread;
  snapshot_ok : bool;          (** [CreateToolhelp32Snapshot] succeeds *)
  nt_ok : bool;                (** [NtSuspendProcess]/[NtResumeProcess] succeed *)
  open_handles : nat;
  registry : gmap string (gmap string reg_value);
  executables : list string;   (** paths [CreateProcess] can start *)
  next_id : Z                  (** the next process or thread id *)
}.

Definition set_threads (s : sys) (ts : list kthread) : sys :=
  {| processes := processes s; threads := ts; snapshot_ok := snapshot_ok s; nt_ok := nt_ok s;
     open_handles := open_handles s; registry := registry s; executables := executables s;
     next_id := next_id s |}.
Definition set_handles (s : sys) (n : nat) : sys :=
  {| processes := processes s; threads := threads s; snapshot_ok := snapshot_ok s; nt_ok := nt_ok s;
     open_handles := n; registry := registry s; executables := executables s;
     next_id := next_id s |}.
Definition set_processes (s : sys) (ps : list kprocess) : sys :=
  {| processes := ps; threads := threads s; snapshot_ok := snapshot_ok s; nt_ok := nt_ok s;
     open_handles := open_handles s; registry := registry s; executables := executables s;
     next_id := next_id s |}.

(** ** The kernel calls *)

Definition open_handle (s : sys) : Z * sys :=
  ((4 * Z.of_nat (S (open_handles s)))%Z, set_handles s (S (open_handles s))).

Definition CloseHandle (h : Z) (s : sys) : sys :=
  if (h =? 0) || (h =? INVALID_HANDLE_VALUE) then s else set_handles s (pred (open_handles s)).

Definition CreateToolhelp32Snapshot (s : sys) : Z * sys :=
  if snapshot_ok s then open_handle s else (INVALID_HANDLE_VALUE, s).

Definition process_entry (p : kprocess) : PROCESSENTRY32 :=
  {| ProcessID := kp_id p; ExeFile := kp_exe p |}.
Definition thread_entry (t : kthread) : THREADENTRY32 :=
  {| ThreadID := kt_id t; OwnerProcessID := kt_owner t |}.
Definition process_entries (s : sys) : list PROCESSENTRY32 := map process_entry (processes s).
Definition thread_entries (s : sys) : list THREADENTRY32 := map thread_entry (threads s).

(** What [First]/[Next] enumerate on a snapshot handle: nothing on the
    invalid handle. *)
Definition snap_list {A} (h : Z) (l : list A) : list A :=
  if h =? INVALID_HANDLE_VALUE then [] else l.

Definition find_thread (tid : Z) (s : sys) : option kthread :=
  List.find (fun t => kt_id t =? tid) (threads s).

Definition update_thread (tid : Z) (f : kthread -> kthread) (s : sys) : sys :=
  set_threads s (map (fun t => if kt_id t =? tid then f t else t) (threads s)).

Definition with_suspend (t : kthread) (n : Z) : kthread :=
  {| kt_id := kt_id t; kt_owner := kt_owner t; kt_suspend := n; kt_open_ok := kt_open_ok t;
     kt_terminate_ok := kt_terminate_ok t |}.

(** [OpenThread]: a handle, or 0. *)
Definition OpenThread (tid : Z) (s : sys) : Z * sys :=
  match find_thread tid s with
  | Some t => if kt_open_ok t then open_handle s else (0, s)
  | None => (0, s)
  end.

(** [SuspendThread]: the previous count, or [(DWORD)-1] when the count is
    already [MAXIMUM_SUSPEND_COUNT]. *)
Definition SuspendThread (tid : Z) (s : sys) : Z * sys :=
  match find_thread tid s with
  | Some t =>
      if kt_suspend t <? MAXIMUM_SUSPEND_COUNT
      then (kt_suspend t, update_thread tid (fun t => with_suspend t (kt_suspend t + 1)) s)
      else (SUSPEND_FAILED, s)
  | None => (SUSPEND_FAILED, s)
  end.

(** [ResumeThread]: the previous count; a suspended thread's count drops
    by one. *)
Definition ResumeThread (tid : Z) (s : sys) : Z * sys :=
  match find_thread tid s with
  | Some t =>
      if 0 <? kt_suspend t
      then (kt_suspend t, update_thread tid (fun t => with_suspend t (kt_suspend t - 1)) s)
      else (0, s)
  | None => (SUSPEND_FAILED, s)
  end.

(** [TerminateThread]: the thread is gone; a process whose last thread
    ends is gone too. *)
Definition TerminateThread (tid : Z) (s : sys) : Z * sys :=
  match find_thread tid s with
  | Some t =>
      if kt_terminate_ok t then
        let ts := List.filter (fun u => negb (kt_id u =? tid)) (threads s) in
        let ps := if List.existsb (fun u => kt_owner u =? kt_owner t) ts then processes s
                  else List.filter (fun p => negb (kp_id p =? kt_owner t)) (processes s) in
        (1, set_processes (set_threads s ts) ps)
      else (0, s)
  | None => (0, s)
  end.

Definition OpenProcess (pid : Z) (s : sys) : Z * sys :=
  match List.find (fun p => kp_id p =? pid) (processes s) with
  | Some p => if kp_open_ok p then open_handle s else (0, s)
  | None => (0, s)
  end.

(** [NtSuspendProcess]/[NtResumeProcess]: every thread of the process
    one count up (down); [STATUS_UNSUCCESSFUL] when the call fails or a
    count is at its limit. *)
Definition suspend_all (pid : Z) (ts : list kthread) : list kthread :=
  map (fun t => if kt_owner t =? pid then with_suspend t (kt_suspend t + 1) else t) ts.
Definition resume_all (pid : Z) (ts : list kthread) : list kthread :=
  map (fun t => if (kt_owner t =? pid) && (0 <? kt_suspend t) then with_suspend t (kt_suspend t - 1)
                else t) ts.

Definition NtSuspendProcess (pid : Z) (s : sys) : Z * sys :=
  if nt_ok s && forallb (fun t => negb (kt_owner t =? pid) || (kt_suspend t <? MAXIMUM_SUSPEND_COUNT))
                        (threads s)
  then (0, set_threads s (suspend_all pid (threads s)))
  else (STATUS_UNSUCCESSFUL, s).

Definition NtResumeProcess (pid : Z) (s : sys) : Z * sys :=
  if nt_ok s then (0, set_threads s (resume_all pid (threads s))) else (STATUS_UNSUCCESSFUL, s).

(** [registry.OpenKey(LOCAL_MACHINE, path, READ)]: the key's values and a
    handle, or an error. *)
Definition RegOpenKey (path : string) (s : sys) : go_ret (gmap string reg_value) * sys :=
  match registry s !! path with
  | Some vals => (Ret vals, (open_handle s).2)
  | None => (Err "The system cannot find the file specified.", s)
  end.

(** [key.GetStringValue(name)] *)
Definition GetStringValue (vals : gmap string reg_value) (name : string) : go_ret string :=
  match vals !! name with
  | Some (RegString v) => Ret v
  | Some (RegDword _) => Err "unexpected key value type"
  | None => Err "The system cannot find the file specified."
  end.

(** [key.Close()] *)
Definition RegCloseKey (s : sys) : sys := set_handles s (pred (open_handles s)).

(** The last element of a path: the image name the kernel records. *)
Definition base_name (path : string) : string := List.last (split_char "\"%char path) EmptyString.

(** [szExeFile]: the name's UTF-16 units, NUL-padded to [MAX_PATH]. *)
Definition exe_units (name : string) : list Z :=
  let us := utf16_encode (decode_runes (go_bytes name)) in us ++ replicate (MAX_PATH - length us) 0.

(** [windows.CreateProcess(app, nil, ...)]: a new process with one running
    thread, and handles to both. *)
Definition CreateProcess (app : option string) (s : sys) : go_ret (Z * Z) * sys :=
  match app with
  | None => (Err "The parameter is incorrect.", s)
  | Some path =>
      if bool_decide (path ∈ executables s) then
        let pid := next_id s in
        let p := {| kp_id := pid; kp_exe := exe_units (base_name path); kp_open_ok := true |} in
        let t := {| kt_id := pid + 1; kt_owner := pid; kt_suspend := 0; kt_open_ok := true;
                    kt_terminate_ok := true |} in
        let s1 := {| processes := processes s ++ [p]; threads := threads s ++ [t];
                     snapshot_ok := snapshot_ok s; nt_ok := nt_ok s;
                     open_handles := open_handles s; registry := registry s;
                     executables := executables s; next_id := pid + 2 |} in
        let (hThread, s2) := open_handle s1 in
        let (hProcess, s3) := open_handle s2 in
        (Ret (hThread, hProcess), s3)
      else (Err "The system cannot find the file specified.", s)
  end.

(** ** process.go *)

(** [syscall.UTF16ToString]: the units before the first NUL, decoded.  The
    code compares the result with a string literal; Go strings are equal
    exactly when the runes they encode are, so the model compares runes. *)
Fixpoint until_nul (us : list Z) : list Z :=
  match us with
  | [] => []
  | u :: t => if u =? 0 then [] else u :: until_nul t
  end.
Definition UTF16ToString (us : list Z) : list Z := utf16_decode (until_nul us).

Definition is_student_main (exe : list Z) : bool :=
  bool_decide (UTF16ToString exe = decode_runes (go_bytes "StudentMain.exe")).

(** The loop of [FindMythwareProcess] over the snapshot's entries. *)
Fixpoint find_loop (entries : list PROCESSENTRY32) : Z :=
  match entries with
  | [] => 0
  | e :: rest => if is_student_main (ExeFile e) then ProcessID e else find_loop rest
  end.

Definition FindMythwareProcess (s : sys) : Z * sys :=
  let (snapshot, s) := CreateToolhelp32Snapshot s in
  if snapshot =? 0 then (0, s) else
  match snap_list snapshot (process_entries s) with
  | [] => (0, CloseHandle snapshot s)
  | entries => (find_loop entries, CloseHandle snapshot s)
  end.

(** The loop of [GetProcessState]: suspend and resume each thread of
    [pid] to read its previous suspend count. *)
Fixpoint state_loop (pid : Z) (entries : list THREADENTRY32) (running suspended : bool) (s : sys)
    : bool * bool * sys :=
  match entries with
  | [] => (running, suspended, s)
  | e :: rest =>
      if OwnerProcessID e =? pid then
        let (hThread, s) := OpenThread (ThreadID e) s in
        if negb (hThread =? 0) then
          let (previousSuspendCount, s) := SuspendThread (ThreadID e) s in
          let '(running, suspended) := if previousSuspendCount =? 0 then (true, suspended)
                                       else (running, true) in
          let s := (ResumeThread (ThreadID e) s).2 in
          state_loop pid rest running suspended (CloseHandle hThread s)
        else state_loop pid rest running suspended s
      else state_loop pid rest running suspended s
  end.

Definition GetProcessState (pid : Z) (s : sys) : Z * sys :=
  let (snapshot, s) := CreateToolhelp32Snapshot s in
  if snapshot =? 0 then (-1, s) else
  match snap_list snapshot (thread_entries s) with
  | [] => (-1, CloseHandle snapshot s)
  | entries =>
      let '(hasRunningThread, hasSuspendedThread, s) := state_loop pid entries false false s in
      (if hasRunningThread then 0 else if hasSuspendedThread then 1 else -1, CloseHandle snapshot s)
  end.

Definition GetMythwareProcessState (s : sys) : (Z * Z) * sys :=
  let (pid, s) := FindMythwareProcess s in
  if pid =? 0 then ((0, -1), s) else
  let (state, s) := GetProcessState pid s in ((pid, state), s).

Definition IsMythwareRunning (s : sys) : bool * sys :=
  let '((pid, state), s) := GetMythwareProcessState s in (negb (pid =? 0) && (state =? 0), s).

Definition IsMythwareSuspended (s : sys) : bool * sys :=
  let '((_, state), s) := GetMythwareProcessState s in (state =? 1, s).

(** The loop of [KillProcessByThreads]. *)
Fixpoint kill_loop (pid : Z) (entries : list THREADENTRY32) (success : bool) (s : sys) : bool * sys :=
  match entries with
  | [] => (success, s)
  | e :: rest =>
      if OwnerProcessID e =? pid then
        let (hThread, s) := OpenThread (ThreadID e) s in
        if negb (hThread =? 0) then
          let (ret, s) := TerminateThread (ThreadID e) s in
          kill_loop pid rest (if negb (ret =? 0) then true else success) (CloseHandle hThread s)
        else kill_loop pid rest success s
      else kill_loop pid rest success s
  end.

Definition KillProcessByThreads (pid : Z) (s : sys) : bool * sys :=
  let (snapshot, s) := CreateToolhelp32Snapshot s in
  if snapshot =? 0 then (false, s) else
  match snap_list snapshot (thread_entries s) with
  | [] => (false, CloseHandle snapshot s)
  | entries => let (success, s) := kill_loop pid entries false s in (success, CloseHandle snapshot s)
  end.

Definition KillMythwareProcess (s : sys) : bool * sys :=
  let (pid, s) := FindMythwareProcess s in
  if pid =? 0 then (false, s) else KillProcessByThreads pid s.

(** [SuspendMythwareProcess] and [ResumeMythwareProcess] differ only in
    the [ntdll] call. *)
Definition nt_process_call (call : Z -> sys -> Z * sys) (s : sys) : bool * sys :=
  let (pid, s) := FindMythwareProcess s in
  if pid =? 0 then (false, s) else
  let (hProcess, s) := OpenProcess pid s in
  if hProcess =? 0 then (false, s) else
  let (ret, s) := call pid s in (ret =? 0, CloseHandle hProcess s).

Definition SuspendMythwareProcess (s : sys) : bool * sys := nt_process_call NtSuspendProcess s.
Definition ResumeMythwareProcess (s : sys) : bool * sys := nt_process_call NtResumeProcess s.

Definition key_wow64 : string := "SOFTWARE\WOW6432Node\TopDomain\e-Learning Class Standard\1.00".
Definition key_native : string := "SOFTWARE\TopDomain\e-Learning Class Standard\1.00".

Definition GetMythwareInstallPath (s : sys) : go_ret string * sys :=
  let '(key, s) := match RegOpenKey key_wow64 s with
                   | (Ret k, s) => (Ret k, s)
                   | (_, s) => RegOpenKey key_native s
                   end in
  match key with
  | Ret vals => (GetStringValue vals "TargetDirectory", RegCloseKey s)
  | Err e => (Err e, s)
  | Panic e => (Panic e, s)
  end.

(** [syscall.UTF16PtrFromString]: a nil pointer when the string holds a
    NUL byte (the error is discarded by the code). *)
Definition UTF16PtrFromString (p : string) : option string :=
  if contains_char (Ascii.ascii_of_nat 0) p then None else Some p.

Definition StartMythwareProcess (s : sys) : bool * sys :=
  match GetMythwareInstallPath s with
  | (Ret path, s) =>
      let exePath := String.append path "\StudentMain.exe" in
      match CreateProcess (UTF16PtrFromString exePath) s with
      | (Ret (hThread, hProcess), s) => (true, CloseHandle hProcess (CloseHandle hThread s))
      | (_, s) => (false, s)
      end
  | (_, s) => (false, s)
  end.

(** ** What the code computes *)

(** The verdict of [GetProcessState] on a thread table: running when some
    thread of [pid] that can be opened has suspend count 0, suspended when
    there are such threads but none has count 0, -1 otherwise. *)
Definition owned_open (pid : Z) (t : kthread) : bool := (kt_owner t =? pid) && kt_open_ok t.
Definition classify (pid : Z) (ts : list kthread) : Z :=
  if existsb (fun t => owned_open pid t && (kt_suspend t =? 0)) ts then 0
  else if existsb (owned_open pid) ts then 1 else -1.

(** A [SuspendThread] followed by a [ResumeThread] on one count. *)
Definition suspend_count (c : Z) : Z := if c <? MAXIMUM_SUSPEND_COUNT then c + 1 else c.
Definition resume_count (c : Z) : Z := if 0 <? c then c - 1 else c.
Definition probe (pid : Z) (t : kthread) : kthread :=
  if owned_open pid t then with_suspend t (resume_count (suspend_count (kt_suspend t))) else t.

(** The threads [KillProcessByThreads] ends, and the process table once
    the threads [ts] are left: a process without threads is gone. *)
Definition killable (pid : Z) (t : kthread) : bool := owned_open pid t && kt_terminate_ok t.
Definition reap (pid : Z) (ts : list kthread) (ps : list kprocess) : list kprocess :=
  if existsb (fun u => kt_owner u =? pid) ts then ps else List.filter (fun p => negb (kp_id p =? pid)) ps.

(** ** Handles and records *)

Lemma open_handles_set_handles s n : open_handles (set_handles s n) = n.
Proof. reflexivity. Qed.
Lemma threads_set_handles s n : threads (set_handles s n) = threads s.
Proof. reflexivity. Qed.
Lemma processes_set_handles s n : processes (set_handles s n) = processes s.
Proof. reflexivity. Qed.
Lemma snapshot_ok_set_handles s n : snapshot_ok (set_handles s n) = snapshot_ok s.
Proof. reflexivity. Qed.

Lemma nt_ok_set_handles s n : nt_ok (set_handles s n) = nt_ok s.
Proof. reflexivity. Qed.

Lemma set_handles_same s : set_handles s (open_handles s) = s.
Proof. destruct s; reflexivity. Qed.
Lemma set_handles_twice s n m : set_handles (set_handles s n) m = set_handles s m.
Proof. destruct s; reflexivity. Qed.
Lemma set_threads_handles s ts n : set_threads (set_handles s n) ts = set_handles (set_threads s ts) n.
Proof. destruct s; reflexivity. Qed.
Lemma set_threads_twice s ts us : set_threads (set_threads s ts) us = set_threads s us.
Proof. destruct s; reflexivity. Qed.
Lemma set_threads_same s : set_threads s (threads s) = s.
Proof. destruct s; reflexivity. Qed.

Lemma handle_nonzero n : (4 * Z.of_nat (S n) =? 0) = false.
Proof. apply Z.eqb_neq. lia. Qed.
Lemma handle_valid n : (4 * Z.of_nat (S n) =? INVALID_HANDLE_VALUE) = false.
Proof. apply Z.eqb_neq. unfold INVALID_HANDLE_VALUE. lia. Qed.

Lemma CloseHandle_handle n s :
  CloseHandle (4 * Z.of_nat (S n)) s = set_handles s (pred (open_handles s)).
Proof. unfold CloseHandle. rewrite handle_nonzero, handle_valid. reflexivity. Qed.

Lemma CloseHandle_invalid s : CloseHandle INVALID_HANDLE_VALUE s = s.
Proof. reflexivity. Qed.

Lemma snap_list_handle {A} n (l : list A) : snap_list (4 * Z.of_nat (S n)) l = l.
Proof. unfold snap_list. rewrite handle_valid. reflexivity. Qed.

Create Rewrite HintDb process_rw.
#[export] Hint Rewrite set_handles_same set_handles_twice set_threads_handles set_threads_twice
  handle_nonzero handle_valid CloseHandle_handle @snap_list_handle open_handles_set_handles
  threads_set_handles processes_set_handles snapshot_ok_set_handles nt_ok_set_handles : process_rw.

(** ** Threads with distinct ids *)

Definition tids (ts : list kthread) : list Z := map kt_id ts.

Lemma update_unique pre t post (f : kthread -> kthread) :
  NoDup (tids (pre ++ t :: post)) ->
  map (fun u => if kt_id u =? kt_id t then f u else u) (pre ++ t :: post) = pre ++ f t :: post.
Proof.
  intros Hnd. unfold tids in Hnd. rewrite map_app in Hnd. cbn in Hnd.
  apply NoDup_app in Hnd as (_ & Hdis & Hpost). apply NoDup_cons in Hpost as [Hnot _].
  rewrite map_app. cbn [map]. rewrite Z.eqb_refl. f_equal; [|f_equal];
    (erewrite map_ext_in; [apply map_id|]); intros u Hu; cbn beta;
    destruct (Z.eqb_spec (kt_id u) (kt_id t)) as [E|E]; try reflexivity; exfalso.
  - apply (Hdis (kt_id t)); [rewrite <- E; apply list_elem_of_In, in_map, Hu | left].
  - apply Hnot. rewrite <- E. apply list_elem_of_In, in_map, Hu.
Qed.

Lemma find_unique pre t post :
  NoDup (tids (pre ++ t :: post)) ->
  List.find (fun u => kt_id u =? kt_id t) (pre ++ t :: post) = Some t.
Proof.
  intros Hnd. unfold tids in Hnd. rewrite map_app in Hnd. apply NoDup_app in Hnd as (_ & Hdis & _).
  induction pre as [|u pre IH]; cbn; [rewrite Z.eqb_refl; reflexivity|].
  destruct (Z.eqb_spec (kt_id u) (kt_id t)) as [E|E].
  - exfalso. apply (Hdis (kt_id t)); [rewrite <- E; left|cbn; left].
  - apply IH. intros x Hx. apply Hdis. right. exact Hx.
Qed.

Lemma tids_with_suspend pre t post c :
  tids (pre ++ with_suspend t c :: post) = tids (pre ++ t :: post).
Proof. unfold tids. rewrite !map_app. reflexivity. Qed.

Lemma with_suspend_twice t a b : with_suspend (with_suspend t a) b = with_suspend t b.
Proof. reflexivity. Qed.
Lemma with_suspend_same t : with_suspend t (kt_suspend t) = t.
Proof. destruct t; reflexivity. Qed.

(** A thread of the table, with the ones before and after it. *)
Section Focus.
Context (s : sys) (pre : list kthread) (t : kthread) (post : list kthread).
Hypothesis Hts : threads s = pre ++ t :: post.
Hypothesis Hnd : NoDup (tids (pre ++ t :: post)).

Lemma find_thread_focus : find_thread (kt_id t) s = Some t.
Proof. unfold find_thread. rewrite Hts. by apply find_unique. Qed.

Lemma update_thread_focus f : update_thread (kt_id t) f s = set_threads s (pre ++ f t :: post).
Proof. unfold update_thread. rewrite Hts, update_unique by exact Hnd. reflexivity. Qed.

Lemma OpenThread_focus :
  OpenThread (kt_id t) s = if kt_open_ok t then open_handle s else (0, s).
Proof. unfold OpenThread. rewrite find_thread_focus. reflexivity. Qed.

Lemma SuspendThread_focus :
  SuspendThread (kt_id t) s =
    (if kt_suspend t <? MAXIMUM_SUSPEND_COUNT then kt_suspend t else SUSPEND_FAILED,
     set_threads s (pre ++ with_suspend t (suspend_count (kt_suspend t)) :: post)).
Proof.
  unfold SuspendThread, suspend_count. rewrite find_thread_focus.
  destruct (kt_suspend t <? MAXIMUM_SUSPEND_COUNT); [by rewrite update_thread_focus|].
  rewrite with_suspend_same, <- Hts, set_threads_same. reflexivity.
Qed.

Lemma ResumeThread_focus :
  (ResumeThread (kt_id t) s).2 = set_threads s (pre ++ with_suspend t (resume_count (kt_suspend t)) :: post).
Proof.
  unfold ResumeThread, resume_count. rewrite find_thread_focus.
  destruct (0 <? kt_suspend t); [by rewrite update_thread_focus|].
  rewrite with_suspend_same, <- Hts, set_threads_same. reflexivity.
Qed.

Lemma other_tid u : In u pre \/ In u post -> kt_id u <> kt_id t.
Proof.
  unfold tids in Hnd. rewrite map_app in Hnd. cbn in Hnd.
  apply NoDup_app in Hnd as (_ & Hdis & Hpost). apply NoDup_cons in Hpost as [Hnot _].
  intros [Hu|Hu] E.
  - apply (Hdis (kt_id t)); [rewrite <- E; apply list_elem_of_In, in_map, Hu | left].
  - apply Hnot. rewrite <- E. apply list_elem_of_In, in_map, Hu.
Qed.

Lemma TerminateThread_focus :
  TerminateThread (kt_id t) s =
    if kt_terminate_ok t
    then (1, set_processes (set_threads s (pre ++ post)) (reap (kt_owner t) (pre ++ post) (processes s)))
    else (0, s).
Proof.
  unfold TerminateThread. rewrite find_thread_focus. destruct (kt_terminate_ok t); [|reflexivity].
  replace (List.filter _ (threads s)) with (pre ++ post); [reflexivity|].
  rewrite Hts, List.filter_app. cbn [List.filter]. rewrite Z.eqb_refl. cbn [negb].
  rewrite !filter_all_true; [reflexivity| |];
    intros u Hu; apply negb_true_iff, Z.eqb_neq, other_tid; auto.
Qed.

End Focus.

(** One suspend/resume probe of an opened thread: what [SuspendThread]
    reports and the table it leaves, once the handle is closed. *)
Lemma probe_step s pre t post :
  threads s = pre ++ t :: post -> NoDup (tids (pre ++ t :: post)) ->
  let '(prev, s1) := SuspendThread (kt_id t) (set_handles s (S (open_handles s))) in
  prev = (if kt_suspend t <? MAXIMUM_SUSPEND_COUNT then kt_suspend t else SUSPEND_FAILED) /\
  CloseHandle (4 * Z.of_nat (S (open_handles s))) (ResumeThread (kt_id t) s1).2 =
    set_threads s (pre ++ with_suspend t (resume_count (suspend_count (kt_suspend t))) :: post).
Proof.
  intros Hts Hnd.
  rewrite (SuspendThread_focus (set_handles s (S (open_handles s))) pre t post Hts Hnd).
  split; [reflexivity|].
  set (t1 := with_suspend t (suspend_count (kt_suspend t))).
  change (kt_id t) with (kt_id t1).
  rewrite (ResumeThread_focus _ pre t1 post) by (reflexivity || (unfold t1; rewrite tids_with_suspend; exact Hnd)).
  autorewrite with process_rw.
  reflexivity.
Qed.

Lemma prev_zero c :
  ((if c <? MAXIMUM_SUSPEND_COUNT then c else SUSPEND_FAILED) =? 0) = (c =? 0).
Proof.
  unfold MAXIMUM_SUSPEND_COUNT, SUSPEND_FAILED.
  destruct (Z.ltb_spec c 127); [reflexivity|]. rewrite !(proj2 (Z.eqb_neq _ _)) by lia. reflexivity.
Qed.

Lemma probe_owned pid t :
  owned_open pid t = true -> probe pid t = with_suspend t (resume_count (suspend_count (kt_suspend t))).
Proof. unfold probe. intros ->. reflexivity. Qed.

Lemma probe_not_owned pid t : owned_open pid t = false -> probe pid t = t.
Proof. unfold probe. intros ->. reflexivity. Qed.

Lemma state_loop_spec pid l pre run susp s :
  threads s = pre ++ l -> NoDup (tids (pre ++ l)) ->
  state_loop pid (map thread_entry l) run susp s =
    (run || existsb (fun t => owned_open pid t && (kt_suspend t =? 0)) l,
     susp || existsb (fun t => owned_open pid t && negb (kt_suspend t =? 0)) l,
     set_threads s (pre ++ map (probe pid) l)).
Proof.
  revert pre run susp s. induction l as [|t l IH]; intros pre run susp s Hts Hnd.
  { cbn. rewrite !orb_false_r, ?app_nil_r. rewrite app_nil_r in Hts.
    rewrite <- Hts, set_threads_same. reflexivity. }
  assert (Hts' : threads s = (pre ++ [t]) ++ l) by (rewrite <- app_assoc; exact Hts).
  cbn [map state_loop thread_entry OwnerProcessID ThreadID existsb].
  rewrite (OpenThread_focus s pre t l Hts Hnd).
  destruct (owned_open pid t) eqn:Eo.
  - unfold owned_open in Eo. apply andb_true_iff in Eo as [Eown Eo]. rewrite Eown, Eo.
    unfold open_handle. cbn [fst snd]. rewrite handle_nonzero. cbn [negb].
    pose proof (probe_step s pre t l Hts Hnd) as Hp.
    destruct (SuspendThread _ _) as [prev s1]. destruct Hp as [-> ->].
    rewrite prev_zero, probe_owned by (unfold owned_open; rewrite Eown, Eo; reflexivity).
    destruct (kt_suspend t =? 0); cbv beta iota;
      (rewrite (IH (pre ++ [with_suspend t (resume_count (suspend_count (kt_suspend t)))]));
       [| rewrite <- app_assoc; reflexivity
        | rewrite <- app_assoc; cbn [app]; rewrite tids_with_suspend; exact Hnd]);
      rewrite set_threads_twice, <- app_assoc; destruct run, susp; reflexivity.
  - assert (Hskip : state_loop pid (map thread_entry l) run susp s =
      (run || existsb (fun t => owned_open pid t && (kt_suspend t =? 0)) l,
       susp || existsb (fun t => owned_open pid t && negb (kt_suspend t =? 0)) l,
       set_threads s (pre ++ t :: map (probe pid) l))).
    { rewrite (IH (pre ++ [t]) run susp s Hts') by (rewrite <- app_assoc; exact Hnd).
      rewrite <- app_assoc. reflexivity. }
    rewrite (probe_not_owned pid t Eo). cbn [andb orb].
    unfold owned_open in Eo. destruct (kt_owner t =? pid); [|exact Hskip].
    cbn in Eo. rewrite Eo. exact Hskip.
Qed.

Lemma existsb_split {A} (f g : A -> bool) l :
  existsb (fun x => f x && g x) l = false ->
  existsb (fun x => f x && negb (g x)) l = existsb f l.
Proof.
  induction l as [|x l IH]; cbn; [reflexivity|].
  rewrite orb_false_iff. intros [Hx Hl]. rewrite IH by exact Hl.
  destruct (f x), (g x); try discriminate; reflexivity.
Qed.

Lemma snapshot_fails s : snapshot_ok s = false -> CreateToolhelp32Snapshot s = (INVALID_HANDLE_VALUE, s).
Proof. unfold CreateToolhelp32Snapshot. intros ->. reflexivity. Qed.

Lemma snapshot_opens s :
  snapshot_ok s = true ->
  CreateToolhelp32Snapshot s = (4 * Z.of_nat (S (open_handles s)), set_handles s (S (open_handles s))).
Proof. unfold CreateToolhelp32Snapshot. intros ->. reflexivity. Qed.

(** [GetProcessState] returns the verdict of [classify] on the thread
    table, and leaves every probed thread with the count a suspend and a
    resume give it; the snapshot handle is closed. *)
Lemma GetProcessState_eq pid s :
  NoDup (tids (threads s)) ->
  GetProcessState pid s =
    if snapshot_ok s then (classify pid (threads s), set_threads s (map (probe pid) (threads s)))
    else (-1, s).
Proof.
  intros Hnd. unfold GetProcessState. destruct (snapshot_ok s) eqn:E; [|rewrite snapshot_fails by exact E; reflexivity].
  rewrite snapshot_opens by exact E. rewrite handle_nonzero. unfold thread_entries.
  cbn [threads set_handles]. rewrite snap_list_handle.
  destruct (threads s) as [|t l] eqn:Ets.
  { cbn. autorewrite with process_rw. rewrite <- Ets, set_threads_same. reflexivity. }
  pose proof (state_loop_spec pid (t :: l) [] false false (set_handles s (S (open_handles s)))
                ltac:(cbn; assumption) ltac:(cbn; assumption)) as Hl.
  cbn [map] in Hl |- *. rewrite Hl.
  unfold classify. cbn [orb app]. autorewrite with process_rw. cbn [open_handles set_handles set_threads].
  destruct (existsb _ (t :: l)) eqn:E0; [reflexivity|]. rewrite existsb_split by exact E0. reflexivity.
Qed.

Lemma probe_count_below c : 0 <= c < MAXIMUM_SUSPEND_COUNT -> resume_count (suspend_count c) = c.
Proof.
  unfold resume_count, suspend_count. intros Hc.
  rewrite (proj2 (Z.ltb_lt c MAXIMUM_SUSPEND_COUNT)) by lia.
  rewrite (proj2 (Z.ltb_lt 0 (c + 1))) by lia. lia.
Qed.

Lemma probe_count_max : resume_count (suspend_count MAXIMUM_SUSPEND_COUNT) = MAXIMUM_SUSPEND_COUNT - 1.
Proof. reflexivity. Qed.

(** The threads [GetProcessState] probes are those of [pid] it can open;
    a probe leaves a count below the limit as it was. *)
Definition probe_safe (pid : Z) (t : kthread) : Prop :=
  owned_open pid t = true -> 0 <= kt_suspend t < MAXIMUM_SUSPEND_COUNT.

Lemma map_probe_id pid ts : Forall (probe_safe pid) ts -> map (probe pid) ts = ts.
Proof.
  intros Hall. rewrite <- (map_id ts) at 2. apply map_ext_in. intros t Ht.
  rewrite List.Forall_forall in Hall. specialize (Hall t Ht). unfold probe_safe in Hall.
  unfold probe. destruct (owned_open pid t); [|reflexivity].
  rewrite probe_count_below by auto. apply with_suspend_same.
Qed.

Lemma tids_map_probe pid ts : tids (map (probe pid) ts) = tids ts.
Proof. unfold tids. rewrite map_map. apply map_ext. intros u. unfold probe. by destruct (owned_open pid u). Qed.

(** C5: [GetProcessState] classifies [pid] as the spec says (0 running,
    1 suspended, -1 unknown, computed by [classify] on the thread table)
    and, when every thread it probes has a suspend count below
    [MAXIMUM_SUSPEND_COUNT], returns the system exactly as it found it:
    thread counts and open handles included. *)
Theorem GetProcessState_pure pid s :
  NoDup (tids (threads s)) -> snapshot_ok s = true -> Forall (probe_safe pid) (threads s) ->
  GetProcessState pid s = (classify pid (threads s), s).
Proof.
  intros Hnd Hok Hall. rewrite GetProcessState_eq, Hok, map_probe_id, set_threads_same by assumption.
  reflexivity.
Qed.

(** C6: a thread of [pid] whose suspend count is already
    [MAXIMUM_SUSPEND_COUNT] makes [SuspendThread] fail with [(DWORD)-1];
    the code counts it as suspended and still calls [ResumeThread], so
    the thread is left with one count less than before: the probe is not
    the non-destructive read the spec describes. *)
Theorem GetProcessState_max_count pid s pre t post :
  threads s = pre ++ t :: post -> NoDup (tids (threads s)) -> snapshot_ok s = true ->
  kt_owner t = pid -> kt_open_ok t = true -> kt_suspend t = MAXIMUM_SUSPEND_COUNT ->
  find_thread (kt_id t) (GetProcessState pid s).2 = Some (with_suspend t (MAXIMUM_SUSPEND_COUNT - 1)) /\
  (GetProcessState pid s).1 <> -1.
Proof.
  intros Hts Hnd Hok Ho Hopen Hc. rewrite GetProcessState_eq, Hok by exact Hnd. cbn [fst snd].
  assert (Hown : owned_open pid t = true) by (unfold owned_open; rewrite Ho, Z.eqb_refl, Hopen; reflexivity).
  split.
  - assert (Hnd' : NoDup (tids (map (probe pid) (threads s)))) by (rewrite tids_map_probe; exact Hnd).
    unfold find_thread. cbn [threads set_threads]. rewrite Hts, map_app in *. cbn [map] in *.
    rewrite probe_owned, Hc, probe_count_max in * by exact Hown.
    change (kt_id t) with (kt_id (with_suspend t (MAXIMUM_SUSPEND_COUNT - 1))). by apply find_unique.
  - assert (E : existsb (owned_open pid) (threads s) = true).
    { apply existsb_exists. exists t. rewrite Hts. split; [apply in_or_app; right; left|]; auto. }
    unfold classify. rewrite E. case_match; lia.
Qed.

(** ** Finding the process *)

Lemma FindMythwareProcess_eq s :
  FindMythwareProcess s = (if snapshot_ok s then find_loop (process_entries s) else 0, s).
Proof.
  unfold FindMythwareProcess. destruct (snapshot_ok s) eqn:E; [|rewrite snapshot_fails by exact E; reflexivity].
  rewrite snapshot_opens by exact E. unfold process_entries. autorewrite with process_rw. cbn [pred].
  rewrite ?set_handles_same. by destruct (map process_entry (processes s)).
Qed.

(** ** Suspending and resuming the whole process *)

Definition process_openable (pid : Z) (s : sys) : bool :=
  match List.find (fun p => kp_id p =? pid) (processes s) with
  | Some p => kp_open_ok p
  | None => false
  end.

Lemma OpenProcess_eq pid s :
  OpenProcess pid s = if process_openable pid s then open_handle s else (0, s).
Proof. unfold OpenProcess, process_openable. by destruct (List.find _ _) as [[]|]. Qed.

(** The frame both [SuspendMythwareProcess] and [ResumeMythwareProcess]
    share, for a call that only changes the thread table. *)
Lemma nt_process_call_eq (call : Z -> sys -> Z * sys) s pid r ts :
  snapshot_ok s = true -> find_loop (process_entries s) = pid -> pid <> 0 ->
  process_openable pid s = true ->
  (forall n, call pid (set_handles s n) = (r, set_handles (set_threads s ts) n)) ->
  nt_process_call call s = (r =? 0, set_threads s ts).
Proof.
  intros Hok Hf Hp Ho Hc. unfold nt_process_call. rewrite FindMythwareProcess_eq, Hok, Hf.
  rewrite (proj2 (Z.eqb_neq _ _) Hp), OpenProcess_eq, Ho. unfold open_handle. cbn [fst snd].
  rewrite handle_nonzero, Hc. autorewrite with process_rw. cbn [pred].
  reflexivity.
Qed.

Lemma suspend_all_ok pid s n :
  nt_ok s = true -> Forall (fun t => kt_owner t = pid -> kt_suspend t < MAXIMUM_SUSPEND_COUNT) (threads s) ->
  NtSuspendProcess pid (set_handles s n) = (0, set_handles (set_threads s (suspend_all pid (threads s))) n).
Proof.
  intros Hnt Hall. unfold NtSuspendProcess. autorewrite with process_rw. rewrite Hnt.
  replace (forallb _ _) with true; [reflexivity|].
  symmetry. apply forallb_forall. intros t Ht. rewrite List.Forall_forall in Hall.
  destruct (Z.eqb_spec (kt_owner t) pid); [|reflexivity]. cbn. apply Z.ltb_lt. auto.
Qed.

Lemma resume_all_ok pid s n :
  nt_ok s = true ->
  NtResumeProcess pid (set_handles s n) = (0, set_handles (set_threads s (resume_all pid (threads s))) n).
Proof.
  intros Hnt. unfold NtResumeProcess. autorewrite with process_rw. rewrite Hnt. reflexivity.
Qed.

Lemma resume_suspend_all pid ts :
  Forall (fun t => 0 <= kt_suspend t) ts -> resume_all pid (suspend_all pid ts) = ts.
Proof.
  unfold resume_all, suspend_all. rewrite map_map. intros Hall. rewrite <- (map_id ts) at 2.
  apply map_ext_in. intros t Ht. rewrite List.Forall_forall in Hall. specialize (Hall t Ht).
  destruct (Z.eqb_spec (kt_owner t) pid) as [E|E]; cbn; [|rewrite (proj2 (Z.eqb_neq _ _) E); reflexivity].
  rewrite (proj2 (Z.eqb_eq _ _) E), (proj2 (Z.ltb_lt 0 _)) by lia. cbn [andb].
  rewrite with_suspend_twice, Z.add_simpl_r. apply with_suspend_same.
Qed.

Lemma tids_suspend_all pid ts : tids (suspend_all pid ts) = tids ts.
Proof. unfold tids, suspend_all. rewrite map_map. apply map_ext. intros t. by destruct (kt_owner t =? pid). Qed.

Lemma classify_suspend_all pid ts :
  Forall (fun t => 0 <= kt_suspend t) ts -> existsb (owned_open pid) ts = true ->
  classify pid (suspend_all pid ts) = 1.
Proof.
  intros Hall Hex. unfold classify, suspend_all. rewrite !existsb_map.
  replace (existsb _ ts) with false.
  - erewrite existsb_ext; [rewrite Hex; reflexivity|]. intros t. unfold owned_open.
    destruct (kt_owner t =? pid) eqn:E; cbn; rewrite ?E; reflexivity.
  - symmetry. apply not_true_iff_false. rewrite existsb_exists. intros (t & Ht & H).
    rewrite List.Forall_forall in Hall. specialize (Hall t Ht). unfold owned_open in H.
    destruct (kt_owner t =? pid) eqn:E; cbn in H; rewrite ?E in H; cbn in H; [|discriminate].
    apply andb_true_iff in H as [_ H]. apply Z.eqb_eq in H. lia.
Qed.

Section WholeProcess.
Context (s : sys) (pid : Z).
Hypothesis Hok : snapshot_ok s = true.
Hypothesis Hfind : find_loop (process_entries s) = pid.
Hypothesis Hpid : pid <> 0.
Hypothesis Hopen : process_openable pid s = true.
Hypothesis Hnt : nt_ok s = true.
Hypothesis Hcounts :
  Forall (fun t => 0 <= kt_suspend t /\ (kt_owner t = pid -> kt_suspend t < MAXIMUM_SUSPEND_COUNT)) (threads s).

Lemma counts_nonneg : Forall (fun t => 0 <= kt_suspend t) (threads s).
Proof. eapply Forall_impl; [exact Hcounts|]. intros t [H _]. exact H. Qed.

Lemma SuspendMythwareProcess_eq :
  SuspendMythwareProcess s = (true, set_threads s (suspend_all pid (threads s))).
Proof.
  unfold SuspendMythwareProcess. apply (nt_process_call_eq _ _ pid 0); try assumption.
  intros n. apply suspend_all_ok; [exact Hnt|].
  eapply Forall_impl; [exact Hcounts|]. intros t [_ H]. exact H.
Qed.

(** C11: when the process is found and can be opened and every count of
    its threads is below the limit, [SuspendMythwareProcess] succeeds and
    [ResumeMythwareProcess] right after it succeeds and gives back the
    system exactly as it was. *)
Theorem Suspend_Resume_roundtrip :
  SuspendMythwareProcess s = (true, set_threads s (suspend_all pid (threads s))) /\
  ResumeMythwareProcess (SuspendMythwareProcess s).2 = (true, s).
Proof.
  rewrite SuspendMythwareProcess_eq. split; [reflexivity|]. cbn [snd].
  unfold ResumeMythwareProcess.
  rewrite (nt_process_call_eq _ _ pid 0 (resume_all pid (suspend_all pid (threads s)))); try assumption.
  - by rewrite resume_suspend_all, set_threads_twice, set_threads_same by exact counts_nonneg.
  - intros n. rewrite resume_all_ok by exact Hnt. reflexivity.
Qed.

(** after [SuspendMythwareProcess] succeeds on a process with at
    least one thread the code can open, [IsMythwareSuspended] reports it
    suspended. *)
Theorem Suspend_then_suspended :
  NoDup (tids (threads s)) -> existsb (owned_open pid) (threads s) = true ->
  (SuspendMythwareProcess s).1 = true /\
  (IsMythwareSuspended (SuspendMythwareProcess s).2).1 = true.
Proof.
  intros Hnd Hex. rewrite SuspendMythwareProcess_eq. split; [reflexivity|]. cbn [fst snd].
  unfold IsMythwareSuspended, GetMythwareProcessState. rewrite FindMythwareProcess_eq.
  cbn [snapshot_ok set_threads processes]. rewrite Hok.
  replace (find_loop _) with pid by (symmetry; exact Hfind).
  rewrite (proj2 (Z.eqb_neq _ _) Hpid), GetProcessState_eq by (cbn; rewrite tids_suspend_all; exact Hnd).
  cbn [snapshot_ok set_threads threads]. rewrite Hok, classify_suspend_all by (exact counts_nonneg || exact Hex).
  reflexivity.
Qed.

End WholeProcess.

(** ** Terminating the process *)

Lemma set_processes_threads s ps ts :
  set_threads (set_processes s ps) ts = set_processes (set_threads s ts) ps.
Proof. destruct s; reflexivity. Qed.
Lemma set_processes_twice s ps qs : set_processes (set_processes s ps) qs = set_processes s qs.
Proof. destruct s; reflexivity. Qed.
Lemma set_processes_handles s ps n :
  set_handles (set_processes s ps) n = set_processes (set_handles s n) ps.
Proof. destruct s; reflexivity. Qed.
Lemma set_processes_same s : set_processes s (processes s) = s.
Proof. destruct s; reflexivity. Qed.

#[export] Hint Rewrite set_processes_threads set_processes_twice set_processes_handles : process_rw.

Lemma reap_twice pid F T P :
  (existsb (fun u => kt_owner u =? pid) F = true -> existsb (fun u => kt_owner u =? pid) T = true) ->
  reap pid F (reap pid T P) = reap pid F P.
Proof.
  unfold reap. intros H. destruct (existsb _ F); [rewrite H; reflexivity|].
  destruct (existsb _ T); [reflexivity|]. apply filter_twice.
Qed.

Lemma kill_loop_spec pid l pre success s :
  threads s = pre ++ l -> NoDup (tids (pre ++ l)) ->
  let rest := pre ++ List.filter (fun t => negb (killable pid t)) l in
  kill_loop pid (map thread_entry l) success s =
    (success || existsb (killable pid) l,
     set_processes (set_threads s rest)
       (if existsb (killable pid) l then reap pid rest (processes s) else processes s)).
Proof.
  revert pre success s. induction l as [|t l IH]; intros pre success s Hts Hnd rest; subst rest.
  { cbn. rewrite orb_false_r, ?app_nil_r. rewrite app_nil_r in Hts.
    rewrite <- Hts, set_threads_same, set_processes_same. reflexivity. }
  assert (Hts' : threads s = (pre ++ [t]) ++ l) by (rewrite <- app_assoc; exact Hts).
  assert (Hnd' : NoDup (tids ((pre ++ [t]) ++ l))) by (rewrite <- app_assoc; exact Hnd).
  assert (Hskip : killable pid t = false ->
    kill_loop pid (map thread_entry l) success s =
    (success || existsb (killable pid) (t :: l),
     set_processes (set_threads s (pre ++ List.filter (fun t => negb (killable pid t)) (t :: l)))
       (if existsb (killable pid) (t :: l)
        then reap pid (pre ++ List.filter (fun t => negb (killable pid t)) (t :: l)) (processes s)
        else processes s))).
  { intros Hk. rewrite (IH (pre ++ [t]) success s Hts' Hnd'). cbn [existsb List.filter].
    rewrite Hk. cbn [orb negb]. rewrite <- app_assoc. reflexivity. }
  cbn [map kill_loop thread_entry OwnerProcessID ThreadID].
  rewrite (OpenThread_focus s pre t l Hts Hnd).
  destruct (kt_owner t =? pid) eqn:Eo; [|apply Hskip; unfold killable, owned_open; by rewrite Eo].
  destruct (kt_open_ok t) eqn:Ep; [|apply Hskip; unfold killable, owned_open; by rewrite Eo, Ep].
  unfold open_handle. cbn [fst snd]. rewrite handle_nonzero. cbn [negb].
  rewrite (TerminateThread_focus (set_handles s (S (open_handles s))) pre t l Hts Hnd).
  destruct (kt_terminate_ok t) eqn:Et.
  2: { cbn. autorewrite with process_rw. rewrite ?set_handles_same.
       apply Hskip. unfold killable, owned_open. by rewrite Eo, Ep, Et. }
  assert (Hk : killable pid t = true) by (unfold killable, owned_open; by rewrite Eo, Ep, Et).
  cbn [Z.eqb negb]. autorewrite with process_rw. cbn [pred]. rewrite ?set_handles_same.
  rewrite (proj1 (Z.eqb_eq _ _) Eo).
  rewrite (IH pre true); [|reflexivity|].
  2: { unfold tids in *. rewrite map_app in *. cbn [map] in Hnd.
       apply NoDup_app in Hnd as (H1 & Hdis & H2). apply NoDup_cons in H2 as [_ H2].
       apply NoDup_app. split; [exact H1|split; [|exact H2]].
       intros x Hx Hl. apply (Hdis x Hx). right. exact Hl. }
  cbn [existsb List.filter]. rewrite Hk. cbn [orb negb]. rewrite orb_true_r.
  autorewrite with process_rw. cbn [processes set_processes]. f_equal. f_equal.
  destruct (existsb (killable pid) l) eqn:Ex.
  - apply reap_twice. rewrite !existsb_app. intros H. apply orb_true_iff in H as [H|H];
      [rewrite H; reflexivity|apply existsb_filter in H; rewrite H; apply orb_true_r].
  - rewrite filter_all_true; [reflexivity|]. intros x Hx. apply negb_true_iff.
    apply not_true_iff_false. intros Hkx. apply not_true_iff_false in Ex. apply Ex, existsb_exists. eauto.
Qed.

(** The final table of [KillProcessByThreads]. *)
Lemma KillProcessByThreads_spec pid s :
  NoDup (tids (threads s)) -> snapshot_ok s = true ->
  let rest := List.filter (fun t => negb (killable pid t)) (threads s) in
  KillProcessByThreads pid s =
    (existsb (killable pid) (threads s),
     set_processes (set_threads s rest)
       (if existsb (killable pid) (threads s) then reap pid rest (processes s) else processes s)).
Proof.
  intros Hnd Hok rest. unfold KillProcessByThreads. rewrite snapshot_opens, handle_nonzero by exact Hok.
  unfold thread_entries. autorewrite with process_rw. subst rest.
  destruct (threads s) as [|t l] eqn:Ets.
  { cbn. autorewrite with process_rw. cbn [pred]. rewrite ?set_handles_same, <- Ets.
    by rewrite set_threads_same, set_processes_same. }
  pose proof (kill_loop_spec pid (t :: l) [] false (set_handles s (S (open_handles s)))
                ltac:(cbn; assumption) ltac:(cbn; assumption)) as Hl.
  cbn [map app] in Hl |- *. rewrite Hl. cbn [orb].
  autorewrite with process_rw. cbn [pred]. rewrite ?set_handles_same. reflexivity.
Qed.

(** C12: [KillProcessByThreads] ends exactly the threads of [pid] it can
    open and terminate, reports success exactly when it ended one, and a
    process left without threads leaves the process table; the snapshot
    and thread handles are all closed. *)
Theorem KillProcessByThreads_eq pid s :
  NoDup (tids (threads s)) -> snapshot_ok s = true ->
  let rest := List.filter (fun t => negb (killable pid t)) (threads s) in
  KillProcessByThreads pid s =
    (existsb (killable pid) (threads s),
     set_processes (set_threads s rest)
       (if existsb (killable pid) (threads s) then reap pid rest (processes s) else processes s)).
Proof. exact (KillProcessByThreads_spec pid s). Qed.


(** when [FindMythwareProcess] finds [pid] and every thread of it can
    be opened and terminated, [KillMythwareProcess] succeeds, no thread of
    [pid] is left and [pid] is gone from the process table. *)
Theorem KillMythwareProcess_gone s pid :
  NoDup (tids (threads s)) -> snapshot_ok s = true ->
  find_loop (process_entries s) = pid -> pid <> 0 ->
  existsb (fun t => kt_owner t =? pid) (threads s) = true ->
  Forall (fun t => kt_owner t = pid -> kt_open_ok t = true /\ kt_terminate_ok t = true) (threads s) ->
  (KillMythwareProcess s).1 = true /\
  Forall (fun t => kt_owner t <> pid) (threads (KillMythwareProcess s).2) /\
  pid ∉ map kp_id (processes (KillMythwareProcess s).2).
Proof.
  intros Hnd Hok Hf Hp Hex Hall. unfold KillMythwareProcess. rewrite FindMythwareProcess_eq, Hok, Hf.
  rewrite (proj2 (Z.eqb_neq _ _) Hp), KillProcessByThreads_spec by assumption. cbn zeta.
  rewrite List.Forall_forall in Hall.
  assert (Hk : forall t, In t (threads s) -> kt_owner t = pid -> killable pid t = true).
  { intros t Ht Ho. destruct (Hall t Ht Ho) as [H1 H2].
    unfold killable, owned_open. rewrite Ho, Z.eqb_refl, H1, H2. reflexivity. }
  assert (Hkex : existsb (killable pid) (threads s) = true).
  { apply existsb_exists in Hex as (t & Ht & Ho). apply Z.eqb_eq in Ho. apply existsb_exists; eauto. }
  assert (Hrest : Forall (fun t => kt_owner t <> pid) (List.filter (fun t => negb (killable pid t)) (threads s))).
  { apply List.Forall_forall. intros t Ht Ho. apply filter_In in Ht as [Ht Hn].
    rewrite Hk in Hn by assumption. discriminate. }
  rewrite Hkex. split; [reflexivity|]. cbn. split; [exact Hrest|].
  unfold reap. replace (existsb _ _) with false.
  - rewrite list_elem_of_In, in_map_iff. intros (p & Hpid & Hin). apply filter_In in Hin as [_ Hin].
    rewrite Hpid, Z.eqb_refl in Hin. discriminate.
  - symmetry. apply not_true_iff_false. rewrite existsb_exists. intros (t & Ht & Ho).
    apply Z.eqb_eq in Ho. rewrite List.Forall_forall in Hrest. exact (Hrest t Ht Ho).
Qed.

(** ** Locating and starting the agent *)

(** C13: [GetMythwareInstallPath] reads "TargetDirectory" from the
    WOW6432Node key when that key exists, from the native key only when
    the first one does not exist (not when it lacks the value), fails when
    neither exists, and closes the key it opened. *)
Theorem GetMythwareInstallPath_eq s :
  GetMythwareInstallPath s =
    (match registry s !! key_wow64, registry s !! key_native with
     | Some vals, _ | None, Some vals => GetStringValue vals "TargetDirectory"
     | None, None => Err "The system cannot find the file specified."
     end, s).
Proof.
  unfold GetMythwareInstallPath, RegOpenKey, RegCloseKey, open_handle.
  destruct (registry s !! key_wow64), (registry s !! key_native);
    cbn [fst snd]; autorewrite with process_rw; cbn [pred]; rewrite ?set_handles_same; reflexivity.
Qed.

Lemma GetMythwareInstallPath_keeps s :
  GetMythwareInstallPath s = ((GetMythwareInstallPath s).1, s).
Proof.
  unfold GetMythwareInstallPath, RegOpenKey, RegCloseKey, open_handle.
  destruct (registry s !! key_wow64), (registry s !! key_native);
    cbn [fst snd]; autorewrite with process_rw; cbn [pred]; rewrite ?set_handles_same; reflexivity.
Qed.

Lemma find_loop_app ps p :
  Forall (fun q => is_student_main (kp_exe q) = false) ps ->
  find_loop (map process_entry (ps ++ [p])) = find_loop [process_entry p].
Proof.
  induction ps as [|q ps IH]; intros Hall; [reflexivity|].
  inversion Hall as [|? ? Hq Hps]; subst. cbn [app map find_loop process_entry ExeFile].
  rewrite Hq. apply IH, Hps.
Qed.

Lemma base_name_exe d : base_name (String.append d "\StudentMain.exe") = "StudentMain.exe".
Proof.
  unfold base_name. change "\StudentMain.exe"%string with (String "\" "StudentMain.exe").
  rewrite split_char_append.
  change (split_char "\" "StudentMain.exe") with ["StudentMain.exe"%string]. by rewrite list_last_app_cons.
Qed.

(** when the install path resolves to a directory [d] whose
    "\StudentMain.exe" can be started and no agent is running,
    [StartMythwareProcess] succeeds, closes both handles [CreateProcess]
    returns, and [FindMythwareProcess] then finds the new process. *)
Theorem Start_then_found s d :
  (GetMythwareInstallPath s).1 = Ret d -> contains_char (Ascii.ascii_of_nat 0) d = false ->
  String.append d "\StudentMain.exe" ∈ executables s -> snapshot_ok s = true ->
  Forall (fun p => is_student_main (kp_exe p) = false) (processes s) ->
  (StartMythwareProcess s).1 = true /\
  open_handles (StartMythwareProcess s).2 = open_handles s /\
  (FindMythwareProcess (StartMythwareProcess s).2).1 = next_id s.
Proof.
  intros Hd Hnul Hexe Hok Hnone. unfold StartMythwareProcess.
  rewrite GetMythwareInstallPath_keeps, Hd.
  assert (Hp : UTF16PtrFromString (String.append d "\StudentMain.exe") =
                Some (String.append d "\StudentMain.exe")).
  { unfold UTF16PtrFromString. rewrite contains_char_append, Hnul. reflexivity. }
  rewrite Hp. unfold CreateProcess. rewrite bool_decide_eq_true_2 by exact Hexe.
  unfold open_handle. cbn [fst snd]. rewrite !CloseHandle_handle.
  cbn. split; [reflexivity|]. split; [reflexivity|].
  rewrite FindMythwareProcess_eq. cbn. rewrite Hok. unfold process_entries. cbn.
  rewrite find_loop_app by exact Hnone. cbn. rewrite base_name_exe. reflexivity.
Qed.

(** ** Witnesses *)

Definition th (id owner count : Z) : kthread :=
  {| kt_id := id; kt_owner := owner; kt_suspend := count; kt_open_ok := true; kt_terminate_ok := true |}.

Definition explorer : kprocess := {| kp_id := 4; kp_exe := exe_units "explorer.exe"; kp_open_ok := true |}.
Definition agent : kprocess := {| kp_id := 8; kp_exe := exe_units "StudentMain.exe"; kp_open_ok := true |}.

Definition mk_sys (ps : list kprocess) (ts : list kthread) : sys :=
  {| processes := ps; threads := ts; snapshot_ok := true; nt_ok := true; open_handles := 0;
     registry := {[ key_native := {[ "TargetDirectory" := RegString "C:\Mythware" ]} ]};
     executables := ["C:\Mythware\StudentMain.exe"]; next_id := 12 |}.

(** The agent (pid 8) with a running and a suspended thread. *)
Definition s_run : sys := mk_sys [explorer; agent] [th 5 4 0; th 9 8 0; th 10 8 1].
(** The agent with a thread at the suspend limit. *)
Definition s_max : sys := mk_sys [explorer; agent] [th 5 4 0; th 9 8 1; th 10 8 127].
(** No agent running. *)
Definition s_idle : sys := mk_sys [explorer] [th 5 4 0].

Ltac witness_solve :=
  first [ reflexivity | lia | apply (bool_decide_unpack _); vm_compute; reflexivity
        | vm_compute; reflexivity
        | repeat constructor; unfold probe_safe; cbn; intros; lia ].

Lemma GetProcessState_pure_witness : GetProcessState 8 s_run = (0, s_run).
Proof. rewrite (GetProcessState_pure 8 s_run); witness_solve. Defined.

Lemma GetProcessState_max_count_witness :
  find_thread 10 (GetProcessState 8 s_max).2 = Some (th 10 8 126) /\ (GetProcessState 8 s_max).1 <> -1.
Proof. apply (GetProcessState_max_count 8 s_max [th 5 4 0; th 9 8 1] (th 10 8 127) []); witness_solve. Defined.

Lemma Suspend_Resume_roundtrip_witness :
  SuspendMythwareProcess s_run = (true, set_threads s_run (suspend_all 8 (threads s_run))) /\
  ResumeMythwareProcess (SuspendMythwareProcess s_run).2 = (true, s_run).
Proof.
  apply (Suspend_Resume_roundtrip s_run 8); witness_solve.
Defined.

Lemma Suspend_then_suspended_witness :
  (SuspendMythwareProcess s_run).1 = true /\ (IsMythwareSuspended (SuspendMythwareProcess s_run).2).1 = true.
Proof.
  apply (Suspend_then_suspended s_run 8); witness_solve.
Defined.

Lemma KillProcessByThreads_eq_witness :
  KillProcessByThreads 8 s_run = (true, mk_sys [explorer] [th 5 4 0]).
Proof. rewrite (KillProcessByThreads_eq 8 s_run); witness_solve. Defined.

Lemma KillMythwareProcess_gone_witness :
  (KillMythwareProcess s_run).1 = true /\
  Forall (fun t => kt_owner t <> 8) (threads (KillMythwareProcess s_run).2) /\
  8 ∉ map kp_id (processes (KillMythwareProcess s_run).2).
Proof.
  apply (KillMythwareProcess_gone s_run 8); witness_solve.
Defined.

Lemma Start_then_found_witness :
  (StartMythwareProcess s_idle).1 = true /\
  open_handles (StartMythwareProcess s_idle).2 = open_handles s_idle /\
  (FindMythwareProcess (StartMythwareProcess s_idle).2).1 = 12.
Proof. apply (Start_then_found s_idle "C:\Mythware"); witness_solve. Defined.
