(* ===== verification/WindowHijacker.v ===== *)
(** * WindowHijacker: the broadcast-window pin and the black-screen embed
    of main.go

    The window manager is explicit state ([winsys]): the live windows with
    their title, parent (0 for a top-level window), window procedure,
    extended style, z-order position, whether they belong to this
    process and the OS thread that created them, plus the switches that decide whether [CreateWindowEx],
    [SetParent] and [SetWinEventHook] succeed.  The package-level
    variables of main.go and the monitor goroutines are the records [pin]
    (broadcast window) and [bscreen] (black screen).  Each function of
    main.go is a transformer of such a record and the [winsys]; the
    window procedure chain ([CallWindowProc]) is a fuel-bounded
    interpreter, [None] meaning the chain does not return.

    The user32 calls keep their documented behaviour: [FindWindowW]
    searches top-level windows only, [SetWindowLongW(GWL_WNDPROC)] is
    refused for a window of another process, [DestroyWindow] is refused
    for a window another thread created and otherwise destroys the
    window's descendants with it.  The black-screen monitor is a
    goroutine not locked to an OS thread, so each of its ticks takes the
    thread it runs on; walk's handlers run on the UI thread
    [UI_THREAD]. *)

From S2P Require Import Prelude.
From stdpp Require Import relations.
#[local] Open Scope Z_scope.

(** ** Constants of main.go *)

Definition WM_WINDOWPOSCHANGING : Z := 0x0046.
Definition WM_MOUSEACTIVATE : Z := 0x0021.
Definition WM_NCACTIVATE : Z := 0x0086.
Definition WM_ACTIVATE : Z := 0x0006.
Definition MA_NOACTIVATE : Z := 0x0003.
Definition WS_EX_NOACTIVATE : Z := 0x08000000.
Definition MessageCommand : Z := 0x0111.
Definition ButtonClick : Z := 0x00F5.
Definition SW_MINIMIZE : Z := 6.

(** The address [syscall.NewCallback(broadcastWindowHook)] returns (Go
    returns the same trampoline for the same function every time). *)
Definition HOOK_PROC : Z := 0x1000.

Definition broadcastTitle : string := "屏幕广播".
Definition blackScreenTitle : string := "BlackScreen Window".
Definition parentTitle : string := "黑屏劫持".

(** ** The window manager *)

Record window := {
  hwnd : Z; title : string; parent : Z; wndproc : Z; exstyle : Z;
  at_bottom : bool; minimized : bool; ours : bool;
  thread : Z   (** the thread that created it *)
}.

Record winsys := {
  wins : list window;
  next_hwnd : Z;
  create_ok : bool;      (** [CreateWindowExW] succeeds *)
  setparent_ok : bool;   (** [SetParent] succeeds *)
  winevent_ok : bool;    (** [SetWinEventHook] succeeds *)
  posted : list (Z * Z * Z)   (** [PostMessageW]: window, message, wParam *)
}.

(** The OS thread of walk's UI: [walk] locks the main goroutine to it,
    and every handler of the UI runs there. *)
Definition UI_THREAD : Z := 1.

Definition set_wins (ws : winsys) (l : list window) : winsys :=
  {| wins := l; next_hwnd := next_hwnd ws; create_ok := create_ok ws;
     setparent_ok := setparent_ok ws; winevent_ok := winevent_ok ws; posted := posted ws |}.

Definition find_win (h : Z) (ws : winsys) : option window :=
  List.find (fun w => hwnd w =? h) (wins ws).

Definition update_win (h : Z) (f : window -> window) (ws : winsys) : winsys :=
  set_wins ws (map (fun w => if hwnd w =? h then f w else w) (wins ws)).

Definition with_proc (w : window) (p : Z) : window :=
  {| hwnd := hwnd w; title := title w; parent := parent w; wndproc := p; exstyle := exstyle w;
     at_bottom := at_bottom w; minimized := minimized w; ours := ours w; thread := thread w |}.
Definition with_exstyle (w : window) (x : Z) : window :=
  {| hwnd := hwnd w; title := title w; parent := parent w; wndproc := wndproc w; exstyle := x;
     at_bottom := at_bottom w; minimized := minimized w; ours := ours w; thread := thread w |}.
Definition with_parent (w : window) (p : Z) : window :=
  {| hwnd := hwnd w; title := title w; parent := p; wndproc := wndproc w; exstyle := exstyle w;
     at_bottom := at_bottom w; minimized := minimized w; ours := ours w; thread := thread w |}.
Definition to_bottom (w : window) : window :=
  {| hwnd := hwnd w; title := title w; parent := parent w; wndproc := wndproc w; exstyle := exstyle w;
     at_bottom := true; minimized := minimized w; ours := ours w; thread := thread w |}.
Definition to_minimized (w : window) : window :=
  {| hwnd := hwnd w; title := title w; parent := parent w; wndproc := wndproc w; exstyle := exstyle w;
     at_bottom := at_bottom w; minimized := true; ours := ours w; thread := thread w |}.

(** [FindWindowW(NULL, title)]: the first top-level window with that title. *)
Definition FindWindowByTitle (t : string) (ws : winsys) : Z :=
  match List.find (fun w => (parent w =? 0) && String.eqb (title w) t) (wins ws) with
  | Some w => hwnd w
  | None => 0
  end.

(** [GetWindowLongW] / [SetWindowLongW] on [GWL_WNDPROC]: the previous
    value, or 0 when the window is not this process's. *)
Definition GetWindowProc (h : Z) (ws : winsys) : Z :=
  match find_win h ws with Some w => wndproc w | None => 0 end.

Definition SetWindowProc (h p : Z) (ws : winsys) : Z * winsys :=
  match find_win h ws with
  | Some w => if ours w then (wndproc w, update_win h (fun w => with_proc w p) ws) else (0, ws)
  | None => (0, ws)
  end.

Definition GetWindowExStyle (h : Z) (ws : winsys) : Z :=
  match find_win h ws with Some w => exstyle w | None => 0 end.

Definition SetWindowExStyle (h x : Z) (ws : winsys) : Z * winsys :=
  match find_win h ws with
  | Some w => (exstyle w, update_win h (fun w => with_exstyle w (x mod 2 ^ 32)) ws)
  | None => (0, ws)
  end.

(** [SetWindowBottom]: [SetWindowPos(h, HWND_BOTTOM, ..., SWP_NOSIZE|SWP_NOMOVE)]. *)
Definition SetWindowBottom (h : Z) (ws : winsys) : bool * winsys :=
  match find_win h ws with
  | Some _ => (true, update_win h to_bottom ws)
  | None => (false, ws)
  end.

(** [SetWindowNoActivate] (main.go 183-201). *)
Definition SetWindowNoActivate (h : Z) (noActivate : bool) (ws : winsys) : bool * winsys :=
  let style := GetWindowExStyle h ws in
  let style := if noActivate then Z.lor style WS_EX_NOACTIVATE
               else Z.land style (Z.lnot WS_EX_NOACTIVATE) in
  let (ret, ws) := SetWindowExStyle h style ws in
  (negb (ret =? 0), ws).

(** [SetParent(child, parent)] (main.go 204-210); parent 0 makes the
    window top-level again. *)
Definition SetParent (child par : Z) (ws : winsys) : bool * winsys :=
  match find_win child ws with
  | Some _ =>
      if setparent_ok ws && ((par =? 0) || bool_decide (find_win par ws <> None))
      then (true, update_win child (fun w => with_parent w par) ws)
      else (false, ws)
  | None => (false, ws)
  end.

Definition ShowWindow (h cmd : Z) (ws : winsys) : bool * winsys :=
  match find_win h ws with
  | Some _ => (true, if cmd =? SW_MINIMIZE then update_win h to_minimized ws else ws)
  | None => (false, ws)
  end.

(** [CreateBlackScreenParentWindow] (main.go 239-263), called on the OS
    thread [t]: a minimized off-screen tool window of this process that
    [t] owns, or 0. *)
Definition CreateBlackScreenParentWindow (t : Z) (ws : winsys) : Z * winsys :=
  if create_ok ws then
    let h := next_hwnd ws in
    let w := {| hwnd := h; title := parentTitle; parent := 0; wndproc := 0; exstyle := 0x80;
                at_bottom := false; minimized := true; ours := true; thread := t |} in
    (h, {| wins := wins ws ++ [w]; next_hwnd := h + 4; create_ok := create_ok ws;
           setparent_ok := setparent_ok ws; winevent_ok := winevent_ok ws; posted := posted ws |})
  else (0, ws).

(** The windows below [h] (its children, their children, ...): [n] rounds
    of closing the set under "is a child of". *)
Fixpoint below (n : nat) (ws : list window) (hs : list Z) : list Z :=
  match n with
  | O => hs
  | S n => below n ws (hs ++ map hwnd (List.filter (fun w => bool_decide (parent w ∈ hs)
                                                             && bool_decide (hwnd w ∉ hs)) ws))
  end.

(** [DestroyWindow(h)] (main.go 266-269) called on the OS thread [t]:
    Win32 lets a thread destroy only the windows it created; the window
    and every window below it are destroyed. *)
Definition DestroyWindow (t h : Z) (ws : winsys) : bool * winsys :=
  match find_win h ws with
  | Some w =>
      if negb (thread w =? t) then (false, ws) else
      let gone := below (length (wins ws)) (wins ws) [h] in
      (true, set_wins ws (List.filter (fun w => bool_decide (hwnd w ∉ gone)) (wins ws)))
  | None => (false, ws)
  end.

Definition PostMessage (h msg wParam : Z) (ws : winsys) : bool * winsys :=
  match find_win h ws with
  | Some _ => (true, {| wins := wins ws; next_hwnd := next_hwnd ws; create_ok := create_ok ws;
                        setparent_ok := setparent_ok ws; winevent_ok := winevent_ok ws;
                        posted := posted ws ++ [(h, msg, wParam)] |})
  | None => (false, ws)
  end.

(** ** The broadcast-window pin *)

(** The package-level variables of the pin, and the running
    [monitorBroadcastWindow] goroutine with its local [hookedWindow]. *)
Record pin := {
  originalBroadcastWindowProc : Z;
  broadcastHookEnabled : bool;
  broadcastWindowHandle : Z;
  eventHook : Z;
  monitor : option Z
}.

Definition set_original (p : pin) (x : Z) : pin :=
  {| originalBroadcastWindowProc := x; broadcastHookEnabled := broadcastHookEnabled p;
     broadcastWindowHandle := broadcastWindowHandle p; eventHook := eventHook p; monitor := monitor p |}.
Definition set_enabled (p : pin) (b : bool) : pin :=
  {| originalBroadcastWindowProc := originalBroadcastWindowProc p; broadcastHookEnabled := b;
     broadcastWindowHandle := broadcastWindowHandle p; eventHook := eventHook p; monitor := monitor p |}.
Definition set_handle (p : pin) (h : Z) : pin :=
  {| originalBroadcastWindowProc := originalBroadcastWindowProc p;
     broadcastHookEnabled := broadcastHookEnabled p; broadcastWindowHandle := h;
     eventHook := eventHook p; monitor := monitor p |}.
Definition set_eventHook (p : pin) (h : Z) : pin :=
  {| originalBroadcastWindowProc := originalBroadcastWindowProc p;
     broadcastHookEnabled := broadcastHookEnabled p; broadcastWindowHandle := broadcastWindowHandle p;
     eventHook := h; monitor := monitor p |}.
Definition set_monitor (p : pin) (m : option Z) : pin :=
  {| originalBroadcastWindowProc := originalBroadcastWindowProc p;
     broadcastHookEnabled := broadcastHookEnabled p; broadcastWindowHandle := broadcastWindowHandle p;
     eventHook := eventHook p; monitor := m |}.

(** [broadcastWindowHook] (main.go 272-296): [forward] is
    [CallWindowProc(originalBroadcastWindowProc, ...)]; the result is the
    value returned and the windows sent to the bottom on the way. *)
Definition broadcastWindowHook (forward : Z -> Z -> Z -> Z -> option (Z * list Z))
    (hwnd msg wParam lParam : Z) : option (Z * list Z) :=
  if msg =? WM_WINDOWPOSCHANGING then Some (0, [hwnd])
  else if msg =? WM_MOUSEACTIVATE then Some (MA_NOACTIVATE, [])
  else if ((msg =? WM_NCACTIVATE) || (msg =? WM_ACTIVATE)) && negb (wParam =? 0) then Some (0, [])
  else forward hwnd msg wParam lParam.

(** [CallWindowProc(p, ...)]: the hook runs [broadcastWindowHook], any
    other procedure is the agent's [agent p]. *)
Fixpoint CallWindowProc (fuel : nat) (agent : Z -> Z -> Z -> Z -> Z -> Z) (original p : Z)
    (hwnd msg wParam lParam : Z) : option (Z * list Z) :=
  match fuel with
  | O => None
  | S f =>
      if p =? HOOK_PROC
      then broadcastWindowHook (CallWindowProc f agent original original) hwnd msg wParam lParam
      else Some (agent p hwnd msg wParam lParam, [])
  end.

(** [SetBroadcastWindowHook] (main.go 299-312). *)
Definition SetBroadcastWindowHook (h : Z) (p : pin) (ws : winsys) : bool * pin * winsys :=
  let originalProc := GetWindowProc h ws in
  let p := set_original p originalProc in
  let (ret, ws) := SetWindowProc h HOOK_PROC ws in
  (negb (ret =? 0), p, ws).

(** [winEventHook] (main.go 315-321). *)
Definition winEventHook (hwnd : Z) (p : pin) (ws : winsys) : winsys :=
  if broadcastHookEnabled p && (hwnd =? broadcastWindowHandle p)
  then (SetWindowNoActivate hwnd true (SetWindowBottom hwnd ws).2).2
  else ws.

(** The handle [SetWinEventHook] returns when it succeeds. *)
Definition EVENT_HOOK : Z := 0x2000.

(** [SetBroadcastEventHook] and [RemoveBroadcastEventHook] (main.go
    324-349). *)
Definition SetBroadcastEventHook (p : pin) (ws : winsys) : bool * pin :=
  let ret := if winevent_ok ws then EVENT_HOOK else 0 in
  let p := set_eventHook p ret in
  (negb (eventHook p =? 0), p).

Definition RemoveBroadcastEventHook (p : pin) : pin :=
  if negb (eventHook p =? 0) then set_eventHook p 0 else p.

(** [ToggleBroadcastWindow] (main.go 352-371): click button 1004 of the
    broadcast window, or show a dialog when there is none. *)
Definition ToggleBroadcastWindow (p : pin) (ws : winsys) : pin * winsys :=
  let h := FindWindowByTitle broadcastTitle ws in
  let p := set_handle p h in
  if h =? 0 then (p, ws)
  else (p, (PostMessage h MessageCommand (Z.lor (Z.shiftl ButtonClick 16) 1004) ws).2).

(** One tick of [monitorBroadcastWindow] (main.go 804-833). *)
Definition monitor_tick (hookedWindow : Z) (p : pin) (ws : winsys) : Z * pin * winsys :=
  let broadcastWindow := FindWindowByTitle broadcastTitle ws in
  if negb (broadcastWindow =? 0) then
    let p := set_handle p broadcastWindow in
    let '(hookedWindow, p, ws) :=
      if hookedWindow =? 0 then
        let '(ok, p, ws) := SetBroadcastWindowHook broadcastWindow p ws in
        (if ok then broadcastWindow else hookedWindow, p, ws)
      else (hookedWindow, p, ws) in
    let ws := if broadcastHookEnabled p
              then (SetWindowNoActivate broadcastWindow true (SetWindowBottom broadcastWindow ws).2).2
              else ws in
    (hookedWindow, p, ws)
  else (0, set_handle p 0, ws).

(** The "broadcast to the bottom" check box (main.go 644-656): checking it
    enables the pin and, when the event hook is installed, starts a
    monitor with [hookedWindow = 0]; unchecking it disables the pin,
    removes the hook and closes the monitor's quit channel. *)
Definition broadcast_checked (p : pin) (ws : winsys) : pin :=
  let p := set_enabled p true in
  let (ok, p) := SetBroadcastEventHook p ws in
  if ok then set_monitor p (Some 0) else p.

Definition broadcast_unchecked (p : pin) : pin :=
  let p := set_enabled p false in
  let p := RemoveBroadcastEventHook p in
  set_monitor p None.

(** The running monitor's next tick, with its [hookedWindow] kept. *)
Definition pin_tick (s : pin * winsys) : pin * winsys :=
  match monitor s.1 with
  | Some hooked => let '(hooked, p, ws) := monitor_tick hooked s.1 s.2 in (set_monitor p (Some hooked), ws)
  | None => s
  end.

(** What can happen to the pin: the user toggles the check box, the
    running monitor ticks, the event hook fires for a window. *)
Inductive pin_step : pin * winsys -> pin * winsys -> Prop :=
  | PinCheck p ws : broadcastHookEnabled p = false -> pin_step (p, ws) (broadcast_checked p ws, ws)
  | PinUncheck p ws : broadcastHookEnabled p = true -> pin_step (p, ws) (broadcast_unchecked p, ws)
  | PinTick p ws hooked : monitor p = Some hooked -> pin_step (p, ws) (pin_tick (p, ws))
  | PinEvent p ws h : eventHook p <> 0 -> pin_step (p, ws) (p, winEventHook h p ws).

(** ** The black-screen embed *)

(** The package-level variables of the embed and whether a
    [monitorBlackScreenWindow] goroutine runs. *)
Record bscreen := {
  blackScreenMinimizeEnabled : bool;
  blackScreenParentWindow : Z;
  embeddedBlackScreenWindow : Z;
  bs_monitor : bool
}.

Definition set_bs_enabled (b : bscreen) (x : bool) : bscreen :=
  {| blackScreenMinimizeEnabled := x; blackScreenParentWindow := blackScreenParentWindow b;
     embeddedBlackScreenWindow := embeddedBlackScreenWindow b; bs_monitor := bs_monitor b |}.
Definition set_bs_parent (b : bscreen) (h : Z) : bscreen :=
  {| blackScreenMinimizeEnabled := blackScreenMinimizeEnabled b; blackScreenParentWindow := h;
     embeddedBlackScreenWindow := embeddedBlackScreenWindow b; bs_monitor := bs_monitor b |}.
Definition set_bs_embedded (b : bscreen) (h : Z) : bscreen :=
  {| blackScreenMinimizeEnabled := blackScreenMinimizeEnabled b;
     blackScreenParentWindow := blackScreenParentWindow b; embeddedBlackScreenWindow := h;
     bs_monitor := bs_monitor b |}.
Definition set_bs_monitor (b : bscreen) (m : bool) : bscreen :=
  {| blackScreenMinimizeEnabled := blackScreenMinimizeEnabled b;
     blackScreenParentWindow := blackScreenParentWindow b;
     embeddedBlackScreenWindow := embeddedBlackScreenWindow b; bs_monitor := m |}.

(** One tick of [monitorBlackScreenWindow] (main.go 836-865), run on
    the OS thread [t] the Go scheduler gives the goroutine for it: the
    goroutine is not locked to a thread, so [t] may change between ticks;
    it is never walk's UI thread, which [walk] locks to the main
    goroutine. *)
Definition blackscreen_tick (t : Z) (b : bscreen) (ws : winsys) : bscreen * winsys :=
  if blackScreenMinimizeEnabled b then
    let blackScreenWindow := FindWindowByTitle blackScreenTitle ws in
    if negb (blackScreenWindow =? 0) && (embeddedBlackScreenWindow b =? 0) then
      let (par, ws) := CreateBlackScreenParentWindow t ws in
      let b := set_bs_parent b par in
      if negb (par =? 0) then
        let (ok, ws) := SetParent blackScreenWindow par ws in
        if ok then (set_bs_embedded b blackScreenWindow, (ShowWindow par SW_MINIMIZE ws).2)
        else (b, ws)
      else (b, ws)
    else if (blackScreenWindow =? 0) && negb (embeddedBlackScreenWindow b =? 0) then
      let b := set_bs_embedded b 0 in
      if negb (blackScreenParentWindow b =? 0)
      then (set_bs_parent b 0, (DestroyWindow t (blackScreenParentWindow b) ws).2)
      else (b, ws)
    else (b, ws)
  else (b, ws).

(** The "hide black screen" check box (main.go 674-692); unchecking it
    runs on the UI thread. *)
Definition blackscreen_checked (b : bscreen) : bscreen :=
  set_bs_monitor (set_bs_enabled b true) true.

Definition blackscreen_unchecked (b : bscreen) (ws : winsys) : bscreen * winsys :=
  let b := set_bs_enabled b false in
  let '(b, ws) := if negb (embeddedBlackScreenWindow b =? 0)
                  then (set_bs_embedded b 0, (SetParent (embeddedBlackScreenWindow b) 0 ws).2)
                  else (b, ws) in
  let '(b, ws) := if negb (blackScreenParentWindow b =? 0)
                  then (set_bs_parent b 0, (DestroyWindow UI_THREAD (blackScreenParentWindow b) ws).2)
                  else (b, ws) in
  (set_bs_monitor b false, ws).

(** Ticks of the monitor on the OS threads [ts], one per tick. *)
Fixpoint blackscreen_ticks (ts : list Z) (b : bscreen) (ws : winsys) : bscreen * winsys :=
  match ts with
  | [] => (b, ws)
  | t :: ts => let (b, ws) := blackscreen_tick t b ws in blackscreen_ticks ts b ws
  end.

(** ** The interceptor *)

(** A message the interceptor hands on. *)
Definition forwarded_msg (msg wParam : Z) : bool :=
  negb (msg =? WM_WINDOWPOSCHANGING) && negb (msg =? WM_MOUSEACTIVATE) &&
  negb (((msg =? WM_NCACTIVATE) || (msg =? WM_ACTIVATE)) && negb (wParam =? 0)).

Lemma hook_forwards forward hwnd msg wParam lParam :
  forwarded_msg msg wParam = true ->
  broadcastWindowHook forward hwnd msg wParam lParam = forward hwnd msg wParam lParam.
Proof.
  unfold forwarded_msg, broadcastWindowHook. intros H.
  repeat rewrite andb_true_iff in H. destruct H as [[H1 H2] H3].
  apply negb_true_iff in H1, H2, H3. rewrite H1, H2, H3. reflexivity.
Qed.

(** C20: a deactivation notification ([WM_NCACTIVATE] or [WM_ACTIVATE]
    with wParam 0) is not swallowed: the interceptor forwards it to the
    original procedure, while the activation (wParam non-zero) is the one
    swallowed.  The spec says the deactivation is swallowed. *)
Theorem broadcastWindowHook_deactivation agent original hwnd msg lParam fuel :
  original <> HOOK_PROC -> msg = WM_NCACTIVATE \/ msg = WM_ACTIVATE ->
  CallWindowProc (S (S fuel)) agent original HOOK_PROC hwnd msg 0 lParam =
    Some (agent original hwnd msg 0 lParam, []) /\
  CallWindowProc (S (S fuel)) agent original HOOK_PROC hwnd msg 1 lParam = Some (0, []).
Proof.
  intros Ho Hm. cbn [CallWindowProc]. rewrite Z.eqb_refl.
  split; [rewrite hook_forwards by (destruct Hm as [->| ->]; reflexivity);
          cbn [CallWindowProc]; rewrite (proj2 (Z.eqb_neq _ _) Ho); reflexivity|].
  destruct Hm as [->| ->]; reflexivity.
Qed.

(** ** Window updates *)

Section Updates.
Context (f : window -> window).
Hypothesis Hid : forall w, hwnd (f w) = hwnd w.

Lemma find_update h ws : find_win h (update_win h f ws) = option_map f (find_win h ws).
Proof.
  unfold find_win, update_win. cbn [wins set_wins]. induction (wins ws) as [|w l IH]; [reflexivity|].
  cbn [map List.find]. destruct (Z.eqb_spec (hwnd w) h) as [E|E].
  - rewrite Hid, (proj2 (Z.eqb_eq _ _) E). reflexivity.
  - rewrite (proj2 (Z.eqb_neq _ _) E). exact IH.
Qed.

Lemma find_update_other h h' ws : h' <> h -> find_win h' (update_win h f ws) = find_win h' ws.
Proof.
  intros Hne. unfold find_win, update_win. cbn [wins set_wins].
  induction (wins ws) as [|w l IH]; [reflexivity|]. cbn [map List.find].
  destruct (Z.eqb_spec (hwnd w) h) as [E|E]; [rewrite Hid|]; destruct (Z.eqb_spec (hwnd w) h') as [E'|E'];
    try congruence; exact IH.
Qed.

Hypothesis Htop : forall w, parent (f w) = parent w /\ title (f w) = title w.

Lemma FindWindowByTitle_update t h ws :
  FindWindowByTitle t (update_win h f ws) = FindWindowByTitle t ws.
Proof.
  unfold FindWindowByTitle, update_win. cbn [wins set_wins].
  induction (wins ws) as [|w l IH]; [reflexivity|]. cbn [map List.find].
  destruct (hwnd w =? h); [destruct (Htop w) as [-> ->]|];
    destruct ((parent w =? 0) && String.eqb (title w) t); try exact IH; [apply Hid|reflexivity].
Qed.

End Updates.

(** ** The pin's initial state *)

Definition pin0 : pin :=
  {| originalBroadcastWindowProc := 0; broadcastHookEnabled := false; broadcastWindowHandle := 0;
     eventHook := 0; monitor := None |}.

Definition pin_check (s : pin * winsys) : pin * winsys := (broadcast_checked s.1 s.2, s.2).

(** ** Windows of other processes keep their procedure *)

(** Every window of another process still exists with its procedure. *)
Definition procs_kept (ws ws' : winsys) : Prop :=
  forall h w, find_win h ws = Some w -> ours w = false ->
    exists w', find_win h ws' = Some w' /\ ours w' = false /\ wndproc w' = wndproc w.

Lemma procs_kept_refl ws : procs_kept ws ws.
Proof. intros h w Hw Ho. eauto. Qed.

Lemma procs_kept_trans ws1 ws2 ws3 : procs_kept ws1 ws2 -> procs_kept ws2 ws3 -> procs_kept ws1 ws3.
Proof.
  intros H12 H23 h w Hw Ho. destruct (H12 h w Hw Ho) as (w2 & H2 & Ho2 & Hp2).
  destruct (H23 h w2 H2 Ho2) as (w3 & H3 & Ho3 & Hp3). exists w3. rewrite Hp3. auto.
Qed.

Lemma update_keeps f h ws :
  (forall w, hwnd (f w) = hwnd w /\ ours (f w) = ours w) ->
  (forall w, find_win h ws = Some w -> ours w = false -> wndproc (f w) = wndproc w) ->
  procs_kept ws (update_win h f ws).
Proof.
  intros Hf Hh h' w Hw Ho. assert (Hid : forall w, hwnd (f w) = hwnd w) by (intros; apply Hf).
  destruct (Z.eq_dec h' h) as [->|Hne].
  - rewrite find_update, Hw by exact Hid. exists (f w). cbn. destruct (Hf w) as (_ & ->). auto.
  - rewrite find_update_other by assumption. eauto.
Qed.

Ltac keeps_solve :=
  apply update_keeps; [intros ?; cbn; auto | intros ? ? ?; cbn; reflexivity].

Lemma SetWindowProc_keeps h p ws : procs_kept ws (SetWindowProc h p ws).2.
Proof.
  unfold SetWindowProc. destruct (find_win h ws) as [w|] eqn:Hw; [|apply procs_kept_refl].
  destruct (ours w) eqn:Ho; [|apply procs_kept_refl]. cbn.
  apply update_keeps; [intros x; cbn; auto|]. intros v Hv Hov. congruence.
Qed.

Lemma SetWindowBottom_keeps h ws : procs_kept ws (SetWindowBottom h ws).2.
Proof. unfold SetWindowBottom. destruct (find_win h ws); [keeps_solve|apply procs_kept_refl]. Qed.

Lemma SetWindowNoActivate_keeps h b ws : procs_kept ws (SetWindowNoActivate h b ws).2.
Proof.
  unfold SetWindowNoActivate, SetWindowExStyle. destruct (find_win h ws); [keeps_solve|apply procs_kept_refl].
Qed.

#[local] Hint Resolve procs_kept_refl SetWindowProc_keeps SetWindowBottom_keeps SetWindowNoActivate_keeps
  : mythgone.

Lemma pin_effects_keep h ws : procs_kept ws (SetWindowNoActivate h true (SetWindowBottom h ws).2).2.
Proof. eapply procs_kept_trans; [apply SetWindowBottom_keeps|apply SetWindowNoActivate_keeps]. Qed.

Lemma monitor_tick_keeps hooked p ws :
  let '(hooked', _, ws') := monitor_tick hooked p ws in procs_kept ws ws'.
Proof.
  unfold monitor_tick. destruct (negb (_ =? 0)); [|apply procs_kept_refl].
  destruct (hooked =? 0).
  - unfold SetBroadcastWindowHook. destruct (SetWindowProc _ _ _) as [ret ws1] eqn:E.
    assert (H1 : procs_kept ws ws1) by (change ws1 with (ret, ws1).2; rewrite <- E; apply SetWindowProc_keeps).
    cbn. destruct (broadcastHookEnabled _); [eapply procs_kept_trans; [exact H1|apply pin_effects_keep]|exact H1].
  - cbn. destruct (broadcastHookEnabled _); [apply pin_effects_keep|apply procs_kept_refl].
Qed.

Lemma pin_step_keeps s s' : pin_step s s' -> procs_kept s.2 s'.2.
Proof.
  intros Hs. destruct Hs as [p ws|p ws|p ws hooked Hm|p ws h Hev]; cbn; try apply procs_kept_refl.
  - unfold pin_tick. cbn. rewrite Hm. pose proof (monitor_tick_keeps hooked p ws) as Hk.
    destruct (monitor_tick hooked p ws) as [[? ?] ?]. exact Hk.
  - unfold winEventHook. destruct (_ && _); [apply pin_effects_keep|apply procs_kept_refl].
Qed.

(** whatever the user and the monitor do, a window of another
    process keeps its window procedure: [SetWindowLongW(GWL_WNDPROC)] is
    refused for it, so the agent's broadcast window is never subclassed
    (the spec says the monitor installs the subclass the first time it
    sees the window). *)
Theorem foreign_window_never_subclassed s s' h w :
  rtc pin_step s s' -> find_win h s.2 = Some w -> ours w = false ->
  exists w', find_win h s'.2 = Some w' /\ wndproc w' = wndproc w.
Proof.
  intros Hr. revert w. induction Hr as [s|s1 s2 s3 H12 H23 IH]; intros w Hw Ho; [eauto|].
  destruct (pin_step_keeps _ _ H12 h w Hw Ho) as (w2 & H2 & Ho2 & Hp2).
  destruct (IH w2 H2 Ho2) as (w3 & H3 & Hp3). exists w3. split; [exact H3|congruence].
Qed.

(** ** The no-activate style bit *)

Lemma WS_EX_NOACTIVATE_pow : WS_EX_NOACTIVATE = 2 ^ 27.
Proof. reflexivity. Qed.

(** C21: [SetWindowNoActivate] changes exactly bit 27 of a window's
    32-bit extended style: it is set when [noActivate] holds, cleared
    otherwise, and every other bit is kept. *)
Theorem SetWindowNoActivate_bits h w ws noActivate :
  find_win h ws = Some w -> 0 <= exstyle w < 2 ^ 32 ->
  exists w', find_win h (SetWindowNoActivate h noActivate ws).2 = Some w' /\
    forall n, Z.testbit (exstyle w') n = if n =? 27 then noActivate else Z.testbit (exstyle w) n.
Proof.
  intros Hw Hx. unfold SetWindowNoActivate, GetWindowExStyle, SetWindowExStyle. rewrite Hw. cbn [fst snd].
  rewrite find_update, Hw by reflexivity. eexists; split; [reflexivity|]. intros n. cbn [exstyle with_exstyle].
  destruct (Z.lt_ge_cases n 0) as [Hn|Hn].
  { rewrite !Z.testbit_neg_r by lia. rewrite (proj2 (Z.eqb_neq n 27)) by lia. reflexivity. }
  destruct (Z.lt_ge_cases n 32) as [Hl|Hl].
  - rewrite Z.mod_pow2_bits_low by lia. rewrite WS_EX_NOACTIVATE_pow.
    destruct noActivate; rewrite ?Z.lor_spec, ?Z.land_spec, ?Z.lnot_spec, Z.pow2_bits_eqb by lia;
      destruct (Z.eqb_spec 27 n), (Z.eqb_spec n 27); subst; try lia; cbn;
      rewrite ?orb_true_r, ?orb_false_r, ?andb_false_r, ?andb_true_r; reflexivity.
  - rewrite Z.mod_pow2_bits_high by lia. rewrite (proj2 (Z.eqb_neq n 27)) by lia.
    symmetry. apply Z.bits_above_log2; [lia|].
    destruct (Z.eq_dec (exstyle w) 0) as [->|Hz]; [cbn; lia|].
    pose proof (Z.log2_lt_pow2 (exstyle w) 32 ltac:(lia)). lia.
Qed.

(** ** The black-screen embed tears itself down *)

Lemma below_incl n l (hs : list Z) x : x ∈ hs -> x ∈ below n l hs.
Proof.
  revert hs. induction n as [|n IH]; intros hs Hx; [exact Hx|]. cbn. apply IH.
  apply elem_of_app. left. exact Hx.
Qed.

Lemma below_child n l (hs : list Z) c :
  In c l -> parent c ∈ hs -> hwnd c ∈ below (S n) l hs.
Proof.
  intros Hc Hp. cbn. apply below_incl. apply elem_of_app.
  destruct (decide (hwnd c ∈ hs)) as [Hin|Hout]; [left; exact Hin|right].
  apply list_elem_of_In, in_map, filter_In. split; [exact Hc|].
  rewrite !bool_decide_eq_true_2 by assumption. reflexivity.
Qed.

Lemma find_filter_gone h (gone : list Z) l :
  h ∈ gone -> List.find (fun w => hwnd w =? h) (List.filter (fun w => bool_decide (hwnd w ∉ gone)) l) = None.
Proof.
  intros Hh. induction l as [|u l IH]; [reflexivity|]. cbn.
  destruct (decide (hwnd u ∈ gone)) as [Hin|Hout].
  - rewrite bool_decide_eq_false_2 by (intros H; exact (H Hin)). exact IH.
  - rewrite bool_decide_eq_true_2 by exact Hout. cbn.
    destruct (Z.eqb_spec (hwnd u) h) as [E|_]; [rewrite E in Hout; contradiction|exact IH].
Qed.

Lemma FindWindowByTitle_none t ws :
  (forall u, In u (wins ws) -> parent u = 0 -> title u = t -> False) -> FindWindowByTitle t ws = 0.
Proof.
  unfold FindWindowByTitle. intros H. induction (wins ws) as [|u l IH]; [reflexivity|]. cbn.
  destruct (Z.eqb_spec (parent u) 0) as [Hp|Hp], (String.eqb_spec (title u) t) as [Ht|Ht]; cbn;
    try (exfalso; eapply H; [left; reflexivity|exact Hp|exact Ht]);
    apply IH; intros v Hv; apply H; right; exact Hv.
Qed.

Section BlackScreen.
Context (b : bscreen) (ws : winsys) (h : Z) (w : window) (t1 : Z).
Hypothesis Hon : blackScreenMinimizeEnabled b = true.
Hypothesis Hnone : embeddedBlackScreenWindow b = 0.
Hypothesis Hfind : FindWindowByTitle blackScreenTitle ws = h.
Hypothesis Hh : h <> 0.
Hypothesis Hw : find_win h ws = Some w.
Hypothesis Honly : forall u, In u (wins ws) -> parent u = 0 -> title u = blackScreenTitle -> hwnd u = h.
Hypothesis Hcreate : create_ok ws = true.
Hypothesis Hsetparent : setparent_ok ws = true.
Hypothesis Hfresh : find_win (next_hwnd ws) ws = None.
Hypothesis Hpos : next_hwnd ws <> 0.

Definition par_win : window :=
  {| hwnd := next_hwnd ws; title := parentTitle; parent := 0; wndproc := 0; exstyle := 0x80;
     at_bottom := false; minimized := true; ours := true; thread := t1 |}.

Definition ws_created : winsys :=
  {| wins := wins ws ++ [par_win]; next_hwnd := next_hwnd ws + 4; create_ok := create_ok ws;
     setparent_ok := setparent_ok ws; winevent_ok := winevent_ok ws; posted := posted ws |}.

Definition ws_embedded : winsys :=
  update_win (next_hwnd ws) to_minimized
    (update_win h (fun u => with_parent u (next_hwnd ws)) ws_created).

Lemma par_ne_h : next_hwnd ws <> h.
Proof. intros E. rewrite E, Hw in Hfresh. discriminate. Qed.

Lemma find_created_par : find_win (next_hwnd ws) ws_created = Some par_win.
Proof.
  unfold find_win, ws_created. cbn [wins]. rewrite find_app_none by exact Hfresh.
  cbn. rewrite Z.eqb_refl. reflexivity.
Qed.

Lemma create_eq : CreateBlackScreenParentWindow t1 ws = (next_hwnd ws, ws_created).
Proof. unfold CreateBlackScreenParentWindow, ws_created. rewrite Hcreate. reflexivity. Qed.

Lemma find_created_h : find_win h ws_created = Some w.
Proof. unfold find_win, ws_created. cbn [wins]. apply find_app_some, Hw. Qed.

Lemma first_bs_tick :
  blackscreen_tick t1 b ws =
    (set_bs_embedded (set_bs_parent b (next_hwnd ws)) h, ws_embedded).
Proof.
  unfold blackscreen_tick. rewrite Hon, Hfind, Hnone, (proj2 (Z.eqb_neq _ _) Hh), Z.eqb_refl.
  cbn [negb andb]. rewrite create_eq, (proj2 (Z.eqb_neq _ _) Hpos). cbn [negb].
  unfold SetParent. rewrite find_created_h.
  cbn [setparent_ok ws_created]. rewrite Hsetparent, find_created_par.
  cbn [andb]. rewrite orb_true_r. cbn -[update_win ws_created].
  unfold ShowWindow. rewrite find_update_other, find_created_par by (reflexivity || apply par_ne_h).
  reflexivity.
Qed.

Lemma embedded_h :
  exists u, find_win h ws_embedded = Some u /\ parent u = next_hwnd ws.
Proof.
  unfold ws_embedded. rewrite find_update_other by (reflexivity || (intros E; apply par_ne_h; auto)).
  rewrite find_update, find_created_h by reflexivity. eexists; split; reflexivity.
Qed.

Lemma embedded_not_found : FindWindowByTitle blackScreenTitle ws_embedded = 0.
Proof.
  apply FindWindowByTitle_none. intros u Hu Hp Ht. unfold ws_embedded, update_win in Hu. cbn in Hu.
  apply in_map_iff in Hu as (u1 & <- & Hu1). apply in_map_iff in Hu1 as (u0 & <- & Hu0).
  destruct (Z.eqb_spec (hwnd u0) h) as [E|E].
  - cbn in Hp. destruct (hwnd u0 =? next_hwnd ws); cbn in Hp; apply Hpos; exact Hp.
  - cbn in Hp, Ht. assert (Hp0 : parent u0 = 0 /\ title u0 = blackScreenTitle)
      by (destruct (hwnd u0 =? next_hwnd ws); cbn in Hp, Ht; auto).
    destruct Hp0 as [Hp0 Ht0]. apply in_app_or in Hu0 as [Hu0|[<-|[]]].
    + exact (E (Honly u0 Hu0 Hp0 Ht0)).
    + discriminate Ht0.
Qed.

Lemma find_embedded_par : exists u, find_win (next_hwnd ws) ws_embedded = Some u.
Proof.
  unfold ws_embedded. rewrite find_update by reflexivity.
  rewrite find_update_other, find_created_par by (reflexivity || apply par_ne_h). eexists; reflexivity.
Qed.

(** The hidden parent after the embed: still the one [t1] created. *)
Lemma find_embedded_par_thread : exists u, find_win (next_hwnd ws) ws_embedded = Some u /\ thread u = t1.
Proof.
  unfold ws_embedded. rewrite find_update by reflexivity.
  rewrite find_update_other, find_created_par by (reflexivity || apply par_ne_h). eexists; split; reflexivity.
Qed.

Lemma second_bs_tick t2 :
  let '(b2, ws2) := blackscreen_tick t2 (set_bs_embedded (set_bs_parent b (next_hwnd ws)) h) ws_embedded in
  embeddedBlackScreenWindow b2 = 0 /\ blackScreenParentWindow b2 = 0 /\
  (t2 = t1 -> find_win h ws2 = None) /\ (t2 <> t1 -> ws2 = ws_embedded).
Proof.
  unfold blackscreen_tick. cbn [blackScreenMinimizeEnabled embeddedBlackScreenWindow blackScreenParentWindow
    set_bs_embedded set_bs_parent]. rewrite Hon, embedded_not_found, Z.eqb_refl, (proj2 (Z.eqb_neq _ _) Hh).
  cbn [negb andb]. rewrite (proj2 (Z.eqb_neq _ _) Hpos). cbn [negb fst snd].
  split; [reflexivity|split; [reflexivity|]].
  unfold DestroyWindow. destruct find_embedded_par_thread as (pw & Hpw & Ht). rewrite Hpw, Ht.
  split; intros Ht2; [subst t2; rewrite Z.eqb_refl; cbn [negb snd]|rewrite (proj2 (Z.eqb_neq t1 t2)) by congruence; reflexivity].
  unfold find_win. cbn [wins set_wins]. apply find_filter_gone.
  destruct embedded_h as (u & Hu & Hpu).
  assert (Hin : In u (wins ws_embedded)) by (apply (find_some _ _ Hu)).
  assert (Hid : hwnd u = h) by (apply find_some in Hu as [_ Hu]; apply Z.eqb_eq, Hu).
  destruct (length (wins ws_embedded)) eqn:El; [destruct (wins ws_embedded); [contradiction|discriminate]|].
  rewrite <- Hid. apply below_child; [exact Hin|]. rewrite Hpu. left.
Qed.

(** C22: the embed of the black-screen window lasts one tick.  The first
    tick, on an OS thread [t1], reparents the window into a hidden parent
    that [t1] owns; [FindWindowW] only sees top-level windows, so the
    next tick, on a thread [t2], no longer finds it, takes it as gone,
    clears both handles and destroys the hidden parent.  When [t2] is
    [t1] this destroys the agent's black-screen window with it; on any
    other thread [DestroyWindow] is refused and the agent's window stays
    inside the hidden parent, which nothing tracks any more.  The spec
    says the embed is torn down only when the target disappears. *)
Theorem blackscreen_second_tick t2 :
  let '(b1, ws1) := blackscreen_ticks [t1] b ws in
  let '(b2, ws2) := blackscreen_ticks [t1; t2] b ws in
  embeddedBlackScreenWindow b1 = h /\ (exists u, find_win h ws1 = Some u /\ parent u = next_hwnd ws) /\
  embeddedBlackScreenWindow b2 = 0 /\ blackScreenParentWindow b2 = 0 /\
  (t2 = t1 -> find_win h ws2 = None) /\ (t2 <> t1 -> ws2 = ws1).
Proof.
  cbn [blackscreen_ticks]. rewrite first_bs_tick. cbn [blackscreen_ticks].
  pose proof (second_bs_tick t2) as H2. destruct (blackscreen_tick t2 _ ws_embedded) as [b2 ws2].
  split; [reflexivity|split; [exact embedded_h|exact H2]].
Qed.

(** C23: unchecking the box while the window is embedded makes the
    agent's window top-level again and clears both handles, but the
    handler runs on the UI thread and the hidden parent belongs to the
    monitor's thread [t1]: [DestroyWindow] is refused and the hidden
    window stays, with nothing left that refers to it. *)
Theorem blackscreen_uncheck_leaks_parent :
  t1 <> UI_THREAD ->
  let '(b1, ws1) := blackscreen_ticks [t1] b ws in
  let '(b', ws') := blackscreen_unchecked b1 ws1 in
  (exists u, find_win h ws' = Some u /\ parent u = 0) /\
  (exists pw, find_win (next_hwnd ws) ws' = Some pw /\ title pw = parentTitle) /\
  embeddedBlackScreenWindow b' = 0 /\ blackScreenParentWindow b' = 0 /\ bs_monitor b' = false.
Proof.
  intros Hui. cbn [blackscreen_ticks]. rewrite first_bs_tick. cbn [blackscreen_ticks].
  destruct embedded_h as (u & Hu & Hpu).
  assert (Hset : SetParent h 0 ws_embedded = (true, update_win h (fun u => with_parent u 0) ws_embedded)).
  { unfold SetParent. rewrite Hu. change (setparent_ok ws_embedded) with (setparent_ok ws).
    rewrite Hsetparent. reflexivity. }
  unfold blackscreen_unchecked.
  cbn [embeddedBlackScreenWindow blackScreenParentWindow set_bs_enabled set_bs_embedded set_bs_parent].
  rewrite (proj2 (Z.eqb_neq _ _) Hh). cbn [negb]. rewrite Hset. cbn [snd].
  cbn [embeddedBlackScreenWindow blackScreenParentWindow set_bs_enabled set_bs_embedded set_bs_parent].
  rewrite (proj2 (Z.eqb_neq _ _) Hpos). cbn [negb].
  set (ws2 := update_win h (fun u => with_parent u 0) ws_embedded).
  assert (Hp2 : find_win (next_hwnd ws) ws2 = Some par_win).
  { unfold ws2, ws_embedded. rewrite find_update_other by (reflexivity || apply par_ne_h).
    rewrite find_update by reflexivity. rewrite find_update_other, find_created_par by (reflexivity || apply par_ne_h).
    reflexivity. }
  unfold DestroyWindow. rewrite Hp2. cbn [thread par_win].
  rewrite (proj2 (Z.eqb_neq t1 UI_THREAD)) by exact Hui. cbn [negb snd].
  split; [|split; [|repeat split]].
  - unfold ws2. rewrite find_update, Hu by reflexivity. eexists; split; reflexivity.
  - eexists; split; [exact Hp2|reflexivity].
Qed.

End BlackScreen.

Lemma SetParent_refused c p ws : setparent_ok ws = false -> SetParent c p ws = (false, ws).
Proof. intros H. unfold SetParent. rewrite H. destruct (find_win c ws); reflexivity. Qed.

Lemma FindWindowByTitle_app t ws ws' l :
  wins ws' = wins ws ++ l -> FindWindowByTitle t ws <> 0 -> FindWindowByTitle t ws' = FindWindowByTitle t ws.
Proof.
  unfold FindWindowByTitle. intros E. rewrite E.
  destruct (List.find _ (wins ws)) eqn:F; [|contradiction]. rewrite (find_app_some _ _ _ _ F). reflexivity.
Qed.

Definition count_parents (ws : winsys) : nat :=
  length (List.filter (fun u => String.eqb (title u) parentTitle) (wins ws)).

Section Leak.
Context (b : bscreen) (ws : winsys) (t : Z).
Hypothesis Hon : blackScreenMinimizeEnabled b = true.
Hypothesis Hnone : embeddedBlackScreenWindow b = 0.
Hypothesis Hfound : FindWindowByTitle blackScreenTitle ws <> 0.
Hypothesis Hcreate : create_ok ws = true.
Hypothesis Hrefused : setparent_ok ws = false.
Hypothesis Hpos : 0 < next_hwnd ws.

Lemma leak_tick : blackscreen_tick t b ws = (set_bs_parent b (next_hwnd ws), ws_created ws t).
Proof.
  unfold blackscreen_tick. rewrite Hon, Hnone, (proj2 (Z.eqb_neq _ _) Hfound). cbn [negb andb].
  rewrite (create_eq ws t Hcreate), (proj2 (Z.eqb_neq (next_hwnd ws) 0)) by lia. cbn [negb].
  rewrite SetParent_refused by exact Hrefused. reflexivity.
Qed.

Lemma leak_created :
  FindWindowByTitle blackScreenTitle (ws_created ws t) <> 0 /\ create_ok (ws_created ws t) = true /\
  setparent_ok (ws_created ws t) = false /\ 0 < next_hwnd (ws_created ws t) /\
  count_parents (ws_created ws t) = S (count_parents ws) /\ next_hwnd (ws_created ws t) = next_hwnd ws + 4.
Proof.
  rewrite (FindWindowByTitle_app _ ws (ws_created ws t) [par_win ws t]) by (reflexivity || exact Hfound).
  cbn [create_ok setparent_ok next_hwnd ws_created]. unfold count_parents. cbn [wins ws_created].
  rewrite List.filter_app, length_app. cbn. repeat split; try assumption; lia.
Qed.
End Leak.

(** C24: when [SetParent] fails, every tick, on whatever OS thread,
    creates another hidden parent window and forgets the previous one:
    after [n] ticks [n] parent windows exist that nothing destroys, and
    only the last one is kept in [blackScreenParentWindow]. *)
Theorem blackscreen_parent_leak ts b ws :
  blackScreenMinimizeEnabled b = true -> embeddedBlackScreenWindow b = 0 ->
  FindWindowByTitle blackScreenTitle ws <> 0 -> create_ok ws = true -> setparent_ok ws = false ->
  0 < next_hwnd ws ->
  let '(b', ws') := blackscreen_ticks ts b ws in
  count_parents ws' = (count_parents ws + length ts)%nat /\ embeddedBlackScreenWindow b' = 0 /\
  ((0 < length ts)%nat -> blackScreenParentWindow b' = next_hwnd ws + 4 * (Z.of_nat (length ts) - 1)).
Proof.
  revert b ws. induction ts as [|t ts IH]; intros b ws Hon Hnone Hfound Hcreate Hrefused Hpos.
  - cbn. lia.
  - cbn [blackscreen_ticks]. rewrite leak_tick by assumption.
    destruct (leak_created ws t Hfound Hcreate Hrefused Hpos) as (F & C & R & P & Cnt & Nx).
    specialize (IH (set_bs_parent b (next_hwnd ws)) (ws_created ws t) Hon Hnone F C R P).
    destruct ts as [|t' ts].
    + cbn in *. lia.
    + destruct (blackscreen_ticks (t' :: ts) _ _) as [b' ws']. cbn [length] in *. lia.
Qed.

(** ** Concrete runs *)

(** The agent's broadcast window, in our process ([ours]) or not, and the
    black-screen window with nothing else on the desktop. *)
Definition bwin (own : bool) : window :=
  {| hwnd := 100; title := broadcastTitle; parent := 0; wndproc := 0x2000; exstyle := 0x100;
     at_bottom := false; minimized := false; ours := own; thread := 7000 |}.
Definition bswin : window :=
  {| hwnd := 100; title := blackScreenTitle; parent := 0; wndproc := 0x2000; exstyle := 0;
     at_bottom := false; minimized := false; ours := false; thread := 7000 |}.
Definition desk (l : list window) (setparent : bool) : winsys :=
  {| wins := l; next_hwnd := 200; create_ok := true; setparent_ok := setparent; winevent_ok := true;
     posted := [] |}.
Definition bs_on : bscreen :=
  {| blackScreenMinimizeEnabled := true; blackScreenParentWindow := 0; embeddedBlackScreenWindow := 0;
     bs_monitor := true |}.
Definition echo_agent (original hwnd msg wParam lParam : Z) : Z := msg + wParam.

Ltac win_solve := first [reflexivity | lia | discriminate | left; reflexivity | vm_compute; congruence |
                         cbn; lia | intros u [<-|[]]; reflexivity | intros u [<-|[]]; cbn; lia].

Lemma broadcastWindowHook_deactivation_witness :
  CallWindowProc 2 echo_agent 0x2000 HOOK_PROC 100 WM_NCACTIVATE 0 0 =
    Some (echo_agent 0x2000 100 WM_NCACTIVATE 0 0, []) /\
  CallWindowProc 2 echo_agent 0x2000 HOOK_PROC 100 WM_NCACTIVATE 1 0 = Some (0, []).
Proof. apply (broadcastWindowHook_deactivation echo_agent 0x2000 100 WM_NCACTIVATE 0 0); win_solve. Defined.

Lemma foreign_window_never_subclassed_witness :
  exists w', find_win 100 (pin_tick (pin_check (pin0, desk [bwin false] true))).2 = Some w' /\
             wndproc w' = wndproc (bwin false).
Proof.
  apply (foreign_window_never_subclassed (pin0, desk [bwin false] true) _ 100 (bwin false)); [|win_solve..].
  apply (rtc_l _ _ (pin_check (pin0, desk [bwin false] true))); [apply PinCheck; reflexivity|].
  apply rtc_once. apply (PinTick _ _ 0). reflexivity.
Defined.

Lemma SetWindowNoActivate_bits_witness :
  exists w', find_win 100 (SetWindowNoActivate 100 true (desk [bwin true] true)).2 = Some w' /\
    forall n, Z.testbit (exstyle w') n = if n =? 27 then true else Z.testbit (exstyle (bwin true)) n.
Proof. apply SetWindowNoActivate_bits; win_solve. Defined.

Lemma blackscreen_second_tick_witness :
  let '(b1, ws1) := blackscreen_ticks [2] bs_on (desk [bswin] true) in
  let '(b2, ws2) := blackscreen_ticks [2; 3] bs_on (desk [bswin] true) in
  embeddedBlackScreenWindow b1 = 100 /\
  (exists u, find_win 100 ws1 = Some u /\ parent u = next_hwnd (desk [bswin] true)) /\
  embeddedBlackScreenWindow b2 = 0 /\ blackScreenParentWindow b2 = 0 /\
  (3 = 2 -> find_win 100 ws2 = None) /\ (3 <> 2 -> ws2 = ws1).
Proof. apply (blackscreen_second_tick bs_on (desk [bswin] true) 100 bswin 2); win_solve. Defined.

Lemma blackscreen_uncheck_leaks_parent_witness :
  let '(b1, ws1) := blackscreen_ticks [2] bs_on (desk [bswin] true) in
  let '(b', ws') := blackscreen_unchecked b1 ws1 in
  (exists u, find_win 100 ws' = Some u /\ parent u = 0) /\
  (exists pw, find_win 200 ws' = Some pw /\ title pw = parentTitle) /\
  embeddedBlackScreenWindow b' = 0 /\ blackScreenParentWindow b' = 0 /\ bs_monitor b' = false.
Proof. apply (blackscreen_uncheck_leaks_parent bs_on (desk [bswin] true) 100 bswin 2); win_solve. Defined.

Lemma blackscreen_parent_leak_witness :
  let '(b', ws') := blackscreen_ticks [2; 3; 2] bs_on (desk [bswin] false) in
  count_parents ws' = 3%nat /\ embeddedBlackScreenWindow b' = 0 /\
  ((0 < 3)%nat -> blackScreenParentWindow b' = 200 + 4 * (Z.of_nat 3 - 1)).
Proof. apply (blackscreen_parent_leak [2; 3; 2] bs_on (desk [bswin] false)); win_solve. Defined.
