(* ===== verification/InputUnlock.v ===== *)
(** * InputUnlock: the mouse and keyboard unlock threads of main.go

    [StartMouseUnlock] / [StartKeyboardUnlock] (main.go 496-507,
    526-537) make a quit channel and start a native thread with
    [CreateThread]; the thread ([MouseHookThread], [KeyboardHookThread],
    main.go 379-493) loops: it polls the package-level quit channel, and
    otherwise installs global hooks, releases the input locks, sleeps and
    uninstalls the hooks.  [StopMouseUnlock] / [StopKeyboardUnlock]
    (main.go 510-523, 540-553) close the channel, set it to nil, unhook
    the recorded hook and terminate the thread.

    The UI thread and the unlock thread run concurrently.  The model is a
    step relation [ustep] on a [world]: the Go channels (a store of
    closed flags, nil being [None]), the package-level variables of one
    feature, the unlock thread with its program counter, where the UI
    thread is inside [Stop], and the kernel objects (hooks with the thread
    that owns them, open handles, requests sent to the keyboard filter
    driver).  A thread step is one iteration half: the [select] and the
    work up to the [Sleep], or the work after it.  Closing a closed
    channel sets [crashed] (the Go runtime panics). *)

From S2P Require Import Prelude.
From stdpp Require Import relations.
#[local] Open Scope Z_scope.

Module Unlock.

(** ** Kernel objects *)

Definition WH_KEYBOARD_LL : Z := 13.
Definition WH_MOUSE_LL : Z := 14.
Definition WH_KEYBOARD : Z := 2.
Definition INVALID_HANDLE_VALUE : Z := 2 ^ 64 - 1.

Record hook := { hk_handle : Z; hk_type : Z; hk_owner : Z }.

Record kernel := {
  hooks : list hook;          (** installed hooks *)
  next_handle : Z;            (** the next handle the kernel hands out *)
  hook_ok : bool;             (** [SetWindowsHookExW] succeeds *)
  thread_ok : bool;           (** [CreateThread] succeeds *)
  device_present : bool;      (** the device \\.\TDKeybd exists *)
  ioctls : nat;               (** [DeviceIoControl] requests sent to it *)
  handles : list Z;           (** open thread and file handles *)
  clips : nat                 (** [ClipCursor(NULL)] calls *)
}.

Definition set_hooks (k : kernel) (l : list hook) : kernel :=
  {| hooks := l; next_handle := next_handle k; hook_ok := hook_ok k; thread_ok := thread_ok k;
     device_present := device_present k; ioctls := ioctls k; handles := handles k; clips := clips k |}.
Definition set_handles (k : kernel) (l : list Z) (n : Z) : kernel :=
  {| hooks := hooks k; next_handle := n; hook_ok := hook_ok k; thread_ok := thread_ok k;
     device_present := device_present k; ioctls := ioctls k; handles := l; clips := clips k |}.
Definition add_ioctl (k : kernel) : kernel :=
  {| hooks := hooks k; next_handle := next_handle k; hook_ok := hook_ok k; thread_ok := thread_ok k;
     device_present := device_present k; ioctls := S (ioctls k); handles := handles k; clips := clips k |}.
Definition add_clip (k : kernel) : kernel :=
  {| hooks := hooks k; next_handle := next_handle k; hook_ok := hook_ok k; thread_ok := thread_ok k;
     device_present := device_present k; ioctls := ioctls k; handles := handles k; clips := S (clips k) |}.

(** [SetWindowsHookExW(type, HookProc, 0, 0)] called on thread [t]: a
    global hook with no module handle, which Windows accepts only for the
    low-level hook types (a [WH_KEYBOARD] hook fails with
    ERROR_HOOK_NEEDS_HMOD). *)
Definition SetWindowsHookEx (t ty : Z) (k : kernel) : Z * kernel :=
  if hook_ok k && ((ty =? WH_KEYBOARD_LL) || (ty =? WH_MOUSE_LL)) then
    let h := next_handle k in
    (h, set_hooks (set_handles k (handles k) (h + 4))
                  (hooks k ++ [{| hk_handle := h; hk_type := ty; hk_owner := t |}]))
  else (0, k).

Definition UnhookWindowsHookEx (h : Z) (k : kernel) : kernel :=
  set_hooks k (List.filter (fun x => negb (hk_handle x =? h)) (hooks k)).

(** A thread that ends takes its hooks with it. *)
Definition end_thread (t : Z) (k : kernel) : kernel :=
  set_hooks k (List.filter (fun x => negb (hk_owner x =? t)) (hooks k)).

Definition CloseHandle (h : Z) (k : kernel) : kernel :=
  set_handles k (List.filter (fun x => negb (x =? h)) (handles k)) (next_handle k).

(** [CreateFileW("\\.\TDKeybd", ...)]: a new handle, or
    [INVALID_HANDLE_VALUE] when the device does not exist. *)
Definition CreateFile (k : kernel) : Z * kernel :=
  if device_present k then
    let h := next_handle k in (h, set_handles k (handles k ++ [h]) (h + 4))
  else (INVALID_HANDLE_VALUE, k).

(** [CreateThread]: the thread's handle, or 0. *)
Definition CreateThread (k : kernel) : Z * kernel :=
  if thread_ok k then
    let h := next_handle k in (h, set_handles k (handles k ++ [h]) (h + 4))
  else (0, k).

(** ** The program *)

Inductive kind := Mouse | Keyboard.

(** Where the unlock thread is: before its [select], or holding the hooks
    of this iteration during the [Sleep] (the keyboard thread keeps its
    four hook handles in locals). *)
Inductive tpc := TSelect | TMouseHeld | TKeyHeld (h1 h2 h3 h4 : Z).

(** Where the UI thread is inside [Stop*Unlock]: at the channel close,
    at [quit = nil], at the unhook, at the [TerminateThread]. *)
Inductive upc := Idle | SClose | SNil | SUnhook | STerminate.

#[export] Instance kind_eq_dec : EqDecision kind.
Proof. solve_decision. Defined.
#[export] Instance tpc_eq_dec : EqDecision tpc.
Proof. solve_decision. Defined.
#[export] Instance upc_eq_dec : EqDecision upc.
Proof. solve_decision. Defined.

Record world := {
  chans : list bool;          (** Go channels: closed or not *)
  crashed : bool;             (** a close of a closed channel panicked *)
  enabled : bool;             (** [mouseUnlockEnabled] / [keyboardUnlockEnabled] *)
  quit : option nat;          (** [mouseHookQuit] / [keyboardHookQuit], [None] = nil *)
  hookHandle : Z;             (** [mouseHookHandle] / [keyboardHookHandle] *)
  hookThread : Z;             (** [mouseHookThread] / [keyboardHookThread] *)
  thr : option (Z * tpc);     (** the running unlock thread: its handle and position *)
  ui : upc;
  kern : kernel
}.

Definition set_chans (w : world) (x : list bool) : world :=
  {| chans := x; crashed := crashed w; enabled := enabled w; quit := quit w; hookHandle := hookHandle w;
     hookThread := hookThread w; thr := thr w; ui := ui w; kern := kern w |}.
Definition set_crashed (w : world) (x : bool) : world :=
  {| chans := chans w; crashed := x; enabled := enabled w; quit := quit w; hookHandle := hookHandle w;
     hookThread := hookThread w; thr := thr w; ui := ui w; kern := kern w |}.
Definition set_enabled (w : world) (x : bool) : world :=
  {| chans := chans w; crashed := crashed w; enabled := x; quit := quit w; hookHandle := hookHandle w;
     hookThread := hookThread w; thr := thr w; ui := ui w; kern := kern w |}.
Definition set_quit (w : world) (x : option nat) : world :=
  {| chans := chans w; crashed := crashed w; enabled := enabled w; quit := x; hookHandle := hookHandle w;
     hookThread := hookThread w; thr := thr w; ui := ui w; kern := kern w |}.
Definition set_hookHandle (w : world) (x : Z) : world :=
  {| chans := chans w; crashed := crashed w; enabled := enabled w; quit := quit w; hookHandle := x;
     hookThread := hookThread w; thr := thr w; ui := ui w; kern := kern w |}.
Definition set_hookThread (w : world) (x : Z) : world :=
  {| chans := chans w; crashed := crashed w; enabled := enabled w; quit := quit w; hookHandle := hookHandle w;
     hookThread := x; thr := thr w; ui := ui w; kern := kern w |}.
Definition set_thr (w : world) (x : option (Z * tpc)) : world :=
  {| chans := chans w; crashed := crashed w; enabled := enabled w; quit := quit w; hookHandle := hookHandle w;
     hookThread := hookThread w; thr := x; ui := ui w; kern := kern w |}.
Definition set_ui (w : world) (x : upc) : world :=
  {| chans := chans w; crashed := crashed w; enabled := enabled w; quit := quit w; hookHandle := hookHandle w;
     hookThread := hookThread w; thr := thr w; ui := x; kern := kern w |}.
Definition set_kern (w : world) (x : kernel) : world :=
  {| chans := chans w; crashed := crashed w; enabled := enabled w; quit := quit w; hookHandle := hookHandle w;
     hookThread := hookThread w; thr := thr w; ui := ui w; kern := x |}.

Ltac unfold_world :=
  unfold set_chans, set_crashed, set_enabled, set_quit, set_hookHandle, set_hookThread, set_thr,
    set_ui, set_kern.

(** [close(c)]: [None] is the runtime panic on a closed channel. *)
Definition close_chan (c : nat) (cs : list bool) : option (list bool) :=
  match cs !! c with
  | Some false => Some (<[c := true]> cs)
  | _ => None
  end.

(** The [case <-quit:] of the thread's [select] is ready: the channel the
    package-level variable holds now is closed (a nil channel is never
    ready). *)
Definition quit_ready (w : world) : bool :=
  match quit w with Some c => bool_decide (chans w !! c = Some true) | None => false end.

(** [StartMouseUnlock] / [StartKeyboardUnlock] (main.go 496-507,
    526-537). *)
Definition StartUnlock (w : world) : world :=
  let w := set_chans (set_quit w (Some (length (chans w)))) (chans w ++ [false]) in
  let '(thread, k) := CreateThread (kern w) in
  let w := set_hookThread (set_kern w k) thread in
  if thread =? 0 then w else set_thr w (Some (thread, TSelect)).

(** The check box handler (main.go 706-708, 720-722). *)
Definition unlock_checked (w : world) : world := StartUnlock (set_enabled w true).

(** The three blocks of [StopMouseUnlock] / [StopKeyboardUnlock]
    (main.go 510-523, 540-553). *)
Definition stop_unhook (w : world) : world :=
  if negb (hookHandle w =? 0)
  then set_hookHandle (set_kern w (UnhookWindowsHookEx (hookHandle w) (kern w))) 0
  else w.

Definition TerminateThread (t : Z) (w : world) : world :=
  let w := set_kern w (end_thread t (kern w)) in
  match thr w with Some (t', _) => if t' =? t then set_thr w None else w | None => w end.

Definition stop_terminate (w : world) : world :=
  if negb (hookThread w =? 0) then set_hookThread (TerminateThread (hookThread w) w) 0 else w.

Definition StopUnlock (w : world) : option world :=
  w ← match quit w with
       | Some c => cs ← close_chan c (chans w); Some (set_quit (set_chans w cs) None)
       | None => Some w
       end;
  Some (stop_terminate (stop_unhook w)).

(** The same function as the UI thread runs it, one block at a time, so
    that the unlock thread can run in between. *)
Definition stop_begin (w : world) : world := set_ui (set_enabled w false) SClose.

Definition stop_step (w : world) : world :=
  match ui w with
  | SClose =>
      match quit w with
      | Some c =>
          match close_chan c (chans w) with
          | Some cs => set_ui (set_chans w cs) SNil
          | None => set_ui (set_crashed w true) Idle
          end
      | None => set_ui w SUnhook
      end
  | SNil => set_ui (set_quit w None) SUnhook
  | SUnhook => set_ui (stop_unhook w) STerminate
  | STerminate => set_ui (stop_terminate w) Idle
  | Idle => w
  end.

(** One iteration of [MouseHookThread] (main.go 379-408) up to the
    [Sleep]: install the low-level mouse hook, record it, [ClipCursor(NULL)]. *)
Definition mouse_body (t : Z) (w : world) : world :=
  let '(hk, k) := SetWindowsHookEx t WH_MOUSE_LL (kern w) in
  let w := set_kern w (add_clip k) in
  let w := if negb (hk =? 0) then set_hookHandle w hk else w in
  set_thr w (Some (t, TMouseHeld)).

(** After the [Sleep]: unhook the hook the package-level variable holds. *)
Definition mouse_release (t : Z) (w : world) : world :=
  set_thr (stop_unhook w) (Some (t, TSelect)).

(** One iteration of [KeyboardHookThread] (main.go 411-493) up to the
    [Sleep]: four hooks, [hook1] recorded, then the request to the filter
    driver when the device opens. *)
Definition key_body (t : Z) (w : world) : world :=
  let '(h1, k) := SetWindowsHookEx t WH_KEYBOARD_LL (kern w) in
  let '(h2, k) := SetWindowsHookEx t WH_KEYBOARD_LL k in
  let '(h3, k) := SetWindowsHookEx t WH_KEYBOARD k in
  let '(h4, k) := SetWindowsHookEx t WH_KEYBOARD k in
  let w := if negb (h1 =? 0) then set_hookHandle w h1 else w in
  let '(device, k) := CreateFile k in
  let k := if negb (device =? 0) && negb (device =? INVALID_HANDLE_VALUE)
           then CloseHandle device (add_ioctl k) else k in
  set_thr (set_kern w k) (Some (t, TKeyHeld h1 h2 h3 h4)).

Definition unhook_if (h : Z) (k : kernel) : kernel :=
  if negb (h =? 0) then UnhookWindowsHookEx h k else k.

(** After the [Sleep]: unhook the four locals, clear the variable. *)
Definition key_release (t h1 h2 h3 h4 : Z) (w : world) : world :=
  let k := unhook_if h4 (unhook_if h3 (unhook_if h2 (unhook_if h1 (kern w)))) in
  set_thr (set_hookHandle (set_kern w k) 0) (Some (t, TSelect)).

(** One step of the unlock thread: the [select] returns when the quit
    channel is closed (the thread ends, its handle stays open), and
    otherwise runs the [default] branch. *)
Definition thread_step (kd : kind) (w : world) : world :=
  match thr w with
  | Some (t, TSelect) =>
      if quit_ready w then set_kern (set_thr w None) (end_thread t (kern w))
      else match kd with Mouse => mouse_body t w | Keyboard => key_body t w end
  | Some (t, TMouseHeld) => mouse_release t w
  | Some (t, TKeyHeld h1 h2 h3 h4) => key_release t h1 h2 h3 h4 w
  | None => w
  end.

(** The interleavings: the user checks the box (only from unchecked), the
    UI thread enters [Stop*Unlock] (unchecking the box or closing the main
    window, main.go 780-787, which calls it whatever the box shows) or
    runs its next block, or the unlock thread steps. *)
Inductive ustep (kd : kind) : world -> world -> Prop :=
  | UCheck w : ui w = Idle -> enabled w = false -> ustep kd w (unlock_checked w)
  | UStop w : ui w = Idle -> ustep kd w (stop_begin w)
  | UStopStep w : ui w <> Idle -> ustep kd w (stop_step w)
  | UThread w t pc : thr w = Some (t, pc) -> ustep kd w (thread_step kd w).

(** The program's start: no channel, no thread, none of its hooks. *)
Definition init (k : kernel) : world :=
  {| chans := []; crashed := false; enabled := false; quit := None; hookHandle := 0; hookThread := 0;
     thr := None; ui := Idle; kern := set_hooks k [] |}.

(** [Stop*Unlock] run by the UI thread with no step of the unlock thread
    in between. *)
Definition stop_run (w : world) : world := stop_step (stop_step (stop_step (stop_step w))).

(** Unchecking the box (main.go 709-711, 723-725). *)
Definition unlock_unchecked (w : world) : option world := StopUnlock (set_enabled w false).

(** [n] check/uncheck cycles of the box with no step of the thread. *)
Fixpoint cycles (n : nat) (w : world) : option world :=
  match n with
  | O => Some w
  | S n => w' ← unlock_unchecked (unlock_checked w); cycles n w'
  end.

(** ** Invariant of the interleavings *)

Record Inv (w : world) : Prop := {
  inv_crash : crashed w = false;
  inv_quit : forall c, quit w = Some c ->
               (c < length (chans w))%nat /\ (chans w !! c = Some true <-> ui w = SNil);
  inv_nil : ui w = SNil -> quit w <> None;
  inv_thr : forall t pc, thr w = Some (t, pc) -> hookThread w = t /\ t <> 0;
  inv_hooks : forall x, In x (hooks (kern w)) -> exists pc, thr w = Some (hk_owner x, pc);
  inv_stopping : ui w <> Idle -> enabled w = false;
  inv_idle : ui w = Idle -> enabled w = false -> thr w = None
}.

(** The hooks of [k'] are those of [k] or hooks of thread [t]. *)
Definition hooks_from (t : Z) (k k' : kernel) : Prop :=
  forall x, In x (hooks k') -> In x (hooks k) \/ hk_owner x = t.

Lemma hooks_from_refl t k : hooks_from t k k.
Proof. intros x Hx. left. exact Hx. Qed.

Lemma hooks_from_trans t k1 k2 k3 : hooks_from t k1 k2 -> hooks_from t k2 k3 -> hooks_from t k1 k3.
Proof. intros H12 H23 x Hx. destruct (H23 x Hx) as [H|H]; [apply H12, H|right; exact H]. Qed.

Lemma hooks_from_SetWindowsHookEx t ty k : hooks_from t k (SetWindowsHookEx t ty k).2.
Proof.
  unfold SetWindowsHookEx. case_match; [|apply hooks_from_refl].
  intros x Hx. cbn in Hx. apply in_app_or in Hx as [Hx|[<-|[]]]; [left; exact Hx|right; reflexivity].
Qed.

Lemma hooks_from_filter t k f : hooks_from t k (set_hooks k (List.filter f (hooks k))).
Proof. intros x Hx. left. cbn in Hx. apply filter_In in Hx. apply Hx. Qed.

Lemma hooks_from_unhook_if t h k : hooks_from t k (unhook_if h k).
Proof. unfold unhook_if. case_match; [apply hooks_from_filter|apply hooks_from_refl]. Qed.

Lemma hooks_from_eq t k k' : hooks k' = hooks k -> hooks_from t k k'.
Proof. intros E x Hx. left. rewrite <- E. exact Hx. Qed.

Lemma hooks_CreateFile k : hooks (CreateFile k).2 = hooks k.
Proof. unfold CreateFile. case_match; reflexivity. Qed.

Lemma hooks_from_hook_eq t ty k h k' : SetWindowsHookEx t ty k = (h, k') -> hooks_from t k k'.
Proof. intros E. change k' with (h, k').2. rewrite <- E. apply hooks_from_SetWindowsHookEx. Qed.

#[export] Hint Resolve hooks_from_refl hooks_from_SetWindowsHookEx hooks_from_filter
  hooks_from_unhook_if : mythgone.

Section ThreadSteps.
Context (w w' : world) (t : Z) (pc pc' : tpc).
Hypothesis HI : Inv w.
Hypothesis Ht : thr w = Some (t, pc).

(** A step of the running thread that keeps it running and only touches
    its hooks, the hook variable and the kernel keeps the invariant. *)
Lemma thread_local_inv :
  chans w' = chans w -> crashed w' = crashed w -> quit w' = quit w -> ui w' = ui w ->
  enabled w' = enabled w -> hookThread w' = hookThread w -> thr w' = Some (t, pc') ->
  hooks_from t (kern w) (kern w') -> Inv w'.
Proof.
  intros Hc Hcr Hq Hu He Hht Ht' Hk. destruct HI as [I1 I2 I3 I4 I5 I6 I7].
  split; rewrite ?Hc, ?Hcr, ?Hq, ?Hu, ?He, ?Hht, ?Ht'; auto.
  - intros t1 pc1 [= <- <-]. exact (I4 t pc Ht).
  - intros x Hx. destruct (Hk x Hx) as [Hin|Ho].
    + destruct (I5 x Hin) as [pc1 Hpc1]. rewrite Ht in Hpc1. injection Hpc1 as <- _. eauto.
    + rewrite Ho. eauto.
  - intros Hi He'. rewrite (I7 Hi He') in Ht. discriminate.
Qed.

(** The thread ends: it takes its hooks with it. *)
Lemma thread_exit_inv : Inv (set_kern (set_thr w None) (end_thread t (kern w))).
Proof.
  destruct HI as [I1 I2 I3 I4 I5 I6 I7]. split; cbn; auto; [discriminate|].
  intros x Hx. apply filter_In in Hx as [Hx Ho]. destruct (I5 x Hx) as [pc1 Hpc1].
  rewrite Ht in Hpc1. injection Hpc1 as -> _. rewrite Z.eqb_refl in Ho. discriminate.
Qed.
End ThreadSteps.

Ltac thread_local := eapply thread_local_inv; [eassumption|eassumption|..]; try reflexivity.

Lemma thread_step_inv kd w t pc : Inv w -> thr w = Some (t, pc) -> Inv (thread_step kd w).
Proof.
  intros HI Ht. unfold thread_step. rewrite Ht. destruct pc as [| |h1 h2 h3 h4].
  - destruct (quit_ready w); [exact (thread_exit_inv w t _ HI Ht)|]. destruct kd.
    + unfold mouse_body. destruct (SetWindowsHookEx t WH_MOUSE_LL (kern w)) as [hk k] eqn:E.
      assert (Hk : hooks_from t (kern w) k) by exact (hooks_from_hook_eq _ _ _ _ _ E).
      destruct (negb (hk =? 0)); thread_local; exact Hk.
    + unfold key_body.
      destruct (SetWindowsHookEx t WH_KEYBOARD_LL (kern w)) as [h1 k1] eqn:E1.
      destruct (SetWindowsHookEx t WH_KEYBOARD_LL k1) as [h2 k2] eqn:E2.
      destruct (SetWindowsHookEx t WH_KEYBOARD k2) as [h3 k3] eqn:E3.
      destruct (SetWindowsHookEx t WH_KEYBOARD k3) as [h4 k4] eqn:E4.
      assert (Hk : hooks_from t (kern w) k4).
      { apply (hooks_from_trans _ _ k3); [|exact (hooks_from_hook_eq _ _ _ _ _ E4)].
        apply (hooks_from_trans _ _ k2); [|exact (hooks_from_hook_eq _ _ _ _ _ E3)].
        apply (hooks_from_trans _ _ k1); [exact (hooks_from_hook_eq _ _ _ _ _ E1)|].
        exact (hooks_from_hook_eq _ _ _ _ _ E2). }
      destruct (CreateFile k4) as [d k5] eqn:E5.
      assert (Hk5 : hooks k5 = hooks k4) by (change k5 with (d, k5).2; rewrite <- E5; apply hooks_CreateFile).
      destruct (negb (h1 =? 0)), (negb (d =? 0) && negb (d =? INVALID_HANDLE_VALUE)); thread_local;
        (apply (hooks_from_trans _ _ k4); [exact Hk|apply hooks_from_eq; exact Hk5]).
  - unfold mouse_release, stop_unhook. destruct (negb (hookHandle w =? 0)); thread_local;
    unfold UnhookWindowsHookEx; cbn [kern set_thr set_hookHandle set_kern]; auto with mythgone.
  - unfold key_release. thread_local.
    repeat (eapply hooks_from_trans; [|apply hooks_from_unhook_if]). apply hooks_from_refl.
Qed.

(** With no thread running, none of the program's hooks is installed. *)
Lemma no_thread_no_hooks w : Inv w -> thr w = None -> forall x, ~ In x (hooks (kern w)).
Proof. intros HI Hn x Hx. destruct (inv_hooks _ HI x Hx) as [pc Hpc]. congruence. Qed.

Lemma checked_inv w : Inv w -> ui w = Idle -> enabled w = false -> Inv (unlock_checked w).
Proof.
  intros HI Hu He. pose proof (inv_idle _ HI Hu He) as Hn. pose proof (no_thread_no_hooks _ HI Hn) as Hh.
  destruct HI as [I1 I2 I3 I4 I5 I6 I7].
  unfold unlock_checked, StartUnlock, CreateThread. cbn [kern set_enabled set_chans set_quit].
  destruct (thread_ok (kern w)); [destruct (next_handle (kern w) =? 0) eqn:E|];
    split; cbn; rewrite ?Hu, ?Hn; try discriminate; auto;
    try solve [intros c [= <-]; rewrite length_app, lookup_app_r, Nat.sub_diag by lia; cbn; split;
               [lia|split; discriminate]];
    try solve [intros x Hx; exfalso; exact (Hh x Hx)].
  all: try (intros H; contradiction).
  intros t pc [= <- <-]. split; [reflexivity|]. apply Z.eqb_neq. exact E.
Qed.

Lemma stop_begin_inv w : Inv w -> ui w = Idle -> Inv (stop_begin w).
Proof.
  intros [I1 I2 I3 I4 I5 I6 I7] Hu. split; cbn; auto; try discriminate.
  intros c Hc. destruct (I2 c Hc) as [Hl Hiff]. rewrite Hu in Hiff. split; [exact Hl|].
  split; [intros H; apply Hiff in H; discriminate|discriminate].
Qed.

(** The quit channel is open whenever the UI thread is not between the
    close and [quit = nil]. *)
Lemma quit_open w c : Inv w -> quit w = Some c -> ui w <> SNil -> chans w !! c = Some false.
Proof.
  intros HI Hq Hu. destruct (inv_quit _ HI c Hq) as [Hl Hiff].
  destruct (lookup_lt_is_Some_2 _ _ Hl) as [[|] Hb]; [|exact Hb].
  exfalso. apply Hu, Hiff, Hb.
Qed.

Lemma stop_terminate_inv w : Inv w -> ui w = STerminate -> Inv (set_ui (stop_terminate w) Idle).
Proof.
  intros HI Hu. pose proof (inv_stopping _ HI ltac:(congruence)) as He.
  destruct HI as [I1 I2 I3 I4 I5 I6 I7]. unfold stop_terminate, TerminateThread.
  destruct (thr w) as [[t pc]|] eqn:Ht.
  - destruct (I4 t pc eq_refl) as [<- Ht0]. rewrite (proj2 (Z.eqb_neq _ _) Ht0). cbn [negb thr set_kern].
    rewrite Ht, Z.eqb_refl. cbn.
    split; cbn; auto; try discriminate.
    + intros c Hc. destruct (I2 c Hc) as [Hl Hiff]. rewrite Hu in Hiff. split; [exact Hl|].
      split; [intros H; apply Hiff in H; discriminate|discriminate].
    + intros x Hx. apply filter_In in Hx as [Hx Ho]. destruct (I5 x Hx) as [pc1 Hpc1].
      injection Hpc1 as Hpc1 _. rewrite Hpc1, Z.eqb_refl in Ho. discriminate.
  - assert (Hh : forall x, ~ In x (hooks (kern w))) by (intros x Hx; destruct (I5 x Hx); congruence).
    cbn [thr set_kern]. rewrite Ht.
    destruct (negb (hookThread w =? 0)); cbn; split; cbn; rewrite ?Ht; auto; try discriminate;
      try (intros c Hc; destruct (I2 c Hc) as [Hl Hiff]; rewrite Hu in Hiff; split; [exact Hl|];
           split; [intros H; apply Hiff in H; discriminate|discriminate]);
      try (intros ? ? [=]); intros x Hx; exfalso;
      rewrite ?filter_In in Hx; (exact (Hh x Hx) || exact (Hh x (proj1 Hx))).
Qed.

Lemma stop_step_inv w : Inv w -> ui w <> Idle -> Inv (stop_step w).
Proof.
  intros HI Hu. unfold stop_step. destruct (ui w) eqn:Hui; [congruence| | | |].
  - destruct (quit w) as [c|] eqn:Hq.
    + unfold close_chan. rewrite (quit_open w c HI Hq ltac:(congruence)).
      destruct HI as [I1 I2 I3 I4 I5 I6 I7]. split; cbn; rewrite ?Hq; auto; try discriminate; try (intros _; apply I6; congruence).
      intros c' [= <-]. destruct (I2 c Hq) as [Hl _]. rewrite length_insert, list_lookup_insert_eq by exact Hl.
      split; [exact Hl|split; reflexivity].
    + destruct HI as [I1 I2 I3 I4 I5 I6 I7]. split; cbn; rewrite ?Hq; auto; try discriminate; try (intros _; apply I6; congruence).
  - destruct HI as [I1 I2 I3 I4 I5 I6 I7]. split; cbn; auto; try discriminate; try (intros _; apply I6; congruence).
  - destruct HI as [I1 I2 I3 I4 I5 I6 I7]. unfold stop_unhook.
    destruct (negb (hookHandle w =? 0)); split; cbn; auto; try discriminate; try (intros _; apply I6; congruence);
      try (intros c Hc; destruct (I2 c Hc) as [Hl Hiff]; rewrite Hui in Hiff; split; [exact Hl|];
           split; [intros H; apply Hiff in H; discriminate|discriminate]).
    intros x Hx. apply filter_In in Hx as [Hx _]. exact (I5 x Hx).
  - exact (stop_terminate_inv w HI Hui).
Qed.

Lemma init_inv k : Inv (init k).
Proof. split; cbn; try discriminate; try contradiction; auto. Qed.

Lemma ustep_inv kd w w' : Inv w -> ustep kd w w' -> Inv w'.
Proof.
  intros HI Hs. destruct Hs as [w Hu He|w Hu|w Hu|w t pc Ht].
  - exact (checked_inv w HI Hu He).
  - exact (stop_begin_inv w HI Hu).
  - exact (stop_step_inv w HI Hu).
  - exact (thread_step_inv kd w t pc HI Ht).
Qed.

Lemma reach_inv kd k w : rtc (ustep kd) (init k) w -> Inv w.
Proof.
  intros Hr. remember (init k) as w0 eqn:E. pose proof (init_inv k) as H0. rewrite <- E in H0. clear E.
  induction Hr as [w|w1 w2 w3 H12 H23 IH]; [exact H0|]. exact (IH (ustep_inv kd w1 w2 H0 H12)).
Qed.

(** C25: whatever the order in which the UI thread and the unlock thread
    run, and however often [Stop*Unlock] runs (the box unchecked, the main
    window closed after it), no [close] ever panics: the quit channel is
    closed only once, because [Stop] sets the variable to nil. *)
Theorem unlock_never_panics kd k w : rtc (ustep kd) (init k) w -> crashed w = false.
Proof. intros Hr. exact (inv_crash _ (reach_inv kd k w Hr)). Qed.

(** C26: the unlock thread can leave its loop through the quit channel
    only while the UI thread is between [close(quit)] and [quit = nil];
    at every other moment the [select] sees an open or a nil channel, so
    the thread is stopped by [TerminateThread], not by the cooperative
    signal the spec describes. *)
Theorem unlock_quit_seen_only_mid_stop kd k w t :
  rtc (ustep kd) (init k) w -> thr w = Some (t, TSelect) -> quit_ready w = true -> ui w = SNil.
Proof.
  intros Hr _ Hq. pose proof (reach_inv kd k w Hr) as HI. unfold quit_ready in Hq.
  destruct (quit w) as [c|] eqn:Hc; [|discriminate].
  apply bool_decide_eq_true in Hq. exact (proj1 (proj2 (inv_quit _ HI c Hc)) Hq).
Qed.

Lemma idle_clean w : Inv w -> ui w = Idle -> enabled w = false -> thr w = None /\ hooks (kern w) = [].
Proof.
  intros HI Hu He. pose proof (inv_idle _ HI Hu He) as Hn.
  split; [exact Hn|]. destruct (hooks (kern w)) as [|x l] eqn:E; [reflexivity|].
  exfalso. apply (no_thread_no_hooks w HI Hn x). rewrite E. left. reflexivity.
Qed.

(** C27: once [Stop*Unlock] has returned and the box is unchecked, the
    unlock thread is gone and none of its hooks is installed, in every
    interleaving. *)
Theorem unlock_stop_releases kd k w :
  rtc (ustep kd) (init k) w -> ui w = Idle -> enabled w = false -> thr w = None /\ hooks (kern w) = [].
Proof. intros Hr. exact (idle_clean w (reach_inv kd k w Hr)). Qed.

(** A kernel where every call succeeds and the filter device is absent. *)
Definition k_ok : kernel :=
  {| hooks := []; next_handle := 100; hook_ok := true; thread_ok := true; device_present := false;
     ioctls := 0; handles := []; clips := 0 |}.

Ltac ui_step := first [ apply UCheck; reflexivity | apply UStop; reflexivity
                      | apply UStopStep; vm_compute; discriminate ].
Ltac thread_run := eapply UThread; vm_compute; reflexivity.

(** C28: [Stop*Unlock] can return with a hook handle recorded in the
    package-level variable: the thread installs a hook after the UI
    thread's unhook block and before its [TerminateThread].  The thread's
    end releases the hook, so the variable names a hook that no longer
    exists, and the next [Stop] unhooks that stale handle. *)
Example unlock_stale_hook_handle :
  exists w, rtc (ustep Mouse) (init k_ok) w /\ ui w = Idle /\ enabled w = false /\
            hookHandle w <> 0 /\ hooks (kern w) = [].
Proof.
  eexists. split.
  - eapply rtc_l; [ui_step|]. (* the box is checked: thread 100 starts *)
    eapply rtc_l; [ui_step|]. (* the box is unchecked: Stop begins *)
    eapply rtc_l; [ui_step|]. (* close(quit) *)
    eapply rtc_l; [ui_step|]. (* quit = nil *)
    eapply rtc_l; [ui_step|]. (* no hook recorded yet: nothing to unhook *)
    eapply rtc_l; [thread_run|]. (* the thread's select: hook 104 installed and recorded *)
    eapply rtc_l; [ui_step|]. (* TerminateThread *)
    apply rtc_refl.
  - vm_compute. repeat split; discriminate.
Qed.

(** [set_ui] commutes with the blocks of [Stop], which do not read it. *)
Lemma stop_unhook_ui w u : stop_unhook (set_ui w u) = set_ui (stop_unhook w) u.
Proof. unfold stop_unhook. cbn. case_match; reflexivity. Qed.

Lemma stop_terminate_ui w u : stop_terminate (set_ui w u) = set_ui (stop_terminate w) u.
Proof.
  unfold stop_terminate, TerminateThread. cbn. case_match; [|reflexivity].
  destruct (thr w) as [[t' ?]|]; cbn; [case_match|]; reflexivity.
Qed.

Lemma set_ui_ui w u u' : set_ui (set_ui w u) u' = set_ui w u'.
Proof. reflexivity. Qed.
Lemma set_ui_same w : set_ui w (ui w) = w.
Proof. destruct w; reflexivity. Qed.
Lemma set_ui_idle w : ui w = Idle -> set_ui w Idle = w.
Proof. intros <-. apply set_ui_same. Qed.
Lemma set_chans_ui w u cs : set_chans (set_ui w u) cs = set_ui (set_chans w cs) u.
Proof. reflexivity. Qed.
Lemma set_quit_ui w u q : set_quit (set_ui w u) q = set_ui (set_quit w q) u.
Proof. reflexivity. Qed.
Lemma set_crashed_ui w u b : set_crashed (set_ui w u) b = set_ui (set_crashed w b) u.
Proof. reflexivity. Qed.

Lemma ui_stop_unhook w : ui (stop_unhook w) = ui w.
Proof. unfold stop_unhook. case_match; reflexivity. Qed.
Lemma ui_stop_terminate w : ui (stop_terminate w) = ui w.
Proof.
  unfold stop_terminate, TerminateThread. case_match; [|reflexivity].
  cbn. destruct (thr w) as [[t' ?]|]; cbn; [case_match|]; reflexivity.
Qed.

Create Rewrite HintDb unlock_ui.
#[export] Hint Rewrite stop_unhook_ui stop_terminate_ui set_ui_ui set_chans_ui set_quit_ui
  set_crashed_ui : unlock_ui.

(** the UI thread's block-by-block [Stop] refines the Go function:
    run without a step of the unlock thread in between, the four blocks
    give the world [StopUnlock] returns after the box is unchecked, and
    they reach the crashed state exactly when [StopUnlock] panics. *)
Theorem stop_run_refines w :
  ui w = Idle ->
  match unlock_unchecked w with
  | Some w' => stop_run (stop_begin w) = w'
  | None => crashed (stop_run (stop_begin w)) = true
  end.
Proof.
  intros Hu. unfold unlock_unchecked, StopUnlock, stop_run, stop_begin.
  cbn [stop_step ui set_ui quit set_enabled chans].
  destruct (quit w) as [c|]; cbn [mbind option_bind];
    [destruct (close_chan c (chans w)) as [cs|]; cbn [stop_step ui set_ui crashed set_crashed]|].
  all: cbv [mbind option_bind]; cbn [stop_step ui set_ui crashed set_crashed];
    autorewrite with unlock_ui; try reflexivity.
  all: apply set_ui_idle; rewrite ui_stop_terminate, ui_stop_unhook; exact Hu.
Qed.

Definition add_hook (k : kernel) (t ty : Z) : kernel :=
  set_hooks (set_handles k (handles k) (next_handle k + 4))
            (hooks k ++ [{| hk_handle := next_handle k; hk_type := ty; hk_owner := t |}]).

Lemma hook_ll t k : hook_ok k = true -> SetWindowsHookEx t WH_KEYBOARD_LL k = (next_handle k, add_hook k t WH_KEYBOARD_LL).
Proof. intros H. unfold SetWindowsHookEx. rewrite H. reflexivity. Qed.

Lemma hook_kb t k : SetWindowsHookEx t WH_KEYBOARD k = (0, k).
Proof. unfold SetWindowsHookEx. rewrite andb_false_r. reflexivity. Qed.

Lemma filter_fresh_hooks (l : list hook) n (extra : list hook) :
  (forall x, In x l -> hk_handle x < n) ->
  List.filter (fun x => negb (hk_handle x =? n + 4)) (List.filter (fun x => negb (hk_handle x =? n)) (l ++ extra))
  = l ++ List.filter (fun x => negb (hk_handle x =? n + 4)) (List.filter (fun x => negb (hk_handle x =? n)) extra).
Proof.
  intros Hl. rewrite !List.filter_app. f_equal.
  rewrite !filter_all_true; [reflexivity| |];
    intros x Hx; try (apply filter_In in Hx as [Hx _]); apply negb_true_iff, Z.eqb_neq;
    specialize (Hl x Hx); lia.
Qed.

Lemma unhook_two_fresh (l : list hook) n t :
  (forall x, In x l -> hk_handle x < n) ->
  List.filter (fun x => negb (hk_handle x =? n + 4))
    (List.filter (fun x => negb (hk_handle x =? n))
       ((l ++ [{| hk_handle := n; hk_type := WH_KEYBOARD_LL; hk_owner := t |}]) ++
        [{| hk_handle := n + 4; hk_type := WH_KEYBOARD_LL; hk_owner := t |}])) = l.
Proof.
  intros Hl. rewrite <- app_assoc, filter_fresh_hooks by exact Hl.
  cbn. rewrite Z.eqb_refl. cbn. rewrite (proj2 (Z.eqb_neq (n + 4) n)) by lia. cbn.
  rewrite Z.eqb_refl. apply app_nil_r.
Qed.

Lemma filter_fresh_one (l : list Z) n :
  (forall h, In h l -> h < n) -> List.filter (fun x => negb (x =? n)) (l ++ [n]) = l.
Proof.
  intros Hl. rewrite List.filter_app, filter_all_true.
  - cbn. rewrite Z.eqb_refl. apply app_nil_r.
  - intros h Hh. apply negb_true_iff, Z.eqb_neq. specialize (Hl h Hh). lia.
Qed.

(** C29: one iteration of [KeyboardHookThread] while the quit channel is
    open installs two hooks, both [WH_KEYBOARD_LL]: the two [WH_KEYBOARD]
    calls have no module handle and always fail.  It records the first
    hook, sends one request to the filter driver when the device exists
    and closes the device handle, and after the [Sleep] it removes both
    hooks and clears the variable: the kernel's hooks and handles are
    back to what they were. *)
Theorem key_iteration w t :
  thr w = Some (t, TSelect) -> quit_ready w = false -> hook_ok (kern w) = true ->
  (forall x, In x (hooks (kern w)) -> hk_handle x < next_handle (kern w)) ->
  (forall h, In h (handles (kern w)) -> h < next_handle (kern w)) ->
  0 < next_handle (kern w) < 2 ^ 32 ->
  let w1 := thread_step Keyboard w in
  let w2 := thread_step Keyboard w1 in
  map hk_type (hooks (kern w1)) = map hk_type (hooks (kern w)) ++ [WH_KEYBOARD_LL; WH_KEYBOARD_LL] /\
  hookHandle w1 = next_handle (kern w) /\
  hooks (kern w2) = hooks (kern w) /\ hookHandle w2 = 0 /\ handles (kern w2) = handles (kern w) /\
  ioctls (kern w2) = (ioctls (kern w) + if device_present (kern w) then 1 else 0)%nat /\
  thr w2 = Some (t, TSelect).
Proof.
  intros Ht Hq Hok Hhk Hhd Hn. cbv zeta.
  assert (E1 : thread_step Keyboard w = key_body t w) by (unfold thread_step; rewrite Ht, Hq; reflexivity).
  rewrite E1. unfold key_body. rewrite hook_ll by exact Hok. cbv iota beta.
  rewrite hook_ll by exact Hok. cbv iota beta. rewrite !hook_kb. cbv iota beta. rewrite (proj2 (Z.eqb_neq (next_handle (kern w)) 0)) by lia.
  unfold CreateFile. cbn [add_hook hooks handles next_handle set_hooks set_handles device_present negb].
  destruct (device_present (kern w)) eqn:Hd; cbv iota beta;
  [rewrite (proj2 (Z.eqb_neq (next_handle (kern w) + 4 + 4) 0)),
     (proj2 (Z.eqb_neq _ INVALID_HANDLE_VALUE)) by (unfold INVALID_HANDLE_VALUE; lia)
  |rewrite (proj2 (Z.eqb_neq INVALID_HANDLE_VALUE 0)), Z.eqb_refl by (unfold INVALID_HANDLE_VALUE; lia)];
  cbn [negb andb]; unfold thread_step; cbn [thr set_thr set_kern set_hookHandle];
  unfold key_release, unhook_if; rewrite Z.eqb_refl;
  rewrite (proj2 (Z.eqb_neq (next_handle (kern w)) 0)), (proj2 (Z.eqb_neq (next_handle (kern w) + 4) 0)) by lia;
  cbn [negb]; unfold_world; unfold UnhookWindowsHookEx, CloseHandle, add_ioctl; cbn -[List.filter].
  all: repeat split; try lia; [rewrite <- app_assoc, map_app; reflexivity|apply unhook_two_fresh, Hhk|..].
  - apply filter_fresh_one. intros h Hh. specialize (Hhd h Hh). lia.
Qed.

Lemma close_fresh (cs : list bool) : close_chan (length cs) (cs ++ [false]) = Some (<[length cs := true]> (cs ++ [false])).
Proof. unfold close_chan. rewrite lookup_app_r, Nat.sub_diag by lia. reflexivity. Qed.

Lemma stop_unhook_kern w : handles (kern (stop_unhook w)) = handles (kern w) /\
  next_handle (kern (stop_unhook w)) = next_handle (kern w) /\ thread_ok (kern (stop_unhook w)) = thread_ok (kern w) /\
  thr (stop_unhook w) = thr w /\ hookThread (stop_unhook w) = hookThread w.
Proof. unfold stop_unhook. case_match; repeat split. Qed.

Lemma stop_tail w h pc : thr w = Some (h, pc) -> hookThread w = h -> h <> 0 ->
  handles (kern (stop_terminate (stop_unhook w))) = handles (kern w) /\
  next_handle (kern (stop_terminate (stop_unhook w))) = next_handle (kern w) /\
  thread_ok (kern (stop_terminate (stop_unhook w))) = thread_ok (kern w) /\
  thr (stop_terminate (stop_unhook w)) = None.
Proof.
  intros Ht Hh Hn. destruct (stop_unhook_kern w) as (H1 & H2 & H3 & H4 & H5).
  unfold stop_terminate, TerminateThread. rewrite H5, Hh, (proj2 (Z.eqb_neq _ 0) Hn). cbn [negb thr set_kern].
  rewrite H4, Ht, Z.eqb_refl. cbn. rewrite H1, H2, H3. repeat split.
Qed.

(** One check/uncheck cycle: a thread handle is opened and left open. *)
Lemma cycle_once w :
  thread_ok (kern w) = true -> 0 < next_handle (kern w) ->
  exists w1, unlock_unchecked (unlock_checked w) = Some w1 /\
    handles (kern w1) = handles (kern w) ++ [next_handle (kern w)] /\
    next_handle (kern w1) = next_handle (kern w) + 4 /\ thread_ok (kern w1) = true /\ thr w1 = None.
Proof.
  intros Hok Hn. unfold unlock_unchecked, unlock_checked, StartUnlock, CreateThread.
  cbn [kern set_enabled set_quit set_chans]. rewrite Hok. cbv iota beta.
  rewrite (proj2 (Z.eqb_neq _ 0)) by lia. unfold StopUnlock.
  cbn [quit set_enabled set_thr set_hookThread set_kern set_chans set_quit chans].
  rewrite close_fresh. cbv [mbind option_bind]. eexists. split; [reflexivity|].
  match goal with |- context [stop_terminate (stop_unhook ?w0)] =>
    destruct (stop_tail w0 (next_handle (kern w)) TSelect) as (H1 & H2 & H3 & H4); [reflexivity..|lia|] end.
  rewrite H1, H2, H3, H4. cbn. rewrite Hok. repeat split.
Qed.

(** C30: every check/uncheck cycle of an unlock box leaks a thread
    handle: [StartUnlock] stores the handle [CreateThread] returns and
    [Stop] passes it to [TerminateThread] but never to [CloseHandle].
    After [n] cycles the [n] handles are all still open although no
    unlock thread runs. *)
Theorem unlock_cycles_leak_handles n w :
  thread_ok (kern w) = true -> 0 < next_handle (kern w) ->
  exists w', cycles n w = Some w' /\
    handles (kern w') = handles (kern w) ++ map (fun i => next_handle (kern w) + 4 * Z.of_nat i) (seq 0 n) /\
    ((0 < n)%nat -> thr w' = None).
Proof.
  revert w. induction n as [|n IH]; intros w Hok Hn.
  - exists w. cbn. rewrite app_nil_r. split; [reflexivity|split; [reflexivity|lia]].
  - destruct (cycle_once w Hok Hn) as (w1 & E & Hh & Hnx & Hok1 & Ht1).
    destruct (IH w1 Hok1 ltac:(lia)) as (w' & E' & Hh' & Ht').
    exists w'. cbn [cycles]. rewrite E. cbv [mbind option_bind]. split; [exact E'|split].
    + rewrite Hh', Hh, Hnx, <- app_assoc. cbn [seq map app]. rewrite <- seq_shift, map_map. do 2 f_equal; [lia|].
      apply map_ext. intros i. lia.
    + intros _. destruct n as [|n]; [cbn in E'; congruence|apply Ht'; lia].
Qed.

(** How many blocks of [Stop] the UI thread still has to run. *)
Definition stop_left (u : upc) : nat :=
  match u with Idle => 0 | SClose => 4 | SNil => 3 | SUnhook => 2 | STerminate => 1 end.

Lemma stop_step_progress w : ui w <> Idle ->
  (stop_left (ui (stop_step w)) < stop_left (ui w))%nat /\ enabled (stop_step w) = enabled w.
Proof.
  intros Hu. unfold stop_step.
  destruct (ui w) eqn:E; [congruence| | | |]; cbn [ui set_ui enabled set_quit].
  - destruct (quit w); [destruct (close_chan _ _)|]; cbn; rewrite ?E; split; cbn; lia || reflexivity.
  - split; [cbn; lia|reflexivity].
  - split; [cbn; lia|]. unfold stop_unhook. case_match; reflexivity.
  - split; [cbn; lia|]. unfold stop_terminate, TerminateThread.
    case_match; [|reflexivity]. cbn. destruct (thr w) as [[? ?]|]; [case_match|]; reflexivity.
Qed.

Lemma stop_completes kd w : Inv w -> ui w <> Idle ->
  exists w', rtc (ustep kd) w w' /\ Inv w' /\ ui w' = Idle /\ enabled w' = enabled w.
Proof.
  remember (stop_left (ui w)) as m eqn:Em. revert w Em. induction m as [m IH] using lt_wf_ind.
  intros w -> HI Hu. destruct (stop_step_progress w Hu) as [Hlt He].
  pose proof (stop_step_inv w HI Hu) as HI'. pose proof (rtc_once _ _ (UStopStep kd w Hu)) as Hs.
  destruct (decide (ui (stop_step w) = Idle)) as [Hi|Hi].
  - exists (stop_step w). auto.
  - destruct (IH _ Hlt (stop_step w) eq_refl HI' Hi) as (w' & Hr & HI2 & Hu2 & He2).
    exists w'. split; [exact (rtc_trans _ _ _ Hs Hr)|]. split; [exact HI2|]. split; [exact Hu2|congruence].
Qed.

(** from every state the interleavings reach, the UI thread can run
    [Stop*Unlock] to its end on its own: none of its blocks waits for the
    unlock thread, and when it returns the thread is gone and none of its
    hooks is installed. *)
Theorem unlock_stop_terminates kd k w :
  rtc (ustep kd) (init k) w ->
  exists w', rtc (ustep kd) w w' /\ ui w' = Idle /\ enabled w' = false /\ thr w' = None /\ hooks (kern w') = [].
Proof.
  intros Hr. pose proof (reach_inv kd k w Hr) as HI.
  assert (Hb : exists w1, rtc (ustep kd) w w1 /\ Inv w1 /\ ui w1 <> Idle).
  { destruct (decide (ui w = Idle)) as [Hu|Hu]; [|exists w; split; [apply rtc_refl|split; assumption]].
    exists (stop_begin w). split; [exact (rtc_once _ _ (UStop kd w Hu))|].
    split; [exact (stop_begin_inv w HI Hu)|discriminate]. }
  destruct Hb as (w1 & Hr1 & HI1 & Hu1).
  destruct (stop_completes kd w1 HI1 Hu1) as (w' & Hr' & HI' & Hu' & He').
  pose proof (inv_stopping _ HI1 Hu1) as He1.
  destruct (idle_clean w' HI' Hu' ltac:(congruence)) as [Ht Hh].
  exists w'. split; [exact (rtc_trans _ _ _ Hr1 Hr')|]. repeat split; congruence.
Qed.

(** ** [Stop] as one call, for the callers of the feature *)

Lemma stop_unhook_hooks w x : In x (hooks (kern (stop_unhook w))) -> In x (hooks (kern w)).
Proof. unfold stop_unhook. case_match; [|exact id]. cbn. intros Hx. apply filter_In in Hx. apply Hx. Qed.

(** The last two blocks of [Stop] leave no thread and no hook, whatever
    the earlier blocks did to the channels. *)
Lemma stop_tail_clean w :
  (forall t pc, thr w = Some (t, pc) -> hookThread w = t /\ t <> 0) ->
  (forall x, In x (hooks (kern w)) -> exists pc, thr w = Some (hk_owner x, pc)) ->
  thr (stop_terminate (stop_unhook w)) = None /\ hooks (kern (stop_terminate (stop_unhook w))) = [].
Proof.
  intros H4 H5. destruct (stop_unhook_kern w) as (_ & _ & _ & Ht & Hh).
  assert (Hin : forall x, In x (hooks (kern (stop_unhook w))) -> exists pc, thr w = Some (hk_owner x, pc))
    by (intros x Hx; apply H5, stop_unhook_hooks, Hx).
  unfold stop_terminate, TerminateThread. rewrite Hh.
  destruct (thr w) as [[t pc]|] eqn:E.
  - destruct (H4 t pc eq_refl) as [-> Ht0]. rewrite (proj2 (Z.eqb_neq _ 0) Ht0). cbn [negb thr set_kern].
    rewrite Ht, Z.eqb_refl. cbn. split; [reflexivity|].
    destruct (List.filter _ _) as [|x l] eqn:F; [reflexivity|exfalso].
    assert (Hx : In x (List.filter (fun x => negb (hk_owner x =? t)) (hooks (kern (stop_unhook w)))))
      by (rewrite F; left; reflexivity).
    apply filter_In in Hx as [Hx Ho]. destruct (Hin x Hx) as [pc' Hpc]. injection Hpc as Hpc _.
    rewrite <- Hpc, Z.eqb_refl in Ho. discriminate.
  - assert (Hn : hooks (kern (stop_unhook w)) = []).
    { destruct (hooks (kern (stop_unhook w))) as [|x l] eqn:F; [reflexivity|exfalso].
      destruct (Hin x) as [? Hpc]; [left; reflexivity|discriminate]. }
    destruct (negb (hookThread w =? 0)); [|split; assumption].
    unfold set_hookThread, set_kern, end_thread. cbn. rewrite Ht, Hn. split; reflexivity.
Qed.

(** [Stop*Unlock] called by another handler of the UI thread (outside its
    own blocks, [ui = Idle]) does not panic and leaves no thread and no
    hook. *)
Lemma StopUnlock_clean w : Inv w -> ui w = Idle ->
  exists w', StopUnlock (set_enabled w false) = Some w' /\ thr w' = None /\ hooks (kern w') = [].
Proof.
  intros HI Hu. unfold StopUnlock. cbn [quit set_enabled chans].
  destruct (quit w) as [c|] eqn:Hq.
  - unfold close_chan. rewrite (quit_open w c HI Hq ltac:(congruence)). cbv [mbind option_bind].
    eexists. split; [reflexivity|]. apply stop_tail_clean; cbn; [exact (inv_thr _ HI)|exact (inv_hooks _ HI)].
  - cbv [mbind option_bind]. eexists. split; [reflexivity|].
    apply stop_tail_clean; cbn; [exact (inv_thr _ HI)|exact (inv_hooks _ HI)].
Qed.

(** The unlock thread never moves the UI thread inside [Stop]. *)
Lemma thread_step_ui kd w : ui (thread_step kd w) = ui w.
Proof.
  unfold thread_step. destruct (thr w) as [[t []]|]; [|apply ui_stop_unhook|reflexivity..].
  destruct (quit_ready w); [reflexivity|]. destruct kd; unfold mouse_body, key_body.
  - destruct (SetWindowsHookEx _ _ _). case_match; reflexivity.
  - repeat (destruct (SetWindowsHookEx _ _ _)). destruct (CreateFile _). case_match; reflexivity.
Qed.

(** ** Concrete runs *)

(** The box checked from the start, [Stop] stopped after its close, and
    [Stop] run to its end, the unlock thread never scheduled. *)
Definition w_checked : world := unlock_checked (init k_ok).
Definition w_mid : world := stop_step (stop_begin w_checked).
Definition w_stopped : world := stop_run (stop_begin w_checked).

Ltac ui_run := repeat (eapply rtc_l; [ui_step|]); apply rtc_refl.
Ltac unlock_solve := solve [ reflexivity | lia | vm_compute; reflexivity | intros ? []
                           | intros ? Hin; vm_compute in Hin; destruct Hin as [<-|[]]; vm_compute; reflexivity
                           | split; vm_compute; reflexivity ].

Lemma reach_mid : rtc (ustep Mouse) (init k_ok) w_mid.
Proof. unfold w_mid, w_checked. eapply rtc_l; [ui_step|]. eapply rtc_l; [ui_step|].
  eapply rtc_l; [ui_step|]. apply rtc_refl. Qed.

Lemma unlock_never_panics_witness : crashed w_stopped = false.
Proof.
  apply (unlock_never_panics Mouse k_ok). unfold w_stopped, stop_run, w_checked.
  do 6 (eapply rtc_l; [ui_step|]). apply rtc_refl.
Defined.

Lemma unlock_quit_seen_only_mid_stop_witness : ui w_mid = SNil.
Proof.
  apply (unlock_quit_seen_only_mid_stop Mouse k_ok w_mid 100); [|unlock_solve..].
  unfold w_mid, w_checked. do 3 (eapply rtc_l; [ui_step|]). apply rtc_refl.
Defined.

Lemma unlock_stop_releases_witness : thr w_stopped = None /\ hooks (kern w_stopped) = [].
Proof.
  apply (unlock_stop_releases Mouse k_ok w_stopped); [|unlock_solve..].
  unfold w_stopped, stop_run, w_checked. do 6 (eapply rtc_l; [ui_step|]). apply rtc_refl.
Defined.

Lemma stop_run_refines_witness :
  match unlock_unchecked w_checked with
  | Some w' => stop_run (stop_begin w_checked) = w'
  | None => crashed (stop_run (stop_begin w_checked)) = true
  end.
Proof. apply stop_run_refines. unlock_solve. Defined.

Lemma key_iteration_witness :
  let w1 := thread_step Keyboard w_checked in
  let w2 := thread_step Keyboard w1 in
  map hk_type (hooks (kern w1)) = map hk_type (hooks (kern w_checked)) ++ [WH_KEYBOARD_LL; WH_KEYBOARD_LL] /\
  hookHandle w1 = next_handle (kern w_checked) /\
  hooks (kern w2) = hooks (kern w_checked) /\ hookHandle w2 = 0 /\
  handles (kern w2) = handles (kern w_checked) /\
  ioctls (kern w2) = (ioctls (kern w_checked) + if device_present (kern w_checked) then 1 else 0)%nat /\
  thr w2 = Some (100, TSelect).
Proof. apply (key_iteration w_checked 100); unlock_solve. Defined.

Lemma unlock_cycles_leak_handles_witness :
  exists w', cycles 3 (init k_ok) = Some w' /\
    handles (kern w') = handles (kern (init k_ok)) ++
      map (fun i => next_handle (kern (init k_ok)) + 4 * Z.of_nat i) (seq 0 3) /\
    ((0 < 3)%nat -> thr w' = None).
Proof. apply (unlock_cycles_leak_handles 3 (init k_ok)); unlock_solve. Defined.

Lemma unlock_stop_terminates_witness :
  exists w', rtc (ustep Mouse) w_mid w' /\ ui w' = Idle /\ enabled w' = false /\ thr w' = None /\
             hooks (kern w') = [].
Proof. apply (unlock_stop_terminates Mouse k_ok w_mid). exact reach_mid. Defined.

End Unlock.
