(* ===== verification/UserInterface.v ===== *)
(** * UserInterface: the handlers of main.go's window and control.go

    The declarative layout of the walk UI is not modelled; its handlers
    are.  The tool's own windows ([mainWindow], and the dialog
    [controlWindow] of control.go) are [ownwin] records: display
    affinity (whether screen capture sees them), membership of the
    topmost band, whether they were brought to the top.  [uistate] holds
    them with the two check boxes of the "window control" group;
    [SetWindowDisplayAffinity], [SetWindowTopmost] and
    [BringWindowToFront] (main.go 114-153) act on an [ownwin].

    [ui_step] dispatches the events of the UI thread that touch these
    windows; the program around them, and the main window's [Closing]
    handler, are in [Program].

    control.go refers to a package variable [controlWindow] that no file
    of the package declares; the model gives it the type the code uses
    it at ([*walk.Dialog], nil or a dialog). *)

From S2P Require Import Prelude.
#[local] Open Scope Z_scope.

(** ** The tool's own windows *)

Definition WindowDisplayAffinityNone : Z := 0x00000000.
Definition WindowDisplayAffinityMonitor : Z := 0x00000001.
Definition WindowDisplayAffinityExcludeFromCapture : Z := 0x00000011.
Definition WindowHandleTopMost : Z := 2 ^ 64 - 1.
Definition WindowHandleNotTopMost : Z := 2 ^ 64 - 2.

Record ownwin := { affinity : Z; topmost : bool; on_top : bool }.

Definition new_window : ownwin := {| affinity := WindowDisplayAffinityNone; topmost := false; on_top := false |}.

(** [SetWindowDisplayAffinity] (main.go 114-120); [ok] says whether the
    system accepts the call (WDA_EXCLUDEFROMCAPTURE needs Windows 10
    2004). *)
Definition SetWindowDisplayAffinity (ok : bool) (w : ownwin) (a : Z) : bool * ownwin :=
  if ok then (true, {| affinity := a; topmost := topmost w; on_top := on_top w |}) else (false, w).

(** [SetWindowTopmost] (main.go 123-136): [SetWindowPos] after
    [HWND_TOPMOST] or [HWND_NOTOPMOST]. *)
Definition SetWindowTopmost (w : ownwin) (isTopmost : bool) : bool * ownwin :=
  let insertAfterHandle := if isTopmost then WindowHandleTopMost else WindowHandleNotTopMost in
  (true, {| affinity := affinity w; topmost := insertAfterHandle =? WindowHandleTopMost; on_top := on_top w |}).

(** [BringWindowToFront] (main.go 150-153), and walk's [Activate]. *)
Definition BringWindowToFront (w : ownwin) : bool * ownwin :=
  (true, {| affinity := affinity w; topmost := topmost w; on_top := true |}).

Record uistate := {
  mainWindow : option ownwin;       (** nil until the main window is created *)
  controlWindow : option ownwin;    (** control.go's dialog, nil when closed *)
  preventCapture : bool;            (** [preventCaptureCheckbox.Checked()] *)
  topmostChecked : bool;            (** [topmostCheckbox.Checked()] *)
  affinity_ok : bool;               (** [SetWindowDisplayAffinity] succeeds *)
  dialog_ok : bool;                 (** [Dialog.Create] succeeds *)
  opened : list string              (** URLs handed to [ShellExecuteW] *)
}.

Definition set_main (u : uistate) (w : option ownwin) : uistate :=
  {| mainWindow := w; controlWindow := controlWindow u; preventCapture := preventCapture u;
     topmostChecked := topmostChecked u; affinity_ok := affinity_ok u; dialog_ok := dialog_ok u;
     opened := opened u |}.
Definition set_control (u : uistate) (w : option ownwin) : uistate :=
  {| mainWindow := mainWindow u; controlWindow := w; preventCapture := preventCapture u;
     topmostChecked := topmostChecked u; affinity_ok := affinity_ok u; dialog_ok := dialog_ok u;
     opened := opened u |}.
Definition set_preventCapture (u : uistate) (b : bool) : uistate :=
  {| mainWindow := mainWindow u; controlWindow := controlWindow u; preventCapture := b;
     topmostChecked := topmostChecked u; affinity_ok := affinity_ok u; dialog_ok := dialog_ok u;
     opened := opened u |}.
Definition set_topmostChecked (u : uistate) (b : bool) : uistate :=
  {| mainWindow := mainWindow u; controlWindow := controlWindow u; preventCapture := preventCapture u;
     topmostChecked := b; affinity_ok := affinity_ok u; dialog_ok := dialog_ok u; opened := opened u |}.
Definition set_opened (u : uistate) (l : list string) : uistate :=
  {| mainWindow := mainWindow u; controlWindow := controlWindow u; preventCapture := preventCapture u;
     topmostChecked := topmostChecked u; affinity_ok := affinity_ok u; dialog_ok := dialog_ok u;
     opened := l |}.

(** [OpenURL] (main.go 556-567): [ShellExecuteW(0, "open", url, ...)]. *)
Definition OpenURL (url : string) (u : uistate) : uistate := set_opened u (opened u ++ [url]).

(** The "prevent capture" check box (main.go 607-616), given the state
    the box has just taken. *)
Definition capture_changed (checked : bool) (u : uistate) : uistate :=
  let u := set_preventCapture u checked in
  match mainWindow u with
  | None => u
  | Some m =>
      let a := if checked then WindowDisplayAffinityExcludeFromCapture else WindowDisplayAffinityNone in
      set_main u (Some (SetWindowDisplayAffinity (affinity_ok u) m a).2)
  end.

(** The "topmost" check box (main.go 622-632). *)
Definition topmost_changed (checked : bool) (u : uistate) : uistate :=
  let u := set_topmostChecked u checked in
  match mainWindow u with
  | None => u
  | Some m =>
      if checked then set_main u (Some (SetWindowTopmost m true).2)
      else
        let m := (SetWindowTopmost m false).2 in
        let m := (BringWindowToFront m).2 in
        set_main u (Some (BringWindowToFront m).2)
  end.

(** The initial settings after the main window exists (main.go 756-760). *)
Definition main_init (u : uistate) : uistate :=
  match mainWindow u with
  | None => u
  | Some m =>
      let m := if preventCapture u
               then (SetWindowDisplayAffinity (affinity_ok u) m WindowDisplayAffinityExcludeFromCapture).2
               else m in
      set_main u (Some (SetWindowTopmost m (topmostChecked u)).2)
  end.

(** A tick of the topmost goroutine (main.go 763-777) is two calls from
    another thread than the UI's: the test of the box
    ([topmostCheckbox.Checked()], answered by the UI thread between two
    of its handlers) and, when it held, [SetWindowTopmost(.., true)]. *)
Definition topmost_read (u : uistate) : bool :=
  topmostChecked u && match mainWindow u with Some _ => true | None => false end.

Definition topmost_act (u : uistate) : uistate :=
  match mainWindow u with
  | Some m => set_main u (Some (SetWindowTopmost m true).2)
  | None => u
  end.

(** [CreateControlWindow] (control.go 14-73): show the open dialog, or
    create one and give it the main window's settings.  The check boxes
    exist once the main window does. *)
Definition CreateControlWindow (u : uistate) : go_ret unit * uistate :=
  match controlWindow u with
  | Some c => (Ret tt, set_control u (Some (BringWindowToFront c).2))
  | None =>
      if dialog_ok u then
        let c := new_window in
        let c := if bool_decide (mainWindow u <> None) && preventCapture u
                 then (SetWindowDisplayAffinity (affinity_ok u) c WindowDisplayAffinityExcludeFromCapture).2
                 else c in
        let c := if bool_decide (mainWindow u <> None) && topmostChecked u
                 then (SetWindowTopmost c true).2 else c in
        (Ret tt, set_control u (Some c))
      else (Err "walk: dialog creation failed", u)
  end.

(** The dialog's [Closing] handler (control.go 67-69). *)
Definition control_closing (u : uistate) : uistate := set_control u None.

(** [UpdateControlWindowCaptureState] (control.go 76-84). *)
Definition UpdateControlWindowCaptureState (preventCapture : bool) (u : uistate) : uistate :=
  match controlWindow u with
  | Some c =>
      let a := if preventCapture then WindowDisplayAffinityExcludeFromCapture else WindowDisplayAffinityNone in
      set_control u (Some (SetWindowDisplayAffinity (affinity_ok u) c a).2)
  | None => u
  end.

(** The events of the UI thread once the main window exists: the two
    check boxes of the "window control" group, the GitHub link clicked,
    and the control dialog opened and closed.  No code of the repository calls [CreateControlWindow];
    its events are kept so that a caller the code is written for is
    covered too. *)
Inductive ui_event :=
  | EvCapture (checked : bool) | EvTopmost (checked : bool)
  | EvOpenControl | EvCloseControl | EvOpenURL (url : string).

Definition ui_step (u : uistate) (e : ui_event) : uistate :=
  match e with
  | EvCapture b => capture_changed b u
  | EvTopmost b => topmost_changed b u
  | EvOpenControl => (CreateControlWindow u).2
  | EvCloseControl => control_closing u
  | EvOpenURL s => OpenURL s u
  end.

(** The main window is excluded from capture exactly when "prevent
    capture" is checked (where the system accepts the call). *)
Definition capture_synced (u : uistate) : bool :=
  match mainWindow u with
  | Some m =>
      negb (affinity_ok u) ||
      (affinity m =? if preventCapture u then WindowDisplayAffinityExcludeFromCapture
                     else WindowDisplayAffinityNone)
  | None => true
  end.

(** ** Lemmas *)

(** C34: the "prevent capture" box reaches the control dialog only when
    the dialog is created: a dialog opened while the box is checked is
    excluded from capture like the main window, but unchecking the box
    afterwards clears the main window's affinity and leaves the dialog's
    as it was, because [UpdateControlWindowCaptureState], which would
    clear it, is never called. *)
Theorem control_capture_not_synced u m :
  mainWindow u = Some m -> controlWindow u = None -> dialog_ok u = true ->
  affinity_ok u = true -> preventCapture u = true ->
  let u1 := (CreateControlWindow u).2 in
  let u2 := capture_changed false u1 in
  option_map affinity (controlWindow u1) = Some WindowDisplayAffinityExcludeFromCapture /\
  option_map affinity (mainWindow u2) = Some WindowDisplayAffinityNone /\
  option_map affinity (controlWindow u2) = Some WindowDisplayAffinityExcludeFromCapture /\
  option_map affinity (controlWindow (UpdateControlWindowCaptureState false u2)) =
    Some WindowDisplayAffinityNone.
Proof.
  destruct u as [mw cw pc tc ao dok op]; cbn. intros -> -> -> -> ->. cbn. now destruct tc.
Qed.

Lemma ui_step_capture_synced u e : capture_synced u = true -> capture_synced (ui_step u e) = true.
Proof.
  destruct u as [[[af tp ot]|] cw pc tc ao dok op];
    destruct e as [[]|[]| | |]; try destruct cw; try destruct dok; cbn; try done;
    destruct ao, pc, tc; cbn; done.
Qed.

Lemma topmost_act_capture_synced u : capture_synced u = true -> capture_synced (topmost_act u) = true.
Proof. destruct u as [[m|] cw pc tc ao dok op]; cbn; repeat case_match; done. Qed.

Lemma main_init_capture_synced u : mainWindow u = Some new_window -> capture_synced (main_init u) = true.
Proof. destruct u as [mw cw [] tc [] dok op]; cbn; intros ->; reflexivity. Qed.

(** ** Concrete runs *)

(** The main window just created, with both boxes checked as the
    layout declares them. *)
Definition ui0 : uistate :=
  {| mainWindow := Some new_window; controlWindow := None; preventCapture := true;
     topmostChecked := true; affinity_ok := true; dialog_ok := true; opened := [] |}.

Lemma control_capture_not_synced_witness :
  option_map affinity (controlWindow (capture_changed false (CreateControlWindow (main_init ui0)).2)) =
    Some WindowDisplayAffinityExcludeFromCapture.
Proof. apply (control_capture_not_synced (main_init ui0) (SetWindowTopmost (SetWindowDisplayAffinity true new_window WindowDisplayAffinityExcludeFromCapture).2 true).2); reflexivity. Defined.

