(* ===== verification/Program.v ===== *)
(** * Program: the whole of main.go, its event loop and its exit

    [app] holds the program's state as main.go's package variables and
    goroutines hold it: the tool's own windows with the "window control"
    boxes ([UserInterface]), the broadcast pin and the black-screen embed
    over the desktop ([WindowHijacker]), the mouse and keyboard unlock
    features ([InputUnlock], each a [world] with the kernel objects it
    uses), whether the topmost goroutine runs, and whether the process
    has exited.  [main_app] is the state [main] (568-778) leaves before
    [application.Run]; [app_step] is the relation of its events: the
    handlers of the UI thread (the check boxes, the toggle button, the
    link and the main window's [Closing], main.go 602-798), the
    goroutines' ticks (the topmost one as its two calls, the
    black-screen one on any OS thread but the UI's), the unlock
    threads, and other programs changing the desktop.

    The UI thread runs one handler at a time: its events need both
    unlock features outside [Stop] ([ui_idle]), except the blocks of a
    [Stop] it is inside, which interleave with the unlock threads.
    [Closing] runs both [Stop]s as the Go functions [StopUnlock] (no
    thread step in between); [InputUnlock] proves the block-by-block
    [Stop] refines it. *)

From S2P Require Import Prelude WindowHijacker InputUnlock UserInterface.
From stdpp Require Import relations.
#[local] Open Scope Z_scope.

(** ** State *)

Record app := {
  gui : uistate;
  pinS : pin;                   (** the broadcast pin *)
  bs : bscreen;                 (** the black-screen embed *)
  desk : winsys;                (** the desktop's windows *)
  mouse : Unlock.world;         (** the mouse unlock feature *)
  keyboard : Unlock.world;      (** the keyboard unlock feature *)
  ticker : bool;                (** the topmost goroutine runs ([quitChannel] open) *)
  tick_read : bool;             (** it saw the box checked, [SetWindowTopmost] still to come *)
  exited : bool                 (** [syscall.Exit(0)] ran *)
}.

Definition set_gui (a : app) (u : uistate) : app :=
  {| gui := u; pinS := pinS a; bs := bs a; desk := desk a; mouse := mouse a;
     keyboard := keyboard a; ticker := ticker a; tick_read := tick_read a; exited := exited a |}.
Definition set_pin (a : app) (s : pin * winsys) : app :=
  {| gui := gui a; pinS := s.1; bs := bs a; desk := s.2; mouse := mouse a;
     keyboard := keyboard a; ticker := ticker a; tick_read := tick_read a; exited := exited a |}.
Definition set_bs (a : app) (s : bscreen * winsys) : app :=
  {| gui := gui a; pinS := pinS a; bs := s.1; desk := s.2; mouse := mouse a;
     keyboard := keyboard a; ticker := ticker a; tick_read := tick_read a; exited := exited a |}.
Definition set_desk (a : app) (ws : winsys) : app :=
  {| gui := gui a; pinS := pinS a; bs := bs a; desk := ws; mouse := mouse a;
     keyboard := keyboard a; ticker := ticker a; tick_read := tick_read a; exited := exited a |}.
Definition set_mouse (a : app) (w : Unlock.world) : app :=
  {| gui := gui a; pinS := pinS a; bs := bs a; desk := desk a; mouse := w;
     keyboard := keyboard a; ticker := ticker a; tick_read := tick_read a; exited := exited a |}.
Definition set_keyboard (a : app) (w : Unlock.world) : app :=
  {| gui := gui a; pinS := pinS a; bs := bs a; desk := desk a; mouse := mouse a;
     keyboard := w; ticker := ticker a; tick_read := tick_read a; exited := exited a |}.
Definition set_tick_read (a : app) (r : bool) : app :=
  {| gui := gui a; pinS := pinS a; bs := bs a; desk := desk a; mouse := mouse a;
     keyboard := keyboard a; ticker := ticker a; tick_read := r; exited := exited a |}.

(** ** [main] and the main window's [Closing] handler *)

(** The black-screen embed before its box is first checked. *)
Definition bs0 : bscreen :=
  {| blackScreenMinimizeEnabled := false; blackScreenParentWindow := 0;
     embeddedBlackScreenWindow := 0; bs_monitor := false |}.

(** The main window as [MainWindow{...}.Create()] leaves it (main.go
    580-754): both "window control" boxes declared [Checked: true], every
    other box unchecked; [ok] and [dlg] say whether the system accepts
    [SetWindowDisplayAffinity] and the creation of a dialog. *)
Definition ui_created (ok dlg : bool) : uistate :=
  {| mainWindow := Some new_window; controlWindow := None; preventCapture := true;
     topmostChecked := true; affinity_ok := ok; dialog_ok := dlg; opened := [] |}.

(** [main] up to [application.Run()] (568-778): the channels made, the
    main window created with its initial settings and the topmost
    goroutine started, over the desktop [ws] and the kernel [k]. *)
Definition main_app (ok dlg : bool) (ws : winsys) (k : Unlock.kernel) : app :=
  {| gui := main_init (ui_created ok dlg); pinS := pin0; bs := bs0; desk := ws;
     mouse := Unlock.init k; keyboard := Unlock.init k; ticker := true; tick_read := false;
     exited := false |}.

(** [mainWindow.Closing()] (main.go 780-798), on the UI thread.  The
    three [close] calls (of channels made fresh after every close, so
    they cannot panic) stop the topmost goroutine and the two monitors;
    [None] is a panic of one of the [Stop*Unlock] calls. *)
Definition Closing (a : app) : option app :=
  let p := set_enabled (pinS a) false in
  let b := set_bs_enabled (bs a) false in
  let m := Unlock.set_enabled (mouse a) false in
  let k := Unlock.set_enabled (keyboard a) false in
  let p := RemoveBroadcastEventHook p in
  m ← Unlock.StopUnlock m;
  k ← Unlock.StopUnlock k;
  let ws := if negb (embeddedBlackScreenWindow b =? 0)
            then (SetParent (embeddedBlackScreenWindow b) 0 (desk a)).2 else desk a in
  let ws := if negb (blackScreenParentWindow b =? 0)
            then (DestroyWindow UI_THREAD (blackScreenParentWindow b) ws).2 else ws in
  Some {| gui := gui a; pinS := set_monitor p None; bs := set_bs_monitor b false; desk := ws;
          mouse := m; keyboard := k; ticker := false; tick_read := false; exited := true |}.

(** ** The event loop *)

(** The UI thread is not inside a [Stop*Unlock]. *)
Definition ui_idle (a : app) : Prop :=
  Unlock.ui (mouse a) = Unlock.Idle /\ Unlock.ui (keyboard a) = Unlock.Idle.

(** The events of the running program.  Nothing runs after the exit. *)
Inductive app_step : app -> app -> Prop :=
  | AppWindowControl a e : exited a = false -> ui_idle a -> app_step a (set_gui a (ui_step (gui a) e))
  | AppTopmostRead a : exited a = false -> ticker a = true -> tick_read a = false ->
      topmost_read (gui a) = true -> app_step a (set_tick_read a true)
  | AppTopmostSet a : exited a = false -> tick_read a = true ->
      app_step a (set_tick_read (set_gui a (topmost_act (gui a))) false)
  | AppBroadcast a s : exited a = false -> ui_idle a -> pin_step (pinS a, desk a) s -> app_step a (set_pin a s)
  | AppBroadcastTick a h : exited a = false -> monitor (pinS a) = Some h ->
      app_step a (set_pin a (pin_tick (pinS a, desk a)))
  | AppToggle a : exited a = false -> ui_idle a ->
      app_step a (set_pin a (ToggleBroadcastWindow (pinS a) (desk a)))
  | AppBlackCheck a : exited a = false -> ui_idle a -> blackScreenMinimizeEnabled (bs a) = false ->
      app_step a (set_bs a (blackscreen_checked (bs a), desk a))
  | AppBlackUncheck a : exited a = false -> ui_idle a -> blackScreenMinimizeEnabled (bs a) = true ->
      app_step a (set_bs a (blackscreen_unchecked (bs a) (desk a)))
  | AppBlackTick a t : exited a = false -> t <> UI_THREAD -> bs_monitor (bs a) = true ->
      app_step a (set_bs a (blackscreen_tick t (bs a) (desk a)))
  | AppMouseUI a w : exited a = false -> Unlock.ui (keyboard a) = Unlock.Idle ->
      Unlock.ustep Unlock.Mouse (mouse a) w -> app_step a (set_mouse a w)
  | AppMouseThread a t pc : exited a = false -> Unlock.thr (mouse a) = Some (t, pc) ->
      app_step a (set_mouse a (Unlock.thread_step Unlock.Mouse (mouse a)))
  | AppKeyboardUI a w : exited a = false -> Unlock.ui (mouse a) = Unlock.Idle ->
      Unlock.ustep Unlock.Keyboard (keyboard a) w -> app_step a (set_keyboard a w)
  | AppKeyboardThread a t pc : exited a = false -> Unlock.thr (keyboard a) = Some (t, pc) ->
      app_step a (set_keyboard a (Unlock.thread_step Unlock.Keyboard (keyboard a)))
  | AppDesktop a ws : exited a = false -> app_step a (set_desk a ws)
  | AppClose a a' : exited a = false -> ui_idle a -> Closing a = Some a' -> app_step a a'.

(** ** Lemmas *)

(** A feature's world reached by its own interleavings. *)
Definition feature_reach (kd : Unlock.kind) (w : Unlock.world) : Prop :=
  exists k, rtc (Unlock.ustep kd) (Unlock.init k) w.

(** ... and outside [Stop]. *)
Definition feature_ok (kd : Unlock.kind) (w : Unlock.world) : Prop :=
  feature_reach kd w /\ Unlock.ui w = Unlock.Idle.

(** What every state of a run keeps: the main window's capture exclusion
    as its box says,
    and, until the exit, the UI thread inside at most one [Stop] and each
    feature in a state of its own interleavings. *)
Definition app_inv (a : app) : Prop :=
  capture_synced (gui a) = true /\
  (exited a = false ->
   (Unlock.ui (mouse a) = Unlock.Idle \/ Unlock.ui (keyboard a) = Unlock.Idle) /\
   feature_reach Unlock.Mouse (mouse a) /\ feature_reach Unlock.Keyboard (keyboard a)).

Lemma feature_reach_step kd w w' : feature_reach kd w -> Unlock.ustep kd w w' -> feature_reach kd w'.
Proof. intros [k Hr] Hs. exists k. exact (rtc_r _ _ _ Hr Hs). Qed.

Lemma feature_reach_rtc kd w w' : feature_reach kd w -> rtc (Unlock.ustep kd) w w' -> feature_reach kd w'.
Proof. intros [k Hr] Hs. exists k. exact (rtc_trans _ _ _ Hr Hs). Qed.

Lemma closing_gui a a' : Closing a = Some a' -> gui a' = gui a /\ exited a' = true.
Proof.
  unfold Closing. cbv [mbind option_bind].
  repeat (destruct (Unlock.StopUnlock _); [|discriminate]). intros H. injection H as <-. split; reflexivity.
Qed.

Lemma main_app_inv ok dlg ws k : app_inv (main_app ok dlg ws k).
Proof.
  split; [apply main_init_capture_synced; reflexivity|].
  intros _. split; [left; reflexivity|]. split; exists k; apply rtc_refl.
Qed.

Lemma app_step_inv a a' : app_inv a -> app_step a a' -> app_inv a'.
Proof.
  intros [Hs Hr] Hst. destruct Hst as [a e He Hi|a He Ht Hr0 Htr|a He Htr|a s He Hi _|a h He _|a He Hi|a He Hi _
    |a He Hi _|a t He _ _|a w He Hk0 Hu|a t pc He Ht|a w He Hm0 Hu|a t pc He Ht|a ws He|a a' He Hi Hc];
    try (split; [exact Hs|exact Hr]); specialize (Hr He) as (Hid & Hm & Hk).
  - split; [apply ui_step_capture_synced, Hs|intros _; auto].
  - split; [apply topmost_act_capture_synced, Hs|intros _; auto].
  - split; [exact Hs|intros _; eauto using feature_reach_step].
  - split; [exact Hs|intros _; cbn; rewrite Unlock.thread_step_ui; eauto using feature_reach_step, Unlock.UThread].
  - split; [exact Hs|intros _; eauto using feature_reach_step].
  - split; [exact Hs|intros _; cbn; rewrite Unlock.thread_step_ui; eauto using feature_reach_step, Unlock.UThread].
  - destruct (closing_gui _ _ Hc) as [Hg Hx]. split; [rewrite Hg; exact Hs|rewrite Hx; discriminate].
Qed.

Lemma reach_app_inv ok dlg ws k a : rtc app_step (main_app ok dlg ws k) a -> app_inv a.
Proof.
  intros Hr. apply (rtc_ind_r (R := app_step) (fun a => app_inv a) (main_app ok dlg ws k)); [apply main_app_inv| |exact Hr].
  intros b c _ Hs Hb. exact (app_step_inv b c Hb Hs).
Qed.

Lemma feature_stop kd w : feature_ok kd w ->
  exists w', Unlock.StopUnlock (Unlock.set_enabled w false) = Some w' /\
             Unlock.thr w' = None /\ Unlock.hooks (Unlock.kern w') = [].
Proof.
  intros [[k Hr] Hu]. apply Unlock.StopUnlock_clean; [exact (Unlock.reach_inv kd k w Hr)|exact Hu].
Qed.

(** [Closing] returns on states of the features' own interleavings and
    stops every feature. *)
Lemma closing_clean a :
  feature_ok Unlock.Mouse (mouse a) -> feature_ok Unlock.Keyboard (keyboard a) ->
  exists a', Closing a = Some a' /\
    Unlock.thr (mouse a') = None /\ Unlock.hooks (Unlock.kern (mouse a')) = [] /\
    Unlock.thr (keyboard a') = None /\ Unlock.hooks (Unlock.kern (keyboard a')) = [] /\
    eventHook (pinS a') = 0 /\ monitor (pinS a') = None /\ bs_monitor (bs a') = false /\
    ticker a' = false /\ exited a' = true.
Proof.
  intros Hm Hk. destruct (feature_stop _ _ Hm) as (m & Em & Hm1 & Hm2).
  destruct (feature_stop _ _ Hk) as (k & Ek & Hk1 & Hk2).
  unfold Closing. rewrite Em, Ek. cbv [mbind option_bind]. eexists. split; [reflexivity|].
  cbn [mouse keyboard pinS bs ticker exited]. unfold RemoveBroadcastEventHook. repeat split; try assumption.
  cbn. destruct (negb (eventHook (pinS a) =? 0)) eqn:E; [reflexivity|]. apply negb_false_iff, Z.eqb_eq in E. exact E.
Qed.

(** A run of one feature's own steps is a run of the program while the
    UI thread is not inside the other feature's [Stop]. *)
Lemma lift_mouse a w : exited a = false -> Unlock.ui (keyboard a) = Unlock.Idle ->
  rtc (Unlock.ustep Unlock.Mouse) (mouse a) w -> rtc app_step a (set_mouse a w).
Proof.
  intros He Hk Hr. remember (mouse a) as x eqn:Ex. revert a He Hk Ex.
  induction Hr as [x|x y z Hs _ IH]; intros a He Hk ->; [destruct a; apply rtc_refl|].
  eapply rtc_l; [exact (AppMouseUI a y He Hk Hs)|]. exact (IH (set_mouse a y) He Hk eq_refl).
Qed.

Lemma lift_keyboard a w : exited a = false -> Unlock.ui (mouse a) = Unlock.Idle ->
  rtc (Unlock.ustep Unlock.Keyboard) (keyboard a) w -> rtc app_step a (set_keyboard a w).
Proof.
  intros He Hm Hr. remember (keyboard a) as x eqn:Ex. revert a He Hm Ex.
  induction Hr as [x|x y z Hs _ IH]; intros a He Hm ->; [destruct a; apply rtc_refl|].
  eapply rtc_l; [exact (AppKeyboardUI a y He Hm Hs)|]. exact (IH (set_keyboard a y) He Hm eq_refl).
Qed.

(** A feature inside [Stop] runs it to its end. *)
Lemma feature_finish kd w : feature_reach kd w ->
  exists w', rtc (Unlock.ustep kd) w w' /\ feature_ok kd w'.
Proof.
  intros [k Hr]. destruct (Unlock.upc_eq_dec (Unlock.ui w) Unlock.Idle) as [Hu|Hu].
  - exists w. split; [apply rtc_refl|split; [exists k; exact Hr|exact Hu]].
  - destruct (Unlock.stop_completes kd w (Unlock.reach_inv kd k w Hr) Hu) as (w' & Hr' & _ & Hu' & _).
    exists w'. split; [exact Hr'|split; [exists k; exact (rtc_trans _ _ _ Hr Hr')|exact Hu']].
Qed.

(** From every state before the exit the UI thread can finish the
    [Stop] it is inside and come back to its message loop. *)
Lemma reach_idle a : app_inv a -> exited a = false ->
  exists a1, rtc app_step a a1 /\ exited a1 = false /\
    feature_ok Unlock.Mouse (mouse a1) /\ feature_ok Unlock.Keyboard (keyboard a1).
Proof.
  intros [_ Hr] He. destruct (Hr He) as ([Hm|Hk] & Rm & Rk).
  - destruct (feature_finish _ _ Rk) as (k' & Hk' & Ok).
    exists (set_keyboard a k'). split; [exact (lift_keyboard a k' He Hm Hk')|].
    split; [exact He|split; [split; [exact Rm|exact Hm]|exact Ok]].
  - destruct (feature_finish _ _ Rm) as (m' & Hm' & Om).
    exists (set_mouse a m'). split; [exact (lift_mouse a m' He Hk Hm')|].
    split; [exact He|split; [exact Om|split; [exact Rk|exact Hk]]].
Qed.

(** C32: in every run of the program from [main], the tool's main window
    is excluded from screen capture exactly when "prevent capture" is
    checked (where the system accepts the call), whatever the other
    boxes, the goroutines, the unlock threads and other programs do in
    between: only the box's own handler changes either. *)
Theorem program_capture_synced ok dlg ws k a :
  rtc app_step (main_app ok dlg ws k) a -> capture_synced (gui a) = true.
Proof. intros Hr. exact (proj1 (reach_app_inv ok dlg ws k a Hr)). Qed.

(** C33: the topmost goroutine races with the "topmost" box: it reads
    the box checked, the user unchecks it (the handler takes the window
    out of the topmost band), then the goroutine's [SetWindowTopmost]
    puts it back.  The run ends with the box unchecked, the window in the
    topmost band, and the goroutine's later reads, which see the box
    unchecked, never take it out again. *)
Theorem topmost_race ok dlg ws k :
  exists a, rtc app_step (main_app ok dlg ws k) a /\ exited a = false /\
    topmostChecked (gui a) = false /\ option_map topmost (mainWindow (gui a)) = Some true /\
    topmost_read (gui a) = false.
Proof.
  eexists. split.
  - eapply rtc_l; [apply AppTopmostRead; reflexivity|].
    eapply rtc_l; [apply (AppWindowControl _ (EvTopmost false)); [reflexivity|split; reflexivity]|].
    eapply rtc_l; [apply AppTopmostSet; reflexivity|]. apply rtc_refl.
  - repeat split.
Qed.

(** C31: from every state of a run before the exit, the program can
    exit cleanly: the UI thread finishes the [Stop] it may be inside,
    then the main window's [Closing] returns without a panic, leaving no
    unlock thread or hook of either feature, the event hook removed, both
    monitors and the topmost goroutine stopped. *)
Theorem program_can_exit ok dlg ws k a :
  rtc app_step (main_app ok dlg ws k) a -> exited a = false ->
  exists a', rtc app_step a a' /\ exited a' = true /\
    Unlock.thr (mouse a') = None /\ Unlock.hooks (Unlock.kern (mouse a')) = [] /\
    Unlock.thr (keyboard a') = None /\ Unlock.hooks (Unlock.kern (keyboard a')) = [] /\
    eventHook (pinS a') = 0 /\ monitor (pinS a') = None /\ bs_monitor (bs a') = false /\
    ticker a' = false.
Proof.
  intros Hr He. destruct (reach_idle a (reach_app_inv ok dlg ws k a Hr) He) as (a1 & H1 & He1 & Om & Ok).
  destruct (closing_clean a1 Om Ok) as (a' & Hc & ? & ? & ? & ? & ? & ? & ? & ? & Hx).
  exists a'. split; [exact (rtc_r _ _ _ H1 (AppClose a1 a' He1 (conj (proj2 Om) (proj2 Ok)) Hc))|].
  repeat split; assumption.
Qed.

(** ** Concrete runs *)

(** [main] on a desktop that shows the agent's black screen, then the
    mouse-unlock box checked. *)
Definition desk0 : winsys := WindowHijacker.desk [bswin] true.

Definition app_mouse : app :=
  set_mouse (main_app true true desk0 Unlock.k_ok) (Unlock.unlock_checked (Unlock.init Unlock.k_ok)).

Lemma reach_app_mouse : rtc app_step (main_app true true desk0 Unlock.k_ok) app_mouse.
Proof.
  apply rtc_once. apply AppMouseUI; [reflexivity|reflexivity|]. apply Unlock.UCheck; reflexivity.
Qed.

Lemma program_capture_synced_witness : capture_synced (gui app_mouse) = true.
Proof. apply (program_capture_synced true true desk0 Unlock.k_ok app_mouse). exact reach_app_mouse. Defined.

Lemma program_can_exit_witness :
  exists a', rtc app_step app_mouse a' /\ exited a' = true /\ ticker a' = false.
Proof.
  destruct (program_can_exit true true desk0 Unlock.k_ok app_mouse) as (a' & Hr & Hx & _ & _ & _ & _ & _ & _ & _ & Ht);
    [exact reach_app_mouse|reflexivity|].
  exists a'. split; [exact Hr|split; [exact Hx|exact Ht]].
Defined.
